(** * weather-supabase-sync: the fetch / cache / dedup / transform / persist pipeline

    A shallow embedding of [sync_weather.py].

    - JSON values returned by [json.loads] are the inductive [Json]; Python's
      [None] is [JNull].
    - Python dicts are insertion-ordered association lists ([Dict]); this is
      what [min(self._data_cache.keys(), key=...)] iterates over.
    - [time.time()] readings are rationals; the i-th reading of a run is
      [clock w i].
    - The methods of [MertaniRainfallAPI] are computations in a state and
      exception monad [M] over the object's fields, the number of clock
      readings taken and the log of HTTP requests sent.
    - Console output is not part of the model, except where evaluating the
      arguments of a message can raise: the identifier slices [sensor_id[:8]]
      and the per-sensor average of the non-CI summary.
    - The worker pool runs its tasks one after the other, in submission
      order; interleavings of the worker threads are outside the model.
    - Sensor identifiers are JSON values as the remote sends them.  The
      source annotates them as [str] and slices them in its messages, so the
      statements about a sensor take its identifier to be a string. *)

From Stdlib Require Import List String Ascii Bool Arith ZArith QArith Lia Permutation.
Import ListNotations.

Set Warnings "-register-all".

Close Scope Q_scope.
Local Open Scope string_scope.
Local Open Scope list_scope.
Local Open Scope nat_scope.

(** ** Module constants *)

Definition CACHE_DURATION_SEC : Q := 300%Q.
Definition DUPLICATE_SKIP_SEC : Q := 60%Q.
Definition DEVICES_API_LIMIT : nat := 50.
Definition SUPABASE_BATCH_SIZE : nat := 1000.
Definition MAX_CACHE_ENTRIES : nat := 500.

(** ** Rational comparisons, as booleans *)

Definition Qltb (x y : Q) : bool := negb (Qle_bool y x).

(** ** Insertion-ordered dictionaries with string keys *)

Module Dict.
Section Ops.
Context {V : Type}.

Definition t := list (string * V).

Definition empty : t := [].

Fixpoint get (k : string) (d : t) : option V :=
  match d with
  | [] => None
  | (k', v) :: d' => if String.eqb k k' then Some v else get k d'
  end.

(** [d[k] = v]: an existing key keeps its position, a new key goes last. *)
Fixpoint set (k : string) (v : V) (d : t) : t :=
  match d with
  | [] => [(k, v)]
  | (k', v') :: d' =>
      if String.eqb k k' then (k, v) :: d' else (k', v') :: set k v d'
  end.

(** [del d[k]] *)
Fixpoint del (k : string) (d : t) : t :=
  match d with
  | [] => []
  | (k', v') :: d' => if String.eqb k k' then d' else (k', v') :: del k d'
  end.

Definition keys (d : t) : list string := map fst d.

Definition len (d : t) : nat := List.length d.
End Ops.
Arguments t : clear implicits.
End Dict.

(** ** JSON values and the Python operations the program applies to them *)

Inductive Json : Type :=
| JNull
| JBool (b : bool)
| JNum (q : Q)
| JStr (s : string)
| JArr (items : list Json)
| JObj (members : Dict.t Json).

Inductive exn : Type :=
| LoginRequired          (* Exception("로그인이 필요합니다.") *)
| LoginFailed            (* Exception("로그인 실패: ...") *)
| SensorDataFailed       (* Exception("센서 데이터 조회 실패: ...") *)
| DeviceListFailed       (* Exception("디바이스 목록 조회 실패: ...") *)
| TransportError         (* connection failure or undecodable body *)
| AttributeError
| TypeError
| KeyError
| ValueError
| ZeroDivisionError.

Inductive result (A : Type) : Type :=
| Ok (a : A)
| Raise (e : exn).
Arguments Ok {A} a.
Arguments Raise {A} e.

(** Library functions of the Python runtime that the model leaves
    uninterpreted. *)
Class PyRuntime : Type := {
  (** [repr] of a number, list or dict, as used by [str()] and f-strings *)
  py_repr : Json -> string;
  (** [float(s)] on a [str]; [None] when it raises [ValueError] *)
  float_of_str : string -> option Q;
  (** [json.dumps(v, ensure_ascii=False, default=str)]; [None] when it
      raises [TypeError] or [ValueError] *)
  json_dumps : Json -> option string;
  (** [json.dumps({"error": "JSON serialization failed", "data": str(v)})] *)
  json_dumps_failed : Json -> string;
  (** [strftime("%Y-%m-%d %H:%M:%S")] of [now - timedelta(days)] and [now] *)
  window_strings : Q -> Z -> string * string
}.

Definition py_truthy (j : Json) : bool :=
  match j with
  | JNull => false
  | JBool b => b
  | JNum q => negb (Qeq_bool q 0%Q)
  | JStr s => negb (String.eqb s "")
  | JArr l => match l with [] => false | _ => true end
  | JObj m => match m with [] => false | _ => true end
  end.

(** [a or b] *)
Definition py_or (a b : Json) : Json := if py_truthy a then a else b.

(** [j == s] for a string literal [s] *)
Definition py_eq_str (j : Json) (s : string) : bool :=
  match j with JStr s' => String.eqb s' s | _ => false end.

(** [j.get(k, default)]; only dicts have [.get] *)
Definition py_get (j : Json) (k : string) (default : Json) : result Json :=
  match j with
  | JObj m => Ok (match Dict.get k m with Some v => v | None => default end)
  | _ => Raise AttributeError
  end.

(** [d.get(k)] on a value known to be a dict *)
Definition dict_get (k : string) (d : Dict.t Json) : Json :=
  match Dict.get k d with Some v => v | None => JNull end.

(** the sequence a [for] loop runs over *)
Definition py_iter (j : Json) : result (list Json) :=
  match j with
  | JArr l => Ok l
  | JStr s => Ok (map (fun c => JStr (String c "")) (list_ascii_of_string s))
  | JObj m => Ok (map (fun kv => JStr (fst kv)) m)
  | _ => Raise TypeError
  end.

(** [j[:8]] is defined on strings and lists only *)
Definition py_sliceable (j : Json) : bool :=
  match j with JStr _ | JArr _ => true | _ => false end.

(** a dict key must be hashable *)
Definition py_hashable (j : Json) : bool :=
  match j with JArr _ | JObj _ => false | _ => true end.

Section WithRuntime.
Context {rt : PyRuntime}.

(** [str(j)] *)
Definition py_str (j : Json) : string :=
  match j with
  | JStr s => s
  | JNull => "None"
  | JBool true => "True"
  | JBool false => "False"
  | _ => py_repr j
  end.

Definition _safe_float (value : Json) : option Q :=
  match value with
  | JNull => None
  | JNum q => Some q
  | JBool b => Some (if b then 1 else 0)%Q
  | JStr s => float_of_str s
  | JArr _ | JObj _ => None
  end.

(** [f"{sensor_id}_{start_date}_{end_date}"] *)
Definition cache_key_of (sensor_id : Json) (start_date end_date : string) : string :=
  (py_str sensor_id ++ "_" ++ start_date ++ "_" ++ end_date)%string.

End WithRuntime.

(** ** The outside world and the state of a run *)

Inductive Request : Type :=
| POST_login (email password : string)
| GET_devices (company : string) (limit : nat)
| GET_records (sensor start_date end_date : string).

(** What [conn.request(...)], [res.read()] and [json.loads] give: the decoded
    body, or an exception. *)
Inductive NetReply : Type :=
| Body (response_data : Json)
| NetError.

Record World : Type := {
  _CI : bool;                              (* GITHUB_ACTIONS == "true" *)
  clock : nat -> Q;                        (* successive clock readings *)
  remote : nat -> Request -> NetReply;     (* reply to the n-th request sent *)
  (** the order in which [as_completed] yields the futures *)
  completion : forall A : Type, list A -> list A
}.

(** One entry of [_data_cache]: [{'data': ..., 'timestamp': ...}].  The only
    writer stores both keys. *)
Record CacheEntry : Type := { data : Json; timestamp : Q }.

Record MertaniRainfallAPI : Type := {
  access_token : Json;
  company_id : Json;
  _sensors_cache : option (list (Dict.t Json));
  _cache_timestamp : option Q;
  _last_processed_cache : Dict.t Q;
  _data_cache : Dict.t CacheEntry
}.

(** [MertaniRainfallAPI.__init__] *)
Definition init : MertaniRainfallAPI := {|
  access_token := JNull;
  company_id := JNull;
  _sensors_cache := None;
  _cache_timestamp := None;
  _last_processed_cache := Dict.empty;
  _data_cache := Dict.empty
|}.

Definition _cache_duration : Q := CACHE_DURATION_SEC.

Record Sys : Type := {
  self : MertaniRainfallAPI;
  ticks : nat;                 (* clock readings taken so far *)
  sent : list Request          (* requests put on the wire so far *)
}.

Definition boot : Sys := {| self := init; ticks := 0; sent := [] |}.

(** the state after one more clock reading *)
Definition tick (s : Sys) : Sys :=
  {| self := self s; ticks := S (ticks s); sent := sent s |}.

Definition with_self (f : MertaniRainfallAPI -> MertaniRainfallAPI) (s : Sys) : Sys :=
  {| self := f (self s); ticks := ticks s; sent := sent s |}.

Definition set_session (token company : Json) (a : MertaniRainfallAPI) : MertaniRainfallAPI :=
  {| access_token := token; company_id := company;
     _sensors_cache := _sensors_cache a; _cache_timestamp := _cache_timestamp a;
     _last_processed_cache := _last_processed_cache a; _data_cache := _data_cache a |}.

Definition set_sensors_cache (sensors : list (Dict.t Json)) (t : Q)
    (a : MertaniRainfallAPI) : MertaniRainfallAPI :=
  {| access_token := access_token a; company_id := company_id a;
     _sensors_cache := Some sensors; _cache_timestamp := Some t;
     _last_processed_cache := _last_processed_cache a; _data_cache := _data_cache a |}.

Definition set_last_processed (d : Dict.t Q) (a : MertaniRainfallAPI) : MertaniRainfallAPI :=
  {| access_token := access_token a; company_id := company_id a;
     _sensors_cache := _sensors_cache a; _cache_timestamp := _cache_timestamp a;
     _last_processed_cache := d; _data_cache := _data_cache a |}.

Definition set_data_cache (d : Dict.t CacheEntry) (a : MertaniRainfallAPI) : MertaniRainfallAPI :=
  {| access_token := access_token a; company_id := company_id a;
     _sensors_cache := _sensors_cache a; _cache_timestamp := _cache_timestamp a;
     _last_processed_cache := _last_processed_cache a; _data_cache := d |}.

(** ** State and exception monad *)

Definition M (A : Type) : Type := Sys -> result A * Sys.

Definition ret {A} (a : A) : M A := fun s => (Ok a, s).

Definition raise {A} (e : exn) : M A := fun s => (Raise e, s).

Definition bind {A B} (m : M A) (k : A -> M B) : M B :=
  fun s => match m s with
           | (Ok a, s') => k a s'
           | (Raise e, s') => (Raise e, s')
           end.

Definition lift {A} (r : result A) : M A := fun s => (r, s).

(** [try: m  except Exception: handler] *)
Definition try_except {A} (m : M A) (handler : exn -> M A) : M A :=
  fun s => match m s with
           | (Ok a, s') => (Ok a, s')
           | (Raise e, s') => handler e s'
           end.

(** what a future holds once its task has run *)
Definition capture {A} (m : M A) : M (result A) :=
  fun s => let (r, s') := m s in (Ok r, s').

Declare Scope py_scope.
Delimit Scope py_scope with py.
Notation "x <- m ;; k" := (bind m (fun x => k))
  (at level 100, m at next level, right associativity) : py_scope.
Notation "m ;;; k" := (bind m (fun _ => k))
  (at level 100, right associativity) : py_scope.
Local Open Scope py_scope.

Fixpoint for_each {A B} (f : A -> M B) (l : list A) : M (list B) :=
  match l with
  | [] => ret []
  | a :: l' => b <- f a ;; bs <- for_each f l' ;; ret (b :: bs)
  end.

Definition get_self : M MertaniRainfallAPI := fun s => (Ok (self s), s).

Definition update_self (f : MertaniRainfallAPI -> MertaniRainfallAPI) : M unit :=
  fun s => (Ok tt, with_self f s).

(** [time.time()] *)
Definition time_time (w : World) : M Q :=
  fun s => (Ok (clock w (ticks s)), tick s).

(** one HTTP exchange, up to [json.loads] of the body *)
Definition http (w : World) (req : Request) : M Json :=
  fun s =>
    let s' := {| self := self s; ticks := ticks s; sent := sent s ++ [req] |} in
    match remote w (List.length (sent s)) req with
    | Body response_data => (Ok response_data, s')
    | NetError => (Raise TransportError, s')
    end.

(** [min(l, key=f)]: the first element with the least key *)
Fixpoint min_by {A} (f : A -> Q) (best : A) (rest : list A) : A :=
  match rest with
  | [] => best
  | k :: rest' => min_by f (if Qltb (f k) (f best) then k else best) rest'
  end.

Definition py_min {A} (f : A -> Q) (l : list A) : option A :=
  match l with
  | [] => None
  | k :: l' => Some (min_by f k l')
  end.

(** [self._data_cache[k].get('timestamp', 0)] *)
Definition stored_timestamp (cache : Dict.t CacheEntry) (k : string) : Q :=
  match Dict.get k cache with
  | Some e => timestamp e
  | None => 0%Q
  end.

(** ** class MertaniRainfallAPI *)

Section Client.
Context {rt : PyRuntime} (w : World).

(** The [Authorization] header and [user_data] that [login] also stores are
    not read by anything the model covers, and are left out. *)
Definition login (email password : string) : M Json :=
  response_data <- http w (POST_login email password) ;;
  status <- lift (py_get response_data "status" JNull) ;;
  if py_eq_str status "OK" then
    data <- lift (py_get response_data "data" (JObj [])) ;;
    token <- lift (py_get data "accessToken" JNull) ;;
    user_data <- lift (py_get data "user" (JObj [])) ;;
    company <- lift (py_get user_data "company_id" JNull) ;;
    update_self (set_session token company) ;;;
    ret response_data
  else raise LoginFailed.

(** The store of lines 109-117: evict the oldest entry at capacity, then
    write the new one with a fresh clock reading. *)
Definition cache_store (cache_key : string) (response_data : Json) : M unit :=
  api <- get_self ;;
  let cache := _data_cache api in
  (if (MAX_CACHE_ENTRIES <=? Dict.len cache)%nat then
     match py_min (stored_timestamp cache) (Dict.keys cache) with
     | Some oldest => update_self (set_data_cache (Dict.del oldest cache))
     | None => raise ValueError
     end
   else ret tt) ;;;
  now <- time_time w ;;
  api <- get_self ;;
  update_self (set_data_cache
    (Dict.set cache_key {| data := response_data; timestamp := now |}
              (_data_cache api))).

(** The lookup of lines 88-93; [None] when the network has to be asked. *)
Definition cache_lookup (sensor_company_id : Json) (cache_key : string)
    (use_cache : bool) : M (option Json) :=
  api <- get_self ;;
  if use_cache then
    match Dict.get cache_key (_data_cache api) with
    | Some cached_data =>
        now <- time_time w ;;
        if Qltb (now - timestamp cached_data)%Q _cache_duration then
          (* the message slices sensor_company_id[:8] *)
          if py_sliceable sensor_company_id then ret (Some (data cached_data))
          else raise TypeError
        else ret None
    | None => ret None
    end
  else ret None.

(** [GET /sensors/records?sensor_company_id=..&start=..&end=..] *)
Definition records_request (sensor_company_id : Json) (start_date end_date : string)
    : Request :=
  GET_records (py_str sensor_company_id) start_date end_date.

Definition get_rainfall_data (sensor_company_id : Json) (start_date end_date : string)
    (use_cache : bool) : M Json :=
  api <- get_self ;;
  if negb (py_truthy (access_token api)) then raise LoginRequired
  else
    let cache_key := cache_key_of sensor_company_id start_date end_date in
    hit <- cache_lookup sensor_company_id cache_key use_cache ;;
    match hit with
    | Some cached => ret cached
    | None =>
        response_data <-
          http w (records_request sensor_company_id start_date end_date) ;;
        status <- lift (py_get response_data "status" JNull) ;;
        if py_eq_str status "OK" then
          (if use_cache then cache_store cache_key response_data else ret tt) ;;;
          ret response_data
        else raise SensorDataFailed
    end.

(** the descriptors one device contributes (lines 150-166) *)
Definition sensors_of_device (device : Json) : result (list (Dict.t Json)) :=
  match device with
  | JObj d =>
      let device_info : Dict.t Json :=
        [ ("device_id", dict_get "device_id" d);
          ("device_name",
            py_or (py_or (dict_get "device_name" d) (dict_get "name" d))
                  (JStr ("Device_" ++
                         py_str (match Dict.get "device_id" d with
                                 | Some v => v
                                 | None => JStr "Unknown"
                                 end))%string));
          ("gps_location_lat",
            py_or (dict_get "gps_location_lat" d) (dict_get "device_latitude" d));
          ("gps_location_lng",
            py_or (dict_get "gps_location_lng" d) (dict_get "device_longitude" d)) ] in
      match py_iter (match Dict.get "sensor_companies" d with
                     | Some v => v
                     | None => JArr []
                     end) with
      | Ok sensor_companies =>
          (fix each (l : list Json) : result (list (Dict.t Json)) :=
             match l with
             | [] => Ok []
             | sensor :: l' =>
                 match py_get sensor "sensor_company_id" JNull with
                 | Ok sid =>
                     match each l' with
                     | Ok rest => Ok ((("sensor_company_id", sid) :: device_info) :: rest)
                     | Raise e => Raise e
                     end
                 | Raise e => Raise e
                 end
             end) sensor_companies
      | Raise e => Raise e
      end
  | _ => Raise AttributeError
  end.

Fixpoint flatten_devices (devices : list Json) : result (list (Dict.t Json)) :=
  match devices with
  | [] => Ok []
  | device :: rest =>
      match sensors_of_device device with
      | Ok here =>
          match flatten_devices rest with
          | Ok there => Ok (here ++ there)
          | Raise e => Raise e
          end
      | Raise e => Raise e
      end
  end.

(** [self._sensors_cache is not None and self._cache_timestamp is not None
     and current_time - self._cache_timestamp < self._cache_duration] *)
Definition fresh_sensors (api : MertaniRainfallAPI) (current_time : Q)
    : option (list (Dict.t Json)) :=
  match _sensors_cache api, _cache_timestamp api with
  | Some sensors, Some t =>
      if Qltb (current_time - t)%Q _cache_duration then Some sensors else None
  | _, _ => None
  end.

Definition get_all_rainfall_sensors_with_device_info : M (list (Dict.t Json)) :=
  current_time <- time_time w ;;
  api <- get_self ;;
  match fresh_sensors api current_time with
  | Some sensors => ret sensors
  | None =>
      if negb (py_truthy (access_token api)) then raise LoginRequired
      else
        response_data <-
          http w (GET_devices (py_str (company_id api)) DEVICES_API_LIMIT) ;;
        status <- lift (py_get response_data "status" JNull) ;;
        if py_eq_str status "OK" then
          outer <- lift (py_get response_data "data" (JObj [])) ;;
          inner <- lift (py_get outer "data" (JArr [])) ;;
          devices <- lift (py_iter inner) ;;
          sensors <- lift (flatten_devices devices) ;;
          update_self (set_sensors_cache sensors current_time) ;;;
          ret sensors
        else raise DeviceListFailed
  end.

(** The duplicate check of lines 192-198: [true] when the request is to be
    skipped. *)
Definition recently_processed (sensor_id : Json) (cache_key : string) : M bool :=
  api <- get_self ;;
  match Dict.get cache_key (_last_processed_cache api) with
  | Some last_time =>
      now <- time_time w ;;
      let time_diff := (now - last_time)%Q in
      if Qltb time_diff DUPLICATE_SKIP_SEC then
        (* the message slices sensor_id[:8] *)
        if py_sliceable sensor_id then ret true else raise TypeError
      else ret false
  | None => ret false
  end.

(** [device_name or device_id or 'Unknown'] *)
Definition display_name_of (sensor_info : Dict.t Json) : Json :=
  let device_name := dict_get "device_name" sensor_info in
  let device_id := dict_get "device_id" sensor_info in
  py_or (py_or device_name device_id) (JStr "Unknown").

Definition fetch_single_sensor_data (sensor_info : Dict.t Json)
    (start_date end_date : string) : M (Json * Json * Json * bool) :=
  match Dict.get "sensor_company_id" sensor_info with
  | None => raise KeyError
  | Some sensor_id =>
      let display_name := display_name_of sensor_info in
      let cache_key := cache_key_of sensor_id start_date end_date in
      skip <- recently_processed sensor_id cache_key ;;
      if skip then ret (sensor_id, JNull, display_name, true)
      else
        try_except
          (data <- get_rainfall_data sensor_id start_date end_date true ;;
           now <- time_time w ;;
           api <- get_self ;;
           update_self (set_last_processed
             (Dict.set cache_key now (_last_processed_cache api))) ;;;
           ret (sensor_id, data, display_name, true))
          (fun _ => ret (sensor_id, JNull, display_name, false))
  end.

(** The collection loop of lines 248-255 over the futures in completion
    order.  [future.result()] re-raises what the task raised;
    [all_data[sensor_id] = data] needs a hashable key and both messages slice
    [sensor_id[:8]], so the loop gets past an identifier only if it is a
    string. *)
Fixpoint collect (futures : list (result (Json * Json * Json * bool)))
    (all_data : Dict.t Json) (success_count : nat) : result (Dict.t Json * nat) :=
  match futures with
  | [] => Ok (all_data, success_count)
  | Raise e :: _ => Raise e
  | Ok (sensor_id, data, device_name, success) :: rest =>
      match sensor_id with
      | JStr sid =>
          collect rest (Dict.set sid data all_data)
                  (if success then S success_count else success_count)
      | _ => Raise TypeError
      end
  end.

(** the identifier shown by the non-CI sample of lines 224-228 *)
Definition sample_id (sensor_info : Dict.t Json) : Json :=
  match Dict.get "sensor_company_id" sensor_info with
  | Some v => v
  | None => JStr "N/A"
  end.

Definition skip_ticks (n : nat) : M unit :=
  fun s => (Ok tt, {| self := self s; ticks := n + ticks s; sent := sent s |}).

(** The worker pool is modelled by running the submitted tasks one after the
    other in submission order, each leaving its outcome in its future;
    [completion w] is the order in which the main thread then sees them.
    Beyond sizing the pool, [max_workers] matters only in that the executor
    refuses a pool of size zero. *)
Definition run_tasks (sensors : list (Dict.t Json)) (start_str end_str : string)
    : M (list (result (Json * Json * Json * bool))) :=
  for_each (fun sensor_info =>
              capture (fetch_single_sensor_data sensor_info start_str end_str))
           sensors.

Definition fetch_all_rainfall_data_parallel (days : Z) (max_workers : nat)
    : M (Dict.t Json) :=
  end_date <- time_time w ;;                       (* datetime.now() *)
  let window := window_strings end_date days in
  let start_str := fst window in
  let end_str := snd window in
  sensors_with_device_info <- get_all_rainfall_sensors_with_device_info ;;
  (if negb (_CI w) &&
      negb (forallb (fun si => py_sliceable (sample_id si))
                    (firstn 3 sensors_with_device_info))
   then raise TypeError else ret tt) ;;;
  start_time <- time_time w ;;
  (* ThreadPoolExecutor(max_workers=0) raises ValueError *)
  (if (max_workers =? 0)%nat then raise ValueError else ret tt) ;;;
  futures <- run_tasks sensors_with_device_info start_str end_str ;;
  collected <- lift (collect (completion w _ futures) Dict.empty 0) ;;
  end_time <- time_time w ;;
  (if _CI w then ret tt
   else if (List.length sensors_with_device_info =? 0)%nat
        then raise ZeroDivisionError        (* seconds per sensor *)
        else api <- get_self ;;
             skip_ticks (Dict.len (_data_cache api))) ;;;
  ret (fst collected).

End Client.

(** ** class SupabaseSync *)

(** The rows written to the destination table. *)
Module TransformedRecord.
Record t : Type := {
  sensor_company_id : string;
  sensor_name : string;
  sensor_unit : string;
  device_id : option string;
  device_name : option string;
  gps_location_lat : option Q;
  gps_location_lng : option Q;
  datetime : Json;
  value_calibration : option Q;
  value_raw : option Q;
  timestamp : string;
  raw_data : string;
  created_at : string
}.
End TransformedRecord.

(** Python's [==] between two hashable JSON values used as dict keys. *)
Definition py_key_eq (a b : Json) : bool :=
  let number (j : Json) : option Q :=
    match j with
    | JBool c => Some (if c then 1 else 0)%Q
    | JNum q => Some q
    | _ => None
    end in
  match a, b with
  | JNull, JNull => true
  | JStr x, JStr y => String.eqb x y
  | _, _ =>
      match number a, number b with
      | Some x, Some y => Qeq_bool x y
      | _, _ => false
      end
  end.

(** a dict keyed by JSON values *)
Fixpoint key_set {V} (k : Json) (v : V) (d : list (Json * V)) : list (Json * V) :=
  match d with
  | [] => [(k, v)]
  | (k', v') :: d' =>
      if py_key_eq k' k then (k', v) :: d' else (k', v') :: key_set k v d'
  end.

Fixpoint key_get {V} (k : Json) (d : list (Json * V)) : option V :=
  match d with
  | [] => None
  | (k', v) :: d' => if py_key_eq k' k then Some v else key_get k d'
  end.

(** [{sensor['sensor_company_id']: sensor for sensor in sensors}] *)
Fixpoint device_info_map_of (sensors : list (Dict.t Json))
    (acc : list (Json * Dict.t Json)) : result (list (Json * Dict.t Json)) :=
  match sensors with
  | [] => Ok acc
  | sensor :: rest =>
      match Dict.get "sensor_company_id" sensor with
      | None => Raise KeyError
      | Some k =>
          if py_hashable k then device_info_map_of rest (key_set k sensor acc)
          else Raise TypeError
      end
  end.

Section Transformer.
Context {rt : PyRuntime}.

(** [str(v) if v else None] *)
Definition str_or_none (v : Json) : option string :=
  if py_truthy v then Some (py_str v) else None.

(** lines 304-326: the row of one reading *)
Definition transformed_record (current_time : string) (sensor_id : string)
    (device_info : Dict.t Json) (sensor_master sensor_record : Json)
    : result TransformedRecord.t :=
  let raw_data_json :=
    match json_dumps sensor_record with
    | Some text => text
    | None => json_dumps_failed sensor_record
    end in
  match py_get sensor_master "sensor_name" (JStr "Unknown") with
  | Raise e => Raise e
  | Ok name =>
  match py_get sensor_master "sensor_unit" (JStr "mm") with
  | Raise e => Raise e
  | Ok unit_ =>
  match py_get sensor_record "datetime" JNull with
  | Raise e => Raise e
  | Ok when =>
  match py_get sensor_record "value_calibration" JNull with
  | Raise e => Raise e
  | Ok calibrated =>
  match py_get sensor_record "value_raw" JNull with
  | Raise e => Raise e
  | Ok raw =>
      Ok {| TransformedRecord.sensor_company_id := sensor_id;
            TransformedRecord.sensor_name := py_str name;
            TransformedRecord.sensor_unit := py_str unit_;
            TransformedRecord.device_id := str_or_none (dict_get "device_id" device_info);
            TransformedRecord.device_name := str_or_none (dict_get "device_name" device_info);
            TransformedRecord.gps_location_lat := _safe_float (dict_get "gps_location_lat" device_info);
            TransformedRecord.gps_location_lng := _safe_float (dict_get "gps_location_lng" device_info);
            TransformedRecord.datetime := when;
            TransformedRecord.value_calibration := _safe_float calibrated;
            TransformedRecord.value_raw := _safe_float raw;
            TransformedRecord.timestamp := current_time;
            TransformedRecord.raw_data := raw_data_json;
            TransformedRecord.created_at := current_time |}
  end end end end end.

(** [for x in xs: ...] appending to [transformed_records]; an exception in
    the body leaves the function. *)
Fixpoint extend {A} (body : A -> result (list TransformedRecord.t)) (xs : list A)
    : result (list TransformedRecord.t) :=
  match xs with
  | [] => Ok []
  | x :: xs' =>
      match body x with
      | Raise e => Raise e
      | Ok here =>
          match extend body xs' with
          | Raise e => Raise e
          | Ok there => Ok (here ++ there)
          end
      end
  end.

(** lines 299-326: one grouping of the response *)
Definition rows_of_record (current_time : string) (sensor_id : string)
    (device_info : Dict.t Json) (record : Json) : result (list TransformedRecord.t) :=
  match py_get record "sensor_master" (JObj []) with
  | Raise e => Raise e
  | Ok sensor_master =>
  match py_get record "sensor_records" (JArr []) with
  | Raise e => Raise e
  | Ok sensor_records =>
  match py_iter sensor_records with
  | Raise e => Raise e
  | Ok readings =>
      extend (fun sensor_record =>
                match transformed_record current_time sensor_id device_info
                                         sensor_master sensor_record with
                | Ok row => Ok [row]
                | Raise e => Raise e
                end) readings
  end end end.

(** lines 295-326: one entry of the batch *)
Definition rows_of_sensor (current_time : string)
    (device_info_map : list (Json * Dict.t Json))
    (sensor_id : string) (sensor_data : Json) : result (list TransformedRecord.t) :=
  if negb (py_truthy sensor_data) then Ok []
  else
    match py_get sensor_data "status" JNull with
    | Raise e => Raise e
    | Ok status =>
        if py_eq_str status "OK" then
          let device_info :=
            match key_get (JStr sensor_id) device_info_map with
            | Some info => info
            | None => []
            end in
          match py_get sensor_data "data" (JObj []) with
          | Raise e => Raise e
          | Ok outer =>
          match py_get outer "data" (JArr []) with
          | Raise e => Raise e
          | Ok inner =>
          match py_iter inner with
          | Raise e => Raise e
          | Ok records =>
              extend (rows_of_record current_time sensor_id device_info) records
          end end end
        else Ok []
    end.

(** [current_time] is [datetime.now().isoformat()] as read on line 278;
    [ci] is [_CI].  Outside CI the mapping check of lines 288-291 slices the
    first three identifiers. *)
Definition transform_rainfall_data (ci : bool) (current_time : string)
    (rainfall_data : Dict.t Json) (sensors_with_device_info : list (Dict.t Json))
    : result (list TransformedRecord.t) :=
  match device_info_map_of sensors_with_device_info [] with
  | Raise e => Raise e
  | Ok device_info_map =>
      if negb ci &&
         negb (forallb (fun kv => py_sliceable (fst kv)) (firstn 3 device_info_map))
      then Raise TypeError
      else
        extend (fun item : string * Json =>
                  rows_of_sensor current_time device_info_map (fst item) (snd item))
               rainfall_data
  end.

End Transformer.

(** The destination table: what [insert(rows).execute()] does on the n-th
    call, either a result whose [data] lists the rows written (an absent
    [data] is the empty list) or an exception. *)
Inductive InsertReply : Type :=
| Inserted (result_data : list TransformedRecord.t)
| InsertFailed.

Definition Supabase : Type := nat -> list TransformedRecord.t -> InsertReply.

(** [range(0, stop, step)] *)
Definition py_range (stop step : nat) : list nat :=
  map (fun k => k * step) (seq 0 ((stop + step - 1) / step)).

(** [records[i:i + batch_size]] for each [i] of the range *)
Definition batches_of (batch_size : nat) (records : list TransformedRecord.t) : list (list TransformedRecord.t) :=
  map (fun i => firstn batch_size (skipn i records))
      (py_range (List.length records) batch_size).

(** lines 359-366: the rows of a failed batch, one insert each; returns the
    number of inserts made so far and the running total *)
Fixpoint retry_rows (db : Supabase) (calls : nat) (batch : list TransformedRecord.t)
    (total_saved : nat) : nat * nat :=
  match batch with
  | [] => (calls, total_saved)
  | record :: rest =>
      let total_saved' :=
        match db calls [record] with
        | Inserted (_ :: _) => S total_saved
        | Inserted [] => total_saved
        | InsertFailed => total_saved
        end in
      retry_rows db (S calls) rest total_saved'
  end.

(** lines 349-366 *)
Fixpoint save_batches (db : Supabase) (calls : nat) (batches : list (list TransformedRecord.t))
    (total_saved : nat) : nat * nat :=
  match batches with
  | [] => (calls, total_saved)
  | batch :: rest =>
      match db calls batch with
      | Inserted result_data =>
          save_batches db (S calls) rest (total_saved + List.length result_data)
      | InsertFailed =>
          let '(calls', total_saved') := retry_rows db (S calls) batch total_saved in
          save_batches db calls' rest total_saved'
      end
  end.

(** Returns the boolean of the source and the total the closing message
    reports ([None] on the empty input, which prints no total).  Every
    destination error is handled inside the batch loop, so the outer handler
    that returns [False] has nothing left to catch. *)
Definition save_to_supabase (db : Supabase) (records : list TransformedRecord.t)
    : bool * option nat :=
  match records with
  | [] => (true, None)
  | _ =>
      let '(_, total_saved) :=
        save_batches db 0 (batches_of SUPABASE_BATCH_SIZE records) 0 in
      (true, Some total_saved)
  end.

(** ** A concrete runtime and world, used to run the model on examples *)

Definition plain_runtime : PyRuntime := {|
  py_repr := fun _ => "<repr>";
  float_of_str := fun _ => None;
  json_dumps := fun _ => Some "<json>";
  json_dumps_failed := fun _ => "<failed>";
  window_strings := fun _ _ => ("2024-01-01 00:00:00", "2024-01-02 00:00:00")
|}.

Definition reading (when : string) (value : Q) : Json :=
  JObj [("datetime", JStr when); ("value_calibration", JNum value);
        ("value_raw", JNum value)].

Definition ok_response (readings : list Json) : Json :=
  JObj [("status", JStr "OK");
        ("data", JObj [("data",
           JArr [JObj [("sensor_master",
                          JObj [("sensor_name", JStr "rain"); ("sensor_unit", JStr "mm")]);
                       ("sensor_records", JArr readings)]])])].

Definition error_response : Json := JObj [("status", JStr "ERROR")].

Definition device (id : string) (sensors : list string) : Json :=
  JObj [("device_id", JStr id);
        ("device_name", JStr ("station " ++ id)%string);
        ("gps_location_lat", JNum 1%Q);
        ("gps_location_lng", JNum 2%Q);
        ("sensor_companies",
          JArr (map (fun sid => JObj [("sensor_company_id", JStr sid)]) sensors))].

(** A remote that knows sensors [s1], [s2] (one reading each) and answers
    with an error for any other sensor; clock readings are ten seconds
    apart. *)
Definition demo_world (devices : list Json) : World := {|
  _CI := true;
  clock := fun n => inject_Z (10 * Z.of_nat n);
  remote := fun _ req =>
    match req with
    | POST_login _ _ =>
        Body (JObj [("status", JStr "OK");
                    ("data", JObj [("accessToken", JStr "token");
                                   ("user", JObj [("company_id", JStr "acme")])])])
    | GET_devices _ _ =>
        Body (JObj [("status", JStr "OK"); ("data", JObj [("data", JArr devices)])])
    | GET_records sensor _ _ =>
        if String.eqb sensor "s1" then Body (ok_response [reading "t1" 5%Q])
        else if String.eqb sensor "s2" then Body (ok_response [reading "t2" 7%Q])
        else Body error_response
    end;
  completion := fun _ l => l
|}.

(** the state right after a successful login *)
Definition logged_in : Sys :=
  with_self (set_session (JStr "token") (JStr "acme")) boot.

Definition sensor (sid : string) : Dict.t Json := [("sensor_company_id", JStr sid)].

(** ** Notions used in the statements *)

(** the response reports success: [response_data.get('status') == 'OK'] *)
Definition status_ok (j : Json) : bool :=
  match py_get j "status" JNull with
  | Ok status => py_eq_str status "OK"
  | Raise _ => false
  end.

(** the reading cache once room has been made for a new entry *)
Definition evicted (cache : Dict.t CacheEntry) : Dict.t CacheEntry :=
  if (MAX_CACHE_ENTRIES <=? Dict.len cache)%nat then
    match py_min (stored_timestamp cache) (Dict.keys cache) with
    | Some oldest => Dict.del oldest cache
    | None => cache
    end
  else cache.

Definition reading_cache (s : Sys) : Dict.t CacheEntry := _data_cache (self s).

Definition ledger (s : Sys) : Dict.t Q := _last_processed_cache (self s).

Definition has_session (s : Sys) : bool := py_truthy (access_token (self s)).

(** The public operations of the client, and the state a sequence of them
    leads to. *)
Inductive Call : Type :=
| CallLogin (email password : string)
| CallGetRainfallData (sensor_company_id : Json) (start_date end_date : string)
                      (use_cache : bool)
| CallGetAllSensors
| CallFetchSingle (sensor_info : Dict.t Json) (start_date end_date : string)
| CallFetchAll (days : Z) (max_workers : nat).

Definition run_call {rt : PyRuntime} (w : World) (c : Call) (s : Sys) : Sys :=
  match c with
  | CallLogin email password => snd (login w email password s)
  | CallGetRainfallData sid st en uc => snd (get_rainfall_data w sid st en uc s)
  | CallGetAllSensors => snd (get_all_rainfall_sensors_with_device_info w s)
  | CallFetchSingle si st en => snd (fetch_single_sensor_data w si st en s)
  | CallFetchAll days max_workers =>
      snd (fetch_all_rainfall_data_parallel w days max_workers s)
  end.

Definition run_calls {rt : PyRuntime} (w : World) (calls : list Call) (s : Sys) : Sys :=
  fold_left (fun s c => run_call w c s) calls s.

(** the reading cache respects its capacity *)
Definition bounded (s : Sys) : Prop :=
  Dict.len (reading_cache s) <= MAX_CACHE_ENTRIES.

(** a computation that keeps the cache within capacity, however it ends *)
Definition preserves {A} (m : M A) : Prop :=
  forall s r s', m s = (r, s') -> bounded s -> bounded s'.

(** the state after the ledger has been stamped for [cache_key] *)
Definition stamped {rt : PyRuntime} (w : World) (cache_key : string) (s : Sys) : Sys :=
  {| self := set_last_processed (Dict.set cache_key (clock w (ticks s)) (ledger s))
                                (self s);
     ticks := S (ticks s);
     sent := sent s |}.

(** the identifiers of a sensor list are the strings [sids] *)
Definition has_ids (sensors : list (Dict.t Json)) (sids : list string) : Prop :=
  map (Dict.get "sensor_company_id") sensors = map (fun sid => Some (JStr sid)) sids.

(** [as_completed] yields every future once *)
Definition fair_completion (w : World) : Prop :=
  forall (A : Type) (l : list A), Permutation (completion w A l) l.

(** a future that holds a tuple for sensor [sid], with a null payload when
    the fetch failed *)
Definition settled (sid : string) (f : result (Json * Json * Json * bool)) : Prop :=
  exists payload name success,
    f = Ok (JStr sid, payload, name, success) /\ (success = false -> payload = JNull).

Definition is_dict (j : Json) : bool :=
  match j with JObj _ => true | _ => false end.

(** A grouping of a response as the remote API documents it: a dict whose
    [sensor_master], when present, is a dict and whose [sensor_records],
    when present, is a list of dicts. *)
Definition grouping_conforms (g : Json) : bool :=
  match g with
  | JObj gm =>
      match Dict.get "sensor_master" gm with
      | Some master => is_dict master
      | None => true
      end &&
      match Dict.get "sensor_records" gm with
      | Some (JArr readings) => forallb is_dict readings
      | Some _ => false
      | None => true
      end
  | _ => false
  end.

(** the groupings of a response, [response['data']['data']] *)
Definition groupings_of (payload : Json) : list Json :=
  match payload with
  | JObj m =>
      match Dict.get "data" m with
      | Some (JObj dm) =>
          match Dict.get "data" dm with
          | Some (JArr gs) => gs
          | _ => []
          end
      | _ => []
      end
  | _ => []
  end.

(** A batch entry as the orchestrator produces it: null, or a response dict;
    a response that reports success has the documented shape. *)
Definition payload_conforms (payload : Json) : bool :=
  match payload with
  | JNull => true
  | JObj m =>
      if status_ok payload then
        match Dict.get "data" m with
        | Some (JObj dm) =>
            match Dict.get "data" dm with
            | Some (JArr gs) => forallb grouping_conforms gs
            | Some _ => false
            | None => true
            end
        | Some _ => false
        | None => true
        end
      else true
  | _ => false
  end.

(** the raw readings one grouping carries *)
Definition readings_in (g : Json) : nat :=
  match g with
  | JObj gm =>
      match Dict.get "sensor_records" gm with
      | Some (JArr readings) => List.length readings
      | _ => 0
      end
  | _ => 0
  end.

(** the raw readings of a batch entry that is non-null and reports success;
    zero for any other entry *)
Definition reading_count (payload : Json) : nat :=
  if py_truthy payload && status_ok payload
  then list_sum (map readings_in (groupings_of payload))
  else 0.

(** a row without device information *)
Definition no_device_fields (r : TransformedRecord.t) : Prop :=
  TransformedRecord.device_id r = None /\ TransformedRecord.device_name r = None /\
  TransformedRecord.gps_location_lat r = None /\ TransformedRecord.gps_location_lng r = None.

(** the same row, processed at time [t] *)
Definition restamp (t : string) (r : TransformedRecord.t) : TransformedRecord.t :=
  {| TransformedRecord.sensor_company_id := TransformedRecord.sensor_company_id r;
     TransformedRecord.sensor_name := TransformedRecord.sensor_name r;
     TransformedRecord.sensor_unit := TransformedRecord.sensor_unit r;
     TransformedRecord.device_id := TransformedRecord.device_id r;
     TransformedRecord.device_name := TransformedRecord.device_name r;
     TransformedRecord.gps_location_lat := TransformedRecord.gps_location_lat r;
     TransformedRecord.gps_location_lng := TransformedRecord.gps_location_lng r;
     TransformedRecord.datetime := TransformedRecord.datetime r;
     TransformedRecord.value_calibration := TransformedRecord.value_calibration r;
     TransformedRecord.value_raw := TransformedRecord.value_raw r;
     TransformedRecord.timestamp := t;
     TransformedRecord.raw_data := TransformedRecord.raw_data r;
     TransformedRecord.created_at := t |}.

Definition result_map {A B} (f : A -> B) (r : result A) : result B :=
  match r with
  | Ok a => Ok (f a)
  | Raise e => Raise e
  end.

(** the end-to-end scenario: three sensors, two answering with one reading
    each, the third failing *)
Definition scenario_batch : Dict.t Json :=
  [("s1", ok_response [reading "t1" 5%Q]);
   ("s2", ok_response [reading "t2" 7%Q]);
   ("s3", JNull)].

Definition scenario_sensors : list (Dict.t Json) :=
  [sensor "s1"; sensor "s2"; sensor "s3"].

(** the single-row insert made by call number [call] saved the row:
    it returned, and its result lists data *)
Definition row_saved (db : Supabase) (call : nat) (record : TransformedRecord.t) : bool :=
  match db call [record] with
  | Inserted (_ :: _) => true
  | _ => false
  end.

(** rows saved when a batch is retried row by row from call [call] on *)
Fixpoint saved_in_retry (db : Supabase) (call : nat) (batch : list TransformedRecord.t) : nat :=
  match batch with
  | [] => 0
  | record :: rest =>
      (if row_saved db call record then 1 else 0) + saved_in_retry db (S call) rest
  end.

(** ** Further concrete worlds and states *)

(** the inventory of the demo: two devices, three sensors *)
Definition demo_devices : list Json :=
  [device "d1" ["s1"; "s2"]; device "d2" ["s3"]].

(** a remote that lists the same sensor under one device twice *)
Definition twice_listed : list Json := [device "d1" ["s1"; "s1"]].

(** A remote whose first login reply carries a token and whose later login
    replies report "OK" without one. *)
Definition relogin_world : World := {|
  _CI := true;
  clock := fun n => inject_Z (10 * Z.of_nat n);
  remote := fun n req =>
    match req with
    | POST_login _ _ =>
        if (n =? 0)%nat
        then remote (demo_world demo_devices) n req
        else Body (JObj [("status", JStr "OK"); ("data", JObj [])])
    | _ => remote (demo_world demo_devices) n req
    end;
  completion := fun _ l => l
|}.

(** login, list the sensors, then a login that yields no token *)
Definition session_lost : Sys :=
  run_calls (rt := plain_runtime) relogin_world
    [CallLogin "user" "secret"; CallGetAllSensors; CallLogin "user" "secret"] boot.

(** a reading cache at capacity: entry [n] has key "k" repeated [n] times
    and timestamp [n] *)
Definition full_cache : Dict.t CacheEntry :=
  map (fun n => (String.concat "" (repeat "k" n),
                 {| data := JNull; timestamp := inject_Z (Z.of_nat n) |}))
      (seq 0 MAX_CACHE_ENTRIES).

Definition at_capacity : Sys := with_self (set_data_cache full_cache) logged_in.

Definition demo_row (sid : string) : TransformedRecord.t :=
  {| TransformedRecord.sensor_company_id := sid; TransformedRecord.sensor_name := "rain"; TransformedRecord.sensor_unit := "mm";
     TransformedRecord.device_id := None; TransformedRecord.device_name := None;
     TransformedRecord.gps_location_lat := None; TransformedRecord.gps_location_lng := None;
     TransformedRecord.datetime := JNull; TransformedRecord.value_calibration := None; TransformedRecord.value_raw := None;
     TransformedRecord.timestamp := "now"; TransformedRecord.raw_data := "{}"; TransformedRecord.created_at := "now" |}.

(** a destination that rejects every bulk insert and the single row "s2" *)
Definition flaky_db : Supabase :=
  fun _ rows =>
    match rows with
    | [r] => if String.eqb (TransformedRecord.sensor_company_id r) "s2" then InsertFailed
             else Inserted [r]
    | _ => InsertFailed
    end.

(** ** Notions used in the further properties *)

(** the state after one more request has gone out *)
Definition after_request (req : Request) (s : Sys) : Sys :=
  {| self := self s; ticks := ticks s; sent := sent s ++ [req] |}.

(** the state after a fetched response has been stored in the reading cache *)
Definition after_store (w : World) (cache_key : string) (j : Json) (s : Sys) : Sys :=
  {| self := set_data_cache
               (Dict.set cache_key {| data := j; timestamp := clock w (ticks s) |}
                         (evicted (reading_cache s))) (self s);
     ticks := S (ticks s);
     sent := sent s |}.

(** [GET /devices?company_id=..&limit=..] as the client in state [s] sends it *)
Definition devices_request {rt : PyRuntime} (s : Sys) : Request :=
  GET_devices (py_str (company_id (self s))) DEVICES_API_LIMIT.

(** what lines 146-166 make of a decoded inventory response *)
Definition parse_inventory {rt : PyRuntime} (response_data : Json)
    : result (list (Dict.t Json)) :=
  match py_get response_data "status" JNull with
  | Raise e => Raise e
  | Ok status =>
      if py_eq_str status "OK" then
        match py_get response_data "data" (JObj []) with
        | Raise e => Raise e
        | Ok outer =>
            match py_get outer "data" (JArr []) with
            | Raise e => Raise e
            | Ok inner =>
                match py_iter inner with
                | Raise e => Raise e
                | Ok devices => flatten_devices devices
                end
            end
        end
      else Raise DeviceListFailed
  end.

(** the descriptor fields every sensor of device [d] shares *)
Definition device_info_of {rt : PyRuntime} (d : Dict.t Json) : Dict.t Json :=
  [ ("device_id", dict_get "device_id" d);
    ("device_name",
      py_or (py_or (dict_get "device_name" d) (dict_get "name" d))
            (JStr ("Device_" ++
                   py_str (match Dict.get "device_id" d with
                           | Some v => v
                           | None => JStr "Unknown"
                           end))%string));
    ("gps_location_lat",
      py_or (dict_get "gps_location_lat" d) (dict_get "device_latitude" d));
    ("gps_location_lng",
      py_or (dict_get "gps_location_lng" d) (dict_get "device_longitude" d)) ].

(** the [sensor_companies] of a device *)
Definition sensor_entries (device : Json) : list Json :=
  match device with
  | JObj d =>
      match Dict.get "sensor_companies" d with
      | Some (JArr entries) => entries
      | _ => []
      end
  | _ => []
  end.

(** A device as the remote API documents it: a dict whose
    [sensor_companies], when present, is a list of dicts. *)
Definition device_conforms (device : Json) : bool :=
  match device with
  | JObj d =>
      match Dict.get "sensor_companies" d with
      | Some (JArr entries) => forallb is_dict entries
      | Some _ => false
      | None => true
      end
  | _ => false
  end.

(** the descriptors of a conforming device, one per sensor entry *)
Definition descriptors_of {rt : PyRuntime} (device : Json) : list (Dict.t Json) :=
  match device with
  | JObj d =>
      map (fun entry =>
             match entry with
             | JObj e => ("sensor_company_id", dict_get "sensor_company_id" e)
                         :: device_info_of d
             | _ => []
             end)
          (sensor_entries device)
  | _ => []
  end.

(** every key of the ledger of [s] is still a key of the ledger of [s'] *)
Definition ledger_grows (s s' : Sys) : Prop :=
  forall k, In k (Dict.keys (ledger s)) -> In k (Dict.keys (ledger s')).

Definition same_session (s s' : Sys) : Prop :=
  access_token (self s') = access_token (self s) /\
  company_id (self s') = company_id (self s).

Definition is_login (c : Call) : bool :=
  match c with CallLogin _ _ => true | _ => false end.

(** [s'] has sent what [s] had sent and then at most [n] further requests *)
Definition sent_since (n : nat) (s s' : Sys) : Prop :=
  exists l, sent s' = sent s ++ l /\ List.length l <= n.

(** a computation whose start and end states are always related by [R] *)
Definition moves (R : Sys -> Sys -> Prop) {A} (m : M A) : Prop :=
  forall s r s', m s = (r, s') -> R s s'.

(** the state in which the non-CI summary has counted the fresh cache entries *)
Definition after_summary (w : World) (s : Sys) : Sys :=
  if _CI w then s
  else {| self := self s; ticks := Dict.len (reading_cache s) + ticks s; sent := sent s |}.

(** the last descriptor of the list that carries the identifier [sid] *)
Fixpoint descriptor_for (sid : string) (sensors : list (Dict.t Json))
    : option (Dict.t Json) :=
  match sensors with
  | [] => None
  | si :: rest =>
      match descriptor_for sid rest with
      | Some found => Some found
      | None =>
          match Dict.get "sensor_company_id" si with
          | Some (JStr x) => if String.eqb x sid then Some si else None
          | _ => None
          end
      end
  end.

(** the readings of a grouping, [record['sensor_records']] *)
Definition readings_of (g : Json) : list Json :=
  match g with
  | JObj gm =>
      match Dict.get "sensor_records" gm with
      | Some (JArr readings) => readings
      | _ => []
      end
  | _ => []
  end.

(** the readings of a batch entry in traversal order; none unless the entry
    is non-null and reports success *)
Definition readings_of_entry (payload : Json) : list Json :=
  if py_truthy payload && status_ok payload
  then flat_map readings_of (groupings_of payload)
  else [].

(** [reading.get('datetime')] *)
Definition datetime_of (reading : Json) : Json :=
  match reading with
  | JObj r => dict_get "datetime" r
  | _ => JNull
  end.

(** the device fields of row [r] are those of descriptor [info] *)
Definition device_fields_from {rt : PyRuntime} (info : Dict.t Json) (r : TransformedRecord.t) : Prop :=
  TransformedRecord.device_id r = str_or_none (dict_get "device_id" info) /\
  TransformedRecord.device_name r = str_or_none (dict_get "device_name" info) /\
  TransformedRecord.gps_location_lat r = _safe_float (dict_get "gps_location_lat" info) /\
  TransformedRecord.gps_location_lng r = _safe_float (dict_get "gps_location_lng" info).

(** what one reading becomes *)
Definition row_facts {rt : PyRuntime} (now sid : string) (info : Dict.t Json) (reading : Json)
    (row : TransformedRecord.t) : Prop :=
  TransformedRecord.sensor_company_id row = sid /\
  TransformedRecord.datetime row = datetime_of reading /\
  TransformedRecord.timestamp row = now /\ TransformedRecord.created_at row = now /\
  device_fields_from info row.

(** [str(d.get(k, default))] for a dict [d] *)
Definition str_field {rt : PyRuntime} (d : Dict.t Json) (k default : string) : string :=
  py_str (match Dict.get k d with Some v => v | None => JStr default end).

(** a destination that never reports more rows than the call gave it *)
Definition reports_rows_given (db : Supabase) : Prop :=
  forall call rows written, db call rows = Inserted written ->
                            List.length written <= List.length rows.

(** ** main *)

(** What a run takes from its process: the environment variables, the
    destination client that [create_client(url, key)] builds (or the
    exception it raises), and [isoformat()] of a clock reading. *)
Record Process : Type := {
  MERTANI_USER_EMAIL : option string;
  MERTANI_USER_PASSWORD : option string;
  SUPABASE_URL : option string;
  SUPABASE_KEY : option string;
  create_client : string -> string -> result Supabase;
  isoformat : Q -> string
}.

(** [not v] for the value of [os.getenv]: unset, or the empty string *)
Definition unset (v : option string) : bool :=
  match v with
  | Some text => String.eqb text ""
  | None => true
  end.

Definition getenv (v : option string) : string :=
  match v with Some text => text | None => "" end.

(** what the run did about persistence *)
Inductive Persisted : Type :=
| NotConfigured                               (* no destination in the environment *)
| NothingToSave                               (* the transform gave no rows *)
| Saved (success : bool) (reported : option nat).

(** how [main] returned *)
Inductive Outcome : Type :=
| MissingCredentials
| NoSensors
| Summary (total_sensors success_count : nat) (persisted : Persisted).

(** [sum(1 for d in rainfall_data.values() if d is not None)] *)
Definition count_not_none (rainfall_data : Dict.t Json) : nat :=
  List.length (filter (fun item => match snd item with JNull => false | _ => true end)
                      rainfall_data).

(** [api = MertaniRainfallAPI()] *)
Definition new_api : M unit := update_self (fun _ => init).

(** lines 400-416 *)
Definition synchronize {rt : PyRuntime} (w : World) (p : Process)
    (rainfall_data : Dict.t Json) (sensors_with_device_info : list (Dict.t Json))
    : M Persisted :=
  if negb (unset (SUPABASE_URL p)) && negb (unset (SUPABASE_KEY p)) then
    match create_client p (getenv (SUPABASE_URL p)) (getenv (SUPABASE_KEY p)) with
    | Raise e => raise e
    | Ok db =>
        current_time <- time_time w ;;               (* datetime.now() *)
        transformed_records <-
          lift (transform_rainfall_data (_CI w) (isoformat p current_time)
                  rainfall_data sensors_with_device_info) ;;
        match transformed_records with
        | [] => ret NothingToSave
        | _ =>
            let '(success, reported) := save_to_supabase db transformed_records in
            ret (Saved success reported)
        end
    end
  else ret NotConfigured.

(** The handler of lines 432-434 prints and re-raises, so an exception of
    the body is an exception of [main]. *)
Definition main {rt : PyRuntime} (w : World) (p : Process) : M Outcome :=
  start_time <- time_time w ;;
  if unset (MERTANI_USER_EMAIL p) || unset (MERTANI_USER_PASSWORD p)
  then ret MissingCredentials
  else
    new_api ;;;
    login w (getenv (MERTANI_USER_EMAIL p)) (getenv (MERTANI_USER_PASSWORD p)) ;;;
    sensors_with_device_info <- get_all_rainfall_sensors_with_device_info w ;;
    match sensors_with_device_info with
    | [] => ret NoSensors
    | _ =>
        rainfall_data <- fetch_all_rainfall_data_parallel w 1 10 ;;
        persisted <- synchronize w p rainfall_data sensors_with_device_info ;;
        end_time <- time_time w ;;
        ret (Summary (Dict.len rainfall_data) (count_not_none rainfall_data) persisted)
    end.

(** the state in which [main] logs in: a new client, one clock reading on *)
Definition started (s : Sys) : Sys := with_self (fun _ => init) (tick s).

(** a remote that answers every request with an error status *)
Definition failing_world : World := {|
  _CI := true;
  clock := fun n => inject_Z (10 * Z.of_nat n);
  remote := fun _ _ => Body error_response;
  completion := fun _ l => l
|}.

(** the state [s] once [n] clock readings have been taken in all *)
Definition at_tick (n : nat) (s : Sys) : Sys :=
  {| self := self s; ticks := n; sent := sent s |}.

(** a process with credentials and no destination configured *)
Definition demo_process : Process := {|
  MERTANI_USER_EMAIL := Some "user";
  MERTANI_USER_PASSWORD := Some "secret";
  SUPABASE_URL := None;
  SUPABASE_KEY := None;
  create_client := fun _ _ => Ok flaky_db;
  isoformat := fun _ => "now"
|}.

Definition no_credentials : Process := {|
  MERTANI_USER_EMAIL := Some "user";
  MERTANI_USER_PASSWORD := Some "";
  SUPABASE_URL := None;
  SUPABASE_KEY := None;
  create_client := fun _ _ => Ok flaky_db;
  isoformat := fun _ => "now"
|}.

(** a destination that writes every row it is given *)
Definition obliging_db : Supabase := fun _ rows => Inserted rows.

(** * Properties *)

(** ** Arithmetic and dictionary facts *)

Lemma Qltb_lt (x y : Q) : Qltb x y = true <-> (x < y)%Q.
Proof.
  unfold Qltb. rewrite negb_true_iff. split; intro H.
  - apply Qnot_le_lt. intro Hle. apply Qle_bool_iff in Hle. congruence.
  - destruct (Qle_bool y x) eqn:E; [|reflexivity].
    apply Qle_bool_iff in E. exfalso. exact (Qlt_not_le _ _ H E).
Qed.

Lemma Qltb_ge (x y : Q) : Qltb x y = false <-> (y <= x)%Q.
Proof.
  unfold Qltb. rewrite negb_false_iff. apply Qle_bool_iff.
Qed.


Lemma dict_get_set_same {V} (k : string) (v : V) (d : Dict.t V) :
  Dict.get k (Dict.set k v d) = Some v.
Proof.
  induction d as [|[k' v'] d IH]; simpl.
  - now rewrite String.eqb_refl.
  - destruct (String.eqb k k') eqn:E; simpl;
      [now rewrite String.eqb_refl | now rewrite E].
Qed.

Lemma dict_get_set_other {V} (k k' : string) (v : V) (d : Dict.t V) :
  k <> k' -> Dict.get k' (Dict.set k v d) = Dict.get k' d.
Proof.
  intro Hne. induction d as [|[k0 v0] d IH]; simpl.
  - destruct (String.eqb k' k) eqn:E; [|reflexivity].
    apply String.eqb_eq in E. congruence.
  - destruct (String.eqb k k0) eqn:E; simpl.
    + apply String.eqb_eq in E. subst k0.
      destruct (String.eqb k' k) eqn:E'; [|reflexivity].
      apply String.eqb_eq in E'. congruence.
    + now rewrite IH.
Qed.

Lemma dict_len_set {V} (k : string) (v : V) (d : Dict.t V) :
  Dict.len (Dict.set k v d) <= S (Dict.len d).
Proof.
  unfold Dict.len. induction d as [|[k' v'] d IH]; simpl.
  - lia.
  - destruct (String.eqb k k'); simpl; lia.
Qed.

Lemma dict_len_del {V} (k : string) (d : Dict.t V) :
  In k (Dict.keys d) -> S (Dict.len (Dict.del k d)) = Dict.len d.
Proof.
  unfold Dict.len, Dict.keys. induction d as [|[k' v'] d IH]; simpl.
  - tauto.
  - intros [Heq | Hin].
    + subst k'. now rewrite String.eqb_refl.
    + destruct (String.eqb k k'); simpl; auto.
Qed.

Lemma dict_get_in_keys {V} (k : string) (v : V) (d : Dict.t V) :
  Dict.get k d = Some v -> In k (Dict.keys d).
Proof.
  unfold Dict.keys. induction d as [|[k' v'] d IH]; simpl; [discriminate|].
  destruct (String.eqb k k') eqn:E.
  - apply String.eqb_eq in E. auto.
  - auto.
Qed.

Lemma dict_in_keys_get {V} (k : string) (d : Dict.t V) :
  In k (Dict.keys d) -> exists v, Dict.get k d = Some v.
Proof.
  unfold Dict.keys. induction d as [|[k' v'] d IH]; simpl; [tauto|].
  intros [Heq | Hin].
  - subst. rewrite String.eqb_refl. eauto.
  - destruct (String.eqb k k'); eauto.
Qed.

(** ** [min] picks a least element *)

Lemma min_by_spec {A} (f : A -> Q) (rest : list A) (best : A) :
  let m := min_by f best rest in
  (m = best \/ In m rest) /\
  (f m <= f best)%Q /\
  (forall k, In k rest -> f m <= f k)%Q.
Proof.
  revert best. induction rest as [|k rest IH]; intros best; simpl.
  - repeat split; auto using Qle_refl. intros k [].
  - destruct (IH (if Qltb (f k) (f best) then k else best)) as (Hin & Hle & Hall).
    destruct (Qltb (f k) (f best)) eqn:E.
    + apply Qltb_lt in E. repeat split.
      * destruct Hin as [-> | Hin]; auto.
      * eapply Qle_trans; [exact Hle|]. now apply Qlt_le_weak.
      * intros k' [<- | Hk']; auto.
    + apply Qltb_ge in E. repeat split.
      * destruct Hin as [-> | Hin]; auto.
      * exact Hle.
      * intros k' [<- | Hk']; auto. eapply Qle_trans; eauto.
Qed.

Lemma py_min_spec {A} (f : A -> Q) (l : list A) (m : A) :
  py_min f l = Some m ->
  In m l /\ forall k, In k l -> (f m <= f k)%Q.
Proof.
  destruct l as [|k0 l]; simpl; [discriminate|].
  intros [= <-]. destruct (min_by_spec f l k0) as (Hin & Hle & Hall).
  split.
  - destruct Hin as [-> | Hin]; auto.
  - intros k [<- | Hk]; auto.
Qed.

Lemma py_min_nonempty {A} (f : A -> Q) (l : list A) :
  l <> [] -> exists m, py_min f l = Some m.
Proof.
  destruct l; [congruence|]. simpl. eauto.
Qed.

(** ** Tactics for running the monad *)

Ltac unfold_m :=
  unfold bind, ret, raise, lift, get_self, update_self, time_time, http,
         try_except, capture, with_self in *.

Ltac break_match :=
  match goal with
  | |- context [match ?x with _ => _ end] =>
      lazymatch x with
      | context [match _ with _ => _ end] => fail
      | _ => destruct x eqn:?
      end
  | H : context [match ?x with _ => _ end] |- _ =>
      lazymatch x with
      | context [match _ with _ => _ end] => fail
      | _ => destruct x eqn:?
      end
  end.


(** ** Reading fetch and reading cache *)

Section ClientFacts.
Context {rt : PyRuntime} (w : World).

Lemma cache_lookup_inv sid key uc s r s' :
  cache_lookup w sid key uc s = (r, s') ->
  sent s' = sent s /\ self s' = self s /\
  match r with
  | Ok (Some payload) =>
      exists e, uc = true /\ Dict.get key (reading_cache s) = Some e /\
                Qltb (clock w (ticks s) - timestamp e)%Q _cache_duration = true /\
                py_sliceable sid = true /\ payload = data e /\ s' = tick s
  | Ok None => True
  | Raise e => e = TypeError /\ py_sliceable sid = false
  end.
Proof.
  unfold cache_lookup, reading_cache. unfold_m. intros H.
  repeat (break_match; simpl in *; try discriminate);
    inversion H; subst; clear H; simpl; repeat split; eauto 10.
Qed.

Lemma cache_store_run key j s :
  cache_store w key j s =
  (Ok tt,
   {| self := set_data_cache
                (Dict.set key {| data := j; timestamp := clock w (ticks s) |}
                          (evicted (reading_cache s))) (self s);
      ticks := S (ticks s);
      sent := sent s |}).
Proof.
  unfold cache_store, evicted, reading_cache. unfold_m.
  destruct (MAX_CACHE_ENTRIES <=? Dict.len (_data_cache (self s))) eqn:Hcap.
  - destruct (py_min_nonempty (stored_timestamp (_data_cache (self s)))
                (Dict.keys (_data_cache (self s)))) as [oldest Hmin].
    + apply Nat.leb_le in Hcap. unfold Dict.keys, Dict.len, MAX_CACHE_ENTRIES in *.
      destruct (_data_cache (self s)); simpl in *; [lia | discriminate].
    + rewrite Hmin. simpl. destruct s as [[] ? ?]; reflexivity.
  - simpl. destruct s as [[] ? ?]; reflexivity.
Qed.

Lemma get_rainfall_data_inv sid st en uc s r s' :
  get_rainfall_data w sid st en uc s = (r, s') ->
  let key := cache_key_of sid st en in
  (has_session s = false /\ r = Raise LoginRequired /\ s' = s)
  \/ (has_session s = true /\ sent s' = sent s /\ self s' = self s /\
      exists hit, cache_lookup w sid key uc s = (hit, s') /\
        match hit with
        | Ok (Some payload) => r = Ok payload
        | Ok None => False
        | Raise e => r = Raise e
        end)
  \/ (has_session s = true /\
      exists s1, cache_lookup w sid key uc s = (Ok None, s1) /\
        sent s' = sent s ++ [records_request sid st en] /\
        match remote w (List.length (sent s)) (records_request sid st en) with
        | NetError => r = Raise TransportError /\ self s' = self s
        | Body j =>
            if status_ok j then
              r = Ok j /\
              self s' =
                (if uc then
                   set_data_cache
                     (Dict.set key {| data := j; timestamp := clock w (ticks s1) |}
                               (evicted (reading_cache s))) (self s)
                 else self s) /\
              ticks s' = (if uc then S (ticks s1) else ticks s1)
            else (exists e, r = Raise e) /\ self s' = self s
        end).
Proof.
  intros H key. unfold get_rainfall_data, has_session, records_request in *.
  unfold bind at 1 in H. unfold get_self at 1 in H.
  destruct (py_truthy (access_token (self s))) eqn:Htok; simpl in H.
  2:{ left. unfold raise in H. inversion H; auto. }
  right. fold key in H. unfold bind at 1 in H.
  destruct (cache_lookup w sid key uc s) as [hit s1] eqn:Hlook.
  pose proof (cache_lookup_inv _ _ _ _ _ _ Hlook) as (Hsent & Hself & Hhit).
  destruct hit as [[payload|]|e].
  - left. unfold ret in H. inversion H; subst. repeat split; auto.
    exists (Ok (Some payload)). auto.
  - right. split; auto. exists s1. split; auto.
    unfold bind at 1 in H. unfold http at 1 in H. rewrite Hsent, Hself in H.
    destruct (remote w (List.length (sent s)) (GET_records (py_str sid) st en)) eqn:Hrem.
    + unfold bind at 1 in H. unfold lift at 1 in H. unfold status_ok.
      destruct (py_get response_data "status" JNull) as [status|e] eqn:Hst.
      * destruct (py_eq_str status "OK") eqn:Hok.
        -- destruct uc.
           ++ unfold bind at 1 in H. rewrite cache_store_run in H.
              unfold ret in H. inversion H; subst; simpl. unfold reading_cache. simpl. auto.
           ++ unfold_m. inversion H; subst; simpl. auto.
        -- unfold raise in H. inversion H; subst; simpl. eauto.
      * inversion H; subst; simpl. eauto.
    + inversion H; subst; simpl. auto.
  - left. inversion H; subst. repeat split; auto. exists (Raise e). auto.
Qed.


Lemma get_rainfall_data_hit sid st en s e :
  has_session s = true ->
  Dict.get (cache_key_of (JStr sid) st en) (reading_cache s) = Some e ->
  Qltb (clock w (ticks s) - timestamp e)%Q _cache_duration = true ->
  get_rainfall_data w (JStr sid) st en true s = (Ok (data e), tick s).
Proof.
  unfold has_session, reading_cache. intros Htok Hget Hfresh.
  unfold get_rainfall_data, cache_lookup. unfold_m.
  rewrite Htok. simpl. rewrite Hget. rewrite Hfresh. reflexivity.
Qed.

(** C7. A reading fetch whose remote response reports a status other than
    "OK" raises, and leaves the reading cache as it was; the cache changes
    only when the response fetched from the remote reports "OK" and is
    returned. *)
Theorem remote_failure_is_not_cached sid st en uc s r s' :
  get_rainfall_data w sid st en uc s = (r, s') ->
  (forall j,
      sent s' <> sent s ->
      remote w (List.length (sent s)) (records_request sid st en) = Body j ->
      status_ok j = false ->
      (exists e, r = Raise e) /\ reading_cache s' = reading_cache s) /\
  (reading_cache s' <> reading_cache s ->
   exists j,
     remote w (List.length (sent s)) (records_request sid st en) = Body j /\
     status_ok j = true /\ r = Ok j).
Proof.
  intros H. apply get_rainfall_data_inv in H. unfold reading_cache.
  destruct H as [(_ & _ & ->) | [(_ & Hsent & Hself & _) | (_ & s1 & _ & Hsent & Hrem)]].
  - split; [intros j Hne; congruence | intros Hne; congruence].
  - split; [intros j Hne; congruence | intros Hne; congruence].
  - split.
    + intros j _ Hbody Hbad. rewrite Hbody, Hbad in Hrem.
      destruct Hrem as [He Hself]. split; [exact He | now rewrite Hself].
    + intros Hne.
      destruct (remote w (List.length (sent s)) (records_request sid st en)) as [j|].
      * destruct (status_ok j) eqn:Hok.
        -- exists j. intuition.
        -- destruct Hrem as [_ Hself]. rewrite Hself in Hne. congruence.
      * destruct Hrem as [_ Hself]. rewrite Hself in Hne. congruence.
Qed.

(** C2. After a reading fetch with the cache enabled has returned a payload,
    the cache holds that payload under the key of the triple (stamped with
    the clock reading taken by that call, when it went to the network); a
    second call for the same triple whose clock reading is less than 300
    seconds after the stamp returns the same payload, sends no request and
    leaves the client untouched. *)
Theorem cache_hit_within_ttl sid st en s payload s1 :
  get_rainfall_data w (JStr sid) st en true s = (Ok payload, s1) ->
  exists e,
    Dict.get (cache_key_of (JStr sid) st en) (reading_cache s1) = Some e /\
    data e = payload /\
    (sent s1 <> sent s -> timestamp e = clock w (Nat.pred (ticks s1))) /\
    ((clock w (ticks s1) - timestamp e < CACHE_DURATION_SEC)%Q ->
     get_rainfall_data w (JStr sid) st en true s1 = (Ok payload, tick s1)).
Proof.
  intros H. pose proof (get_rainfall_data_inv _ _ _ _ _ _ _ H) as Hinv.
  cbv zeta in Hinv.
  destruct Hinv as [(_ & Hr & _) | [(Htok & Hsent & Hself & hit & Hlook & Hhit)
                                   | (Htok & s0 & Hlook & Hsent & Hrem)]].
  - discriminate.
  - destruct hit as [[p|]|e]; try contradiction; try discriminate.
    injection Hhit as <-.
    apply cache_lookup_inv in Hlook.
    destruct Hlook as (_ & _ & e & _ & Hget & Hfresh & _ & -> & ->).
    exists e. repeat split.
    + exact Hget.
    + intros Hne. contradiction.
    + intros Hlt. apply get_rainfall_data_hit.
      * exact Htok.
      * exact Hget.
      * now apply Qltb_lt.
  - destruct (remote w (List.length (sent s)) (records_request (JStr sid) st en)) as [j|].
    2:{ destruct Hrem; discriminate. }
    destruct (status_ok j).
    2:{ destruct Hrem as [[e He] _]; discriminate. }
    destruct Hrem as (Hr & Hself & Hticks). injection Hr as ->.
    exists {| data := j; timestamp := clock w (ticks s0) |}.
    assert (Hget : Dict.get (cache_key_of (JStr sid) st en) (reading_cache s1)
                   = Some {| data := j; timestamp := clock w (ticks s0) |}).
    { unfold reading_cache. rewrite Hself. simpl. apply dict_get_set_same. }
    repeat split.
    + exact Hget.
    + intros _. now rewrite Hticks.
    + intros Hlt.
      apply (get_rainfall_data_hit sid st en s1
               {| data := j; timestamp := clock w (ticks s0) |}).
      * unfold has_session in *. rewrite Hself. exact Htok.
      * exact Hget.
      * now apply Qltb_lt.
Qed.

End ClientFacts.

(** ** Capacity of the reading cache *)

Section Bound.
Context {rt : PyRuntime} (w : World).

Lemma preserves_ret {A} (a : A) : preserves (ret a).
Proof. intros s r s' [= <- <-]; auto. Qed.

Lemma preserves_raise {A} (e : exn) : preserves (@raise A e).
Proof. intros s r s' [= <- <-]; auto. Qed.

Lemma preserves_lift {A} (x : result A) : preserves (lift x).
Proof. intros s r s' [= <- <-]; auto. Qed.

Lemma preserves_get_self : preserves get_self.
Proof. intros s r s' [= <- <-]; auto. Qed.

Lemma preserves_bind {A B} (m : M A) (k : A -> M B) :
  preserves m -> (forall a, preserves (k a)) -> preserves (bind m k).
Proof.
  intros Hm Hk s r s' H Hb. unfold bind in H.
  destruct (m s) as [[a|e] s1] eqn:E.
  - eapply Hk; eauto.
  - inversion H; subst. eauto.
Qed.

Lemma preserves_try_except {A} (m : M A) (h : exn -> M A) :
  preserves m -> (forall e, preserves (h e)) -> preserves (try_except m h).
Proof.
  intros Hm Hh s r s' H Hb. unfold try_except in H.
  destruct (m s) as [[a|e] s1] eqn:E.
  - inversion H; subst. eauto.
  - eapply Hh; eauto.
Qed.

Lemma preserves_capture {A} (m : M A) : preserves m -> preserves (capture m).
Proof.
  intros Hm s r s' H Hb. unfold capture in H.
  destruct (m s) as [x s1] eqn:E. inversion H; subst. eauto.
Qed.

Lemma preserves_for_each {A B} (f : A -> M B) (l : list A) :
  (forall a, preserves (f a)) -> preserves (for_each f l).
Proof.
  intros Hf. induction l as [|a l IH]; simpl.
  - apply preserves_ret.
  - apply preserves_bind; [apply Hf|]. intros b.
    apply preserves_bind; [exact IH|]. intros bs. apply preserves_ret.
Qed.

Lemma preserves_time_time : preserves (time_time w).
Proof. intros s r s' [= <- <-]; auto. Qed.

Lemma preserves_skip_ticks n : preserves (skip_ticks n).
Proof. intros s r s' [= <- <-]; auto. Qed.

Lemma preserves_http req : preserves (http w req).
Proof.
  intros s r s' H Hb. unfold http in H.
  destruct (remote w (List.length (sent s)) req); inversion H; subst; auto.
Qed.

Lemma preserves_update_self f :
  (forall a, _data_cache (f a) = _data_cache a) -> preserves (update_self f).
Proof.
  intros Hf s r s' [= <- <-] Hb. unfold bounded, reading_cache in *. simpl.
  now rewrite Hf.
Qed.

Lemma evicted_makes_room (k : string) (e : CacheEntry) (cache : Dict.t CacheEntry) :
  Dict.len cache <= MAX_CACHE_ENTRIES ->
  Dict.len (Dict.set k e (evicted cache)) <= MAX_CACHE_ENTRIES.
Proof.
  intros Hb. pose proof (dict_len_set k e (evicted cache)) as Hset.
  unfold evicted in *.
  destruct (MAX_CACHE_ENTRIES <=? Dict.len cache) eqn:Hcap.
  - destruct (py_min (stored_timestamp cache) (Dict.keys cache)) as [oldest|] eqn:Hmin.
    + apply py_min_spec in Hmin. destruct Hmin as [Hin _].
      apply dict_len_del in Hin. lia.
    + unfold py_min in Hmin. apply Nat.leb_le in Hcap.
      unfold Dict.keys, Dict.len, MAX_CACHE_ENTRIES in *.
      destruct cache; simpl in *; [lia | discriminate].
  - apply Nat.leb_gt in Hcap. lia.
Qed.

Lemma preserves_get_rainfall_data sid st en uc :
  preserves (get_rainfall_data w sid st en uc).
Proof.
  intros s r s' H Hb. apply get_rainfall_data_inv in H. unfold bounded, reading_cache in *.
  destruct H as [(_ & _ & ->) | [(_ & _ & Hself & _) | (_ & s1 & _ & _ & Hrem)]]; auto.
  - now rewrite Hself.
  - destruct (remote w (List.length (sent s)) (records_request sid st en)) as [j|].
    + destruct (status_ok j).
      * destruct Hrem as (_ & Hself & _). rewrite Hself.
        destruct uc; simpl; auto. now apply evicted_makes_room.
      * destruct Hrem as [_ Hself]. now rewrite Hself.
    + destruct Hrem as [_ Hself]. now rewrite Hself.
Qed.

Create HintDb preserves.
#[local] Hint Resolve preserves_ret preserves_raise preserves_lift preserves_get_self
  preserves_time_time preserves_skip_ticks preserves_http
  preserves_get_rainfall_data preserves_capture preserves_for_each : preserves.

Ltac preserves_step :=
  first
    [ solve [auto with preserves]
    | apply preserves_bind; [|intro]
    | apply preserves_try_except; [|intro]
    | apply preserves_update_self; intros []; reflexivity
    | match goal with
      | |- preserves (if ?b then _ else _) => destruct b
      | |- preserves (match ?x with _ => _ end) => destruct x
      end ].

Lemma preserves_login email password : preserves (login w email password).
Proof. unfold login. repeat preserves_step. Qed.

#[local] Hint Resolve preserves_login : preserves.

Lemma preserves_get_all : preserves (get_all_rainfall_sensors_with_device_info w).
Proof. unfold get_all_rainfall_sensors_with_device_info. repeat preserves_step. Qed.

#[local] Hint Resolve preserves_get_all : preserves.

Lemma preserves_fetch_single si st en :
  preserves (fetch_single_sensor_data w si st en).
Proof.
  unfold fetch_single_sensor_data, recently_processed. repeat preserves_step.
Qed.

#[local] Hint Resolve preserves_fetch_single : preserves.

Lemma preserves_fetch_all days mw :
  preserves (fetch_all_rainfall_data_parallel w days mw).
Proof.
  unfold fetch_all_rainfall_data_parallel, run_tasks.
  repeat preserves_step.
Qed.

Lemma run_call_bounded c s : bounded s -> bounded (run_call w c s).
Proof.
  intros Hb. destruct c; simpl.
  - destruct (login w email password s) eqn:E. eapply preserves_login; eauto.
  - destruct (get_rainfall_data w sensor_company_id start_date end_date use_cache s) eqn:E.
    eapply preserves_get_rainfall_data; eauto.
  - destruct (get_all_rainfall_sensors_with_device_info w s) eqn:E.
    eapply preserves_get_all; eauto.
  - destruct (fetch_single_sensor_data w sensor_info start_date end_date s) eqn:E.
    eapply preserves_fetch_single; eauto.
  - destruct (fetch_all_rainfall_data_parallel w days max_workers s) eqn:E.
    eapply preserves_fetch_all; eauto.
Qed.

Lemma run_calls_bounded calls s : bounded s -> bounded (run_calls w calls s).
Proof.
  revert s. induction calls as [|c calls IH]; intros s Hb; simpl; auto.
  apply IH. now apply run_call_bounded.
Qed.

Lemma evicted_oldest (cache : Dict.t CacheEntry) :
  MAX_CACHE_ENTRIES <= Dict.len cache ->
  exists oldest e,
    Dict.get oldest cache = Some e /\
    (forall k e', Dict.get k cache = Some e' -> (timestamp e <= timestamp e')%Q) /\
    evicted cache = Dict.del oldest cache.
Proof.
  intros Hcap. unfold evicted.
  apply Nat.leb_le in Hcap. rewrite Hcap. apply Nat.leb_le in Hcap.
  destruct (py_min_nonempty (stored_timestamp cache) (Dict.keys cache)) as [oldest Hmin].
  { unfold Dict.keys, Dict.len, MAX_CACHE_ENTRIES in *.
    destruct cache; simpl in *; [lia | discriminate]. }
  rewrite Hmin. apply py_min_spec in Hmin. destruct Hmin as [Hin Hleast].
  destruct (dict_in_keys_get _ _ Hin) as [e He].
  exists oldest, e. repeat split; auto.
  intros k e' Hk. specialize (Hleast k (dict_get_in_keys _ _ _ Hk)).
  unfold stored_timestamp in Hleast. now rewrite He, Hk in Hleast.
Qed.


End Bound.

(** ** Duplicate suppression and the session check *)

Section Dedup.
Context {rt : PyRuntime} (w : World).

Lemma recently_processed_skip sid key s last :
  Dict.get key (ledger s) = Some last ->
  Qltb (clock w (ticks s) - last)%Q DUPLICATE_SKIP_SEC = true ->
  recently_processed w (JStr sid) key s = (Ok true, tick s).
Proof.
  unfold ledger, recently_processed. unfold_m. intros -> ->. reflexivity.
Qed.

Lemma recently_processed_inv id key s r s' :
  recently_processed w id key s = (r, s') ->
  sent s' = sent s /\ self s' = self s /\
  (r = Ok true \/ r = Ok false \/ (r = Raise TypeError /\ py_sliceable id = false)).
Proof.
  unfold recently_processed. unfold_m. intros H.
  repeat (break_match; simpl in *; try discriminate);
    inversion H; subst; clear H; simpl; intuition auto.
Qed.

(** [fetch_single_sensor_data], case by case *)
Lemma fetch_single_run si id st en s :
  Dict.get "sensor_company_id" si = Some id ->
  let key := cache_key_of id st en in
  let name := display_name_of si in
  fetch_single_sensor_data w si st en s =
  match recently_processed w id key s with
  | (Ok true, s1) => (Ok (id, JNull, name, true), s1)
  | (Ok false, s1) =>
      match get_rainfall_data w id st en true s1 with
      | (Ok payload, s2) => (Ok (id, payload, name, true), stamped w key s2)
      | (Raise _, s2) => (Ok (id, JNull, name, false), s2)
      end
  | (Raise e, s1) => (Raise e, s1)
  end.
Proof.
  intros Hid key name. unfold fetch_single_sensor_data. rewrite Hid.
  fold key. fold name. unfold bind at 1.
  destruct (recently_processed w id key s) as [[[|]|e] s1]; try reflexivity.
  unfold try_except, bind at 1.
  destruct (get_rainfall_data w id st en true s1) as [[payload|e] s2]; try reflexivity.
Qed.

(** C1. When a request for a sensor and window has fetched a payload
    successfully, the ledger holds a stamp for the key
    f"{sensor_id}_{start}_{end}"; a second request for the same sensor and
    window whose clock reading is less than 60 seconds after that stamp
    returns a null payload marked successful, having only read the clock: no
    request is sent and the client is unchanged. *)
Theorem duplicate_request_is_skipped si sid st en s payload name s1 :
  Dict.get "sensor_company_id" si = Some (JStr sid) ->
  fetch_single_sensor_data w si st en s = (Ok (JStr sid, payload, name, true), s1) ->
  payload <> JNull ->
  exists stamp,
    Dict.get (cache_key_of (JStr sid) st en) (ledger s1) = Some stamp /\
    ((clock w (ticks s1) - stamp < DUPLICATE_SKIP_SEC)%Q ->
     fetch_single_sensor_data w si st en s1
       = (Ok (JStr sid, JNull, name, true), tick s1) /\
     sent (tick s1) = sent s1 /\ self (tick s1) = self s1).
Proof.
  intros Hid Hrun Hpayload.
  rewrite (fetch_single_run si (JStr sid) st en s Hid) in Hrun. cbv zeta in Hrun.
  destruct (recently_processed w (JStr sid) (cache_key_of (JStr sid) st en) s)
    as [[[|]|e] s0]; try (inversion Hrun; congruence).
  destruct (get_rainfall_data w (JStr sid) st en true s0) as [[p|e] s2];
    try (inversion Hrun; congruence).
  injection Hrun as <- <- <-.
  exists (clock w (ticks s2)). split.
  - unfold ledger, stamped. simpl. apply dict_get_set_same.
  - intros Hlt. split; [|split; reflexivity].
    rewrite (fetch_single_run si (JStr sid) st en _ Hid). cbv zeta.
    erewrite recently_processed_skip; [reflexivity | |].
    + unfold ledger, stamped. simpl. apply dict_get_set_same.
    + now apply Qltb_lt.
Qed.



End Dedup.

(** ** The orchestrator's result map *)

Lemma dict_keys_set {V} (k k' : string) (v : V) (d : Dict.t V) :
  In k' (Dict.keys (Dict.set k v d)) <-> k' = k \/ In k' (Dict.keys d).
Proof.
  unfold Dict.keys. induction d as [|[k0 v0] d IH]; simpl.
  - intuition.
  - destruct (String.eqb k k0) eqn:E; simpl.
    + apply String.eqb_eq in E. subst. intuition.
    + rewrite IH. intuition.
Qed.

Lemma dict_nodup_set {V} (k : string) (v : V) (d : Dict.t V) :
  NoDup (Dict.keys d) -> NoDup (Dict.keys (Dict.set k v d)).
Proof.
  induction d as [|[k0 v0] d IH]; simpl; intros Hnd.
  - constructor; [intros [] | constructor].
  - inversion Hnd as [|? ? Hnotin Hnd']; subst.
    destruct (String.eqb k k0) eqn:E; simpl.
    + apply String.eqb_eq in E. subst. now constructor.
    + constructor; [|now apply IH].
      intros Hin. apply (dict_keys_set k k0 v d) in Hin.
      destruct Hin as [-> | Hin]; [|contradiction].
      now rewrite String.eqb_refl in E.
Qed.

Lemma bind_ok {A B} (m : M A) (k : A -> M B) (s s1 : Sys) (a : A) :
  m s = (Ok a, s1) -> bind m k s = k a s1.
Proof. unfold bind. now intros ->. Qed.

Lemma forall2_permutation_right {A B} (R : A -> B -> Prop) (l1 : list A) (l2 l2' : list B) :
  Forall2 R l1 l2 -> Permutation l2 l2' ->
  exists l1', Permutation l1 l1' /\ Forall2 R l1' l2'.
Proof.
  intros HR Hperm. apply Forall2_flip in HR.
  destruct (Permutation_Forall2 Hperm HR) as (l1' & Hp & HF).
  exists l1'. split; [exact Hp | now apply Forall2_flip in HF].
Qed.

Lemma in_firstn {A} (n : nat) (x : A) (l : list A) : In x (firstn n l) -> In x l.
Proof.
  revert l. induction n as [|n IH]; intros [|a l]; simpl; try tauto.
  intros [-> | Hin]; auto.
Qed.

Lemma nodup_same_length (l l' : list string) :
  NoDup l -> (forall k, In k l <-> In k l') ->
  List.length l = List.length (nodup string_dec l').
Proof.
  intros Hnd Hiff. apply Permutation_length. apply NoDup_Permutation.
  - exact Hnd.
  - apply NoDup_nodup.
  - intros k. rewrite nodup_In. apply Hiff.
Qed.

Section Orchestrator.
Context {rt : PyRuntime} (w : World).

(** what a task leaves in its future when the identifier is a string *)
Lemma fetch_single_outcome si sid st en s :
  Dict.get "sensor_company_id" si = Some (JStr sid) ->
  exists payload success s',
    fetch_single_sensor_data w si st en s
      = (Ok (JStr sid, payload, display_name_of si, success), s') /\
    (success = false -> payload = JNull).
Proof.
  intros Hid. rewrite (fetch_single_run w si (JStr sid) st en s Hid). cbv zeta.
  destruct (recently_processed w (JStr sid) (cache_key_of (JStr sid) st en) s)
    as [r s0] eqn:Hdup.
  pose proof (recently_processed_inv _ _ _ _ _ _ Hdup) as (_ & _ & Hr).
  destruct Hr as [-> | [-> | [_ Habs]]]; [| | discriminate].
  - exists JNull, true, s0. split; [reflexivity | discriminate].
  - destruct (get_rainfall_data w (JStr sid) st en true s0) as [[p|e] s2].
    + exists p, true, (stamped w (cache_key_of (JStr sid) st en) s2).
      split; [reflexivity | discriminate].
    + exists JNull, false, s2. split; [reflexivity | auto].
Qed.


Lemma run_tasks_settle sensors sids st en s :
  has_ids sensors sids ->
  exists futures s',
    run_tasks w sensors st en s = (Ok futures, s') /\ Forall2 settled sids futures.
Proof.
  unfold has_ids, run_tasks. revert sids s.
  induction sensors as [|si sensors IH]; intros [|sid sids] s Hids;
    simpl in Hids; try discriminate.
  - exists [], s. split; [reflexivity | constructor].
  - injection Hids as Hid Hids.
    destruct (fetch_single_outcome si sid st en s Hid)
      as (payload & success & s1 & Hrun & Hnull).
    destruct (IH sids s1 Hids) as (futures & s2 & Hrest & Hall).
    exists (Ok (JStr sid, payload, display_name_of si, success) :: futures), s2.
    split.
    + simpl. unfold bind at 1. unfold capture at 1. rewrite Hrun.
      unfold bind at 1. rewrite Hrest. reflexivity.
    + constructor; [|exact Hall]. exists payload, (display_name_of si), success. auto.
Qed.

Lemma collect_spec futures sids :
  Forall2 settled sids futures ->
  forall all_data n,
  exists all_data' n',
    collect futures all_data n = Ok (all_data', n') /\
    (forall k, In k (Dict.keys all_data') <-> In k (Dict.keys all_data) \/ In k sids) /\
    (NoDup (Dict.keys all_data) -> NoDup (Dict.keys all_data')) /\
    (NoDup sids ->
     forall sid payload name success,
       In (Ok (JStr sid, payload, name, success)) futures ->
       Dict.get sid all_data' = Some payload) /\
    (forall k, ~ In k sids -> Dict.get k all_data' = Dict.get k all_data).
Proof.
  induction 1 as [|sid f sids futures Hf Hall IH]; intros all_data n.
  - exists all_data, n. simpl. repeat split; intuition.
  - destruct Hf as (payload & name & success & -> & _). simpl.
    destruct (IH (Dict.set sid payload all_data)
                 (if success then S n else n)) as (d' & n' & Hrun & Hkeys & Hnd & Hval & Hother).
    exists d', n'. split; [exact Hrun|]. split; [|split; [|split]].
    + intros k. rewrite Hkeys, dict_keys_set. simpl. intuition.
    + intros H0. apply Hnd. now apply dict_nodup_set.
    + intros Hnodup sid' payload' name' success' [Heq | Hin].
      * injection Heq as <- <- <- <-.
        inversion Hnodup; subst. rewrite Hother by assumption.
        apply dict_get_set_same.
      * inversion Hnodup; subst. eauto.
    + intros k Hk. simpl in Hk. rewrite Hother by tauto.
      apply dict_get_set_other. intros ->. tauto.
Qed.


Lemma sample_ids_sliceable sensors sids :
  has_ids sensors sids ->
  forallb (fun si => py_sliceable (sample_id si)) (firstn 3 sensors) = true.
Proof.
  unfold has_ids. intros Hids. apply forallb_forall. intros si Hin.
  apply in_firstn in Hin.
  assert (Hsome : In (Dict.get "sensor_company_id" si)
                     (map (fun sid => Some (JStr sid)) sids)).
  { rewrite <- Hids. now apply in_map. }
  apply in_map_iff in Hsome. destruct Hsome as (sid & Heq & _).
  unfold sample_id. now rewrite <- Heq.
Qed.

(** C4, as the code has it.  When the inventory call yields a sensor list
    whose identifiers are the strings [sids], [as_completed] yields every
    future once, and the list is not empty (or the run is in CI), the
    orchestrator returns a map keyed by sensor identifier: its keys are
    exactly the distinct identifiers of the list, so it has as many entries
    as the list has distinct identifiers. When the identifiers are pairwise
    distinct it has one entry per input sensor, holding the payload that
    sensor's task returned, which is null for a failed fetch. *)
Theorem fetch_all_one_entry_per_distinct_sensor s days max_workers sensors sids s1 :
  fair_completion w ->
  get_all_rainfall_sensors_with_device_info w (tick s) = (Ok sensors, s1) ->
  has_ids sensors sids ->
  _CI w = true \/ sensors <> [] ->
  0 < max_workers ->
  exists all_data s' futures s2,
    fetch_all_rainfall_data_parallel w days max_workers s = (Ok all_data, s') /\
    run_tasks w sensors (fst (window_strings (clock w (ticks s)) days))
              (snd (window_strings (clock w (ticks s)) days)) (tick s1)
      = (Ok futures, s2) /\
    Forall2 settled sids futures /\
    (forall sid, In sid (Dict.keys all_data) <-> In sid sids) /\
    NoDup (Dict.keys all_data) /\
    Dict.len all_data = List.length (nodup string_dec sids) /\
    (NoDup sids ->
     Dict.len all_data = List.length sensors /\
     forall sid payload name success,
       In (Ok (JStr sid, payload, name, success)) futures ->
       Dict.get sid all_data = Some payload).
Proof.
  intros Hfair Hinv Hids Hnonempty Hworkers.
  set (st := fst (window_strings (clock w (ticks s)) days)).
  set (en := snd (window_strings (clock w (ticks s)) days)).
  destruct (run_tasks_settle sensors sids st en (tick s1) Hids)
    as (futures & s2 & Hrun & Hsettled).
  destruct (forall2_permutation_right _ _ _ _ Hsettled
              (Permutation_sym (Hfair _ futures))) as (sids' & Hperm & Hsettled').
  destruct (collect_spec _ _ Hsettled' Dict.empty 0)
    as (all_data & n & Hcollect & Hkeys & Hnd & Hval & _).
  assert (Hkeys' : forall sid, In sid (Dict.keys all_data) <-> In sid sids).
  { intros sid. rewrite Hkeys. simpl. split.
    - intros [[] | Hin]. eapply Permutation_in; [apply Permutation_sym|]; eauto.
    - intros Hin. right. eapply Permutation_in; eauto. }
  assert (Hnd' : NoDup (Dict.keys all_data)) by (apply Hnd; constructor).
  assert (Hlen : Dict.len all_data = List.length (nodup string_dec sids)).
  { unfold Dict.len. rewrite <- (length_map fst all_data).
    now apply nodup_same_length. }
  assert (Hsame : List.length sensors = List.length sids).
  { unfold has_ids in Hids. apply (f_equal (@List.length _)) in Hids.
    now rewrite !length_map in Hids. }
  exists all_data,
    (if _CI w then tick s2
     else snd (skip_ticks (Dict.len (reading_cache s2)) (tick s2))),
    futures, s2.
  split; [|split; [exact Hrun|]; split; [exact Hsettled|]; split; [exact Hkeys'|];
            split; [exact Hnd'|]; split; [exact Hlen|]; intros Hnodup; split].
  - unfold fetch_all_rainfall_data_parallel.
    rewrite (bind_ok _ _ s (tick s) (clock w (ticks s)) eq_refl).
    fold st. fold en.
    rewrite (bind_ok _ _ _ _ _ Hinv).
    rewrite (sample_ids_sliceable _ _ Hids). rewrite andb_false_r.
    rewrite (bind_ok _ _ s1 s1 tt eq_refl).
    rewrite (bind_ok _ _ s1 (tick s1) (clock w (ticks s1)) eq_refl).
    destruct max_workers as [|workers]; [lia|]. cbn [Nat.eqb].
    rewrite (bind_ok _ _ (tick s1) (tick s1) tt eq_refl).
    rewrite (bind_ok _ _ _ _ _ Hrun).
    unfold lift at 1. rewrite (bind_ok _ _ s2 s2 (all_data, n)).
    2:{ now rewrite Hcollect. }
    rewrite (bind_ok _ _ s2 (tick s2) (clock w (ticks s2)) eq_refl).
    destruct (_CI w) eqn:Hci.
    + rewrite (bind_ok _ _ (tick s2) (tick s2) tt eq_refl). reflexivity.
    + destruct Hnonempty as [Habs | Hne]; [discriminate|].
      destruct sensors as [|si rest]; [congruence|]. simpl.
      unfold bind, get_self, skip_ticks, ret. simpl. reflexivity.
  - rewrite Hlen, Hsame. now rewrite nodup_fixed_point.
  - intros sid payload name success Hin.
    apply (Hval (Permutation_NoDup Hperm Hnodup) sid payload name success).
    eapply Permutation_in; [apply Permutation_sym; apply Hfair | exact Hin].
Qed.

End Orchestrator.

(** ** The transformer *)

Section TransformFacts.
Context {rt : PyRuntime}.

Lemma extend_forall2 {A} (P : A -> list TransformedRecord.t -> Prop)
    (body : A -> result (list TransformedRecord.t)) (xs : list A) :
  Forall (fun x => exists rows, body x = Ok rows /\ P x rows) xs ->
  exists per, extend body xs = Ok (List.concat per) /\ Forall2 P xs per.
Proof.
  induction 1 as [|x xs (rows & Hx & HP) _ (per & Hrest & Hall)]; simpl.
  - exists []. split; [reflexivity | constructor].
  - exists (rows :: per). rewrite Hx, Hrest. split; [reflexivity | now constructor].
Qed.

Lemma extend_singletons {A} (P : TransformedRecord.t -> Prop)
    (body : A -> result TransformedRecord.t) (xs : list A) :
  Forall (fun x => exists row, body x = Ok row /\ P row) xs ->
  exists rows,
    extend (fun x => match body x with Ok row => Ok [row] | Raise e => Raise e end) xs
      = Ok rows /\
    List.length rows = List.length xs /\ Forall P rows.
Proof.
  induction 1 as [|x xs (row & Hx & HP) _ (rows & Hrest & Hlen & Hall)]; simpl.
  - exists []. repeat split; constructor.
  - exists (row :: rows). rewrite Hx, Hrest. simpl. repeat split; auto.
Qed.

Lemma transformed_record_ok now sid device_info master rec :
  is_dict master = true -> is_dict rec = true ->
  exists row,
    transformed_record now sid device_info master rec = Ok row /\
    TransformedRecord.sensor_company_id row = sid /\
    (device_info = [] -> no_device_fields row).
Proof.
  destruct master; try discriminate. destruct rec; try discriminate. intros _ _.
  unfold transformed_record. simpl. eexists. split; [reflexivity|].
  split; [reflexivity|]. intros ->. repeat split.
Qed.

Lemma rows_of_record_ok now sid device_info g :
  grouping_conforms g = true ->
  exists rows,
    rows_of_record now sid device_info g = Ok rows /\
    List.length rows = readings_in g /\
    Forall (fun row => TransformedRecord.sensor_company_id row = sid /\
                       (device_info = [] -> no_device_fields row)) rows.
Proof.
  destruct g as [| | | | |gm]; try discriminate. simpl.
  intros Hc. apply andb_true_iff in Hc. destruct Hc as [Hm Hr].
  unfold rows_of_record. simpl.
  set (master := match Dict.get "sensor_master" gm with
                 | Some v => v | None => JObj [] end).
  assert (Hmaster : is_dict master = true).
  { unfold master. destruct (Dict.get "sensor_master" gm); auto. }
  destruct (Dict.get "sensor_records" gm) as [[| | | |readings|]|]; try discriminate.
  - simpl. apply extend_singletons. rewrite forallb_forall in Hr.
    apply Forall_forall. intros rec Hin.
    apply transformed_record_ok; auto.
  - simpl. exists []. repeat split; constructor.
Qed.

Lemma rows_of_records_ok now sid device_info gs :
  forallb grouping_conforms gs = true ->
  exists rows,
    extend (rows_of_record now sid device_info) gs = Ok rows /\
    List.length rows = list_sum (map readings_in gs) /\
    Forall (fun row => TransformedRecord.sensor_company_id row = sid /\
                       (device_info = [] -> no_device_fields row)) rows.
Proof.
  induction gs as [|g gs IH]; simpl; intros Hc.
  - exists []. repeat split; constructor.
  - apply andb_true_iff in Hc. destruct Hc as [Hg Hgs].
    destruct (rows_of_record_ok now sid device_info g Hg) as (here & Hh & Hlen & Hall).
    destruct (IH Hgs) as (there & Ht & Hlen' & Hall').
    exists (here ++ there). rewrite Hh, Ht. repeat split.
    + rewrite length_app. lia.
    + apply Forall_app. auto.
Qed.

Lemma rows_of_sensor_ok now m sid payload :
  payload_conforms payload = true ->
  exists rows,
    rows_of_sensor now m sid payload = Ok rows /\
    List.length rows = reading_count payload /\
    Forall (fun row => TransformedRecord.sensor_company_id row = sid /\
                       (key_get (JStr sid) m = None -> no_device_fields row)) rows.
Proof.
  intros Hc. unfold rows_of_sensor, reading_count.
  destruct payload as [| | | | |pm]; try discriminate.
  - simpl. exists []. repeat split; constructor.
  - destruct (py_truthy (JObj pm)) eqn:Htruthy; simpl negb; cbv iota.
    2:{ exists []. repeat split; constructor. }
    unfold payload_conforms in Hc. unfold status_ok in *. simpl py_get in *.
    cbv beta iota in *.
    match goal with
    | |- context [py_eq_str ?x "OK"] => destruct (py_eq_str x "OK")
    end; simpl andb; cbv iota.
    2:{ exists []. repeat split; constructor. }
    unfold groupings_of.
    destruct (Dict.get "data" pm) as [[| | | | |dm]|]; try discriminate.
    + simpl py_get. destruct (Dict.get "data" dm) as [[| | | |gs|]|]; try discriminate.
      * simpl py_iter.
        destruct (rows_of_records_ok now sid
                    (match key_get (JStr sid) m with Some info => info | None => [] end)
                    gs Hc) as (rows & Hrun & Hlen & Hall).
        exists rows. repeat split; auto.
        eapply Forall_impl; [|exact Hall]. simpl. intros row [Hsid Hdev].
        split; auto. intros Hnone. apply Hdev. now rewrite Hnone.
      * simpl. exists []. repeat split; constructor.
    + simpl. exists []. repeat split; constructor.
Qed.


Lemma py_key_eq_str (k : Json) (b : string) :
  py_key_eq k (JStr b) = true -> k = JStr b.
Proof.
  destruct k; simpl; try discriminate.
  intros H. apply String.eqb_eq in H. now subst.
Qed.

Lemma key_get_key_set_other {V} (a b : string) (v : V) (d : list (Json * V)) :
  a <> b -> key_get (JStr a) (key_set (JStr b) v d) = key_get (JStr a) d.
Proof.
  intros Hne. induction d as [|[k v0] d IH]; simpl.
  - destruct (String.eqb b a) eqn:E; [|reflexivity].
    apply String.eqb_eq in E. congruence.
  - destruct (py_key_eq k (JStr b)) eqn:E; simpl.
    + apply py_key_eq_str in E. subst k. simpl.
      destruct (String.eqb b a) eqn:E'; [|reflexivity].
      apply String.eqb_eq in E'. congruence.
    + now rewrite IH.
Qed.

Lemma key_set_sliceable {V} (b : string) (v : V) (d : list (Json * V)) :
  Forall (fun kv => py_sliceable (fst kv) = true) d ->
  Forall (fun kv => py_sliceable (fst kv) = true) (key_set (JStr b) v d).
Proof.
  induction 1 as [|[k v0] d Hk Hd IH]; simpl.
  - repeat constructor.
  - destruct (py_key_eq k (JStr b)); constructor; auto.
Qed.

Lemma device_info_map_ok sensors sids :
  has_ids sensors sids ->
  forall acc,
    Forall (fun kv => py_sliceable (fst kv) = true) acc ->
    exists m,
      device_info_map_of sensors acc = Ok m /\
      Forall (fun kv => py_sliceable (fst kv) = true) m /\
      (forall sid, ~ In sid sids -> key_get (JStr sid) acc = None ->
                   key_get (JStr sid) m = None).
Proof.
  unfold has_ids. revert sids.
  induction sensors as [|si sensors IH]; intros [|sid0 sids] Hids acc Hacc;
    simpl in Hids; try discriminate.
  - exists acc. simpl. auto.
  - injection Hids as Hid Hids. simpl. rewrite Hid. simpl.
    destruct (IH sids Hids (key_set (JStr sid0) si acc)
                 (key_set_sliceable sid0 si acc Hacc)) as (m & Hm & Hsl & Hnone).
    exists m. repeat split; auto.
    intros sid Hnot Hacc_none. apply Hnone; [tauto|].
    rewrite key_get_key_set_other; [exact Hacc_none|]. intros ->. tauto.
Qed.

Lemma forallb_firstn {A} (p : A -> bool) (n : nat) (l : list A) :
  Forall (fun x => p x = true) l -> forallb p (firstn n l) = true.
Proof.
  intros H. apply forallb_forall. intros x Hin.
  rewrite Forall_forall in H. apply H. eapply in_firstn; eauto.
Qed.


Lemma extend_restamp {A} (t : string) (body1 body2 : A -> result (list TransformedRecord.t))
    (xs : list A) :
  (forall x, body2 x = result_map (map (restamp t)) (body1 x)) ->
  extend body2 xs = result_map (map (restamp t)) (extend body1 xs).
Proof.
  intros Hbody. induction xs as [|x xs IH]; simpl; [reflexivity|].
  rewrite Hbody, IH.
  destruct (body1 x) as [here|e]; simpl; [|reflexivity].
  destruct (extend body1 xs) as [there|e]; simpl; [|reflexivity].
  now rewrite map_app.
Qed.

Lemma transformed_record_restamp t1 t2 sid device_info master rec :
  transformed_record t2 sid device_info master rec
  = result_map (restamp t2) (transformed_record t1 sid device_info master rec).
Proof.
  unfold transformed_record.
  repeat match goal with
         | |- context [match py_get ?j ?k ?d with _ => _ end] =>
             destruct (py_get j k d); simpl; try reflexivity
         end.
Qed.

Lemma rows_of_record_restamp t1 t2 sid device_info g :
  rows_of_record t2 sid device_info g
  = result_map (map (restamp t2)) (rows_of_record t1 sid device_info g).
Proof.
  unfold rows_of_record.
  destruct (py_get g "sensor_master" (JObj [])) as [master|e]; [|reflexivity].
  destruct (py_get g "sensor_records" (JArr [])) as [records|e]; [|reflexivity].
  destruct (py_iter records) as [readings|e]; [|reflexivity].
  apply extend_restamp. intros rec.
  rewrite (transformed_record_restamp t1 t2).
  destruct (transformed_record t1 sid device_info master rec); reflexivity.
Qed.

Lemma rows_of_sensor_restamp t1 t2 m sid payload :
  rows_of_sensor t2 m sid payload
  = result_map (map (restamp t2)) (rows_of_sensor t1 m sid payload).
Proof.
  unfold rows_of_sensor.
  destruct (negb (py_truthy payload)); [reflexivity|].
  destruct (py_get payload "status" JNull) as [status|e]; [|reflexivity].
  destruct (py_eq_str status "OK"); [|reflexivity].
  destruct (py_get payload "data" (JObj [])) as [outer|e]; [|reflexivity].
  destruct (py_get outer "data" (JArr [])) as [inner|e]; [|reflexivity].
  destruct (py_iter inner) as [records|e]; [|reflexivity].
  apply extend_restamp. intros g. apply rows_of_record_restamp.
Qed.

(** C9, as the code has it.  Transforming the same batch and descriptors at
    processing times [t1] and [t2] ends the same way, and the rows of the
    second call are those of the first with [timestamp] and [created_at] set
    to [t2]: the two lists agree on every other field, and are identical
    when both calls read the same time.  The inputs are only read. *)
Theorem transform_repeatable_up_to_processing_time ci t1 t2 rainfall_data sensors :
  transform_rainfall_data ci t2 rainfall_data sensors
  = result_map (map (restamp t2))
               (transform_rainfall_data ci t1 rainfall_data sensors).
Proof.
  unfold transform_rainfall_data.
  destruct (device_info_map_of sensors []) as [m|e]; [|reflexivity].
  destruct (negb ci && negb (forallb (fun kv => py_sliceable (fst kv)) (firstn 3 m)));
    [reflexivity|].
  apply extend_restamp. intros [sid payload]. apply rows_of_sensor_restamp.
Qed.

End TransformFacts.

(** ** The persister *)

Lemma py_range_single (stop step : nat) :
  0 < stop -> stop <= step -> py_range stop step = [0].
Proof.
  intros Hpos Hle. unfold py_range.
  replace ((stop + step - 1) / step) with 1.
  - reflexivity.
  - apply (Nat.div_unique (stop + step - 1) step 1 (stop - 1)); lia.
Qed.

Lemma batches_of_single (batch_size : nat) (records : list TransformedRecord.t) :
  records <> [] -> List.length records <= batch_size ->
  batches_of batch_size records = [records].
Proof.
  intros Hne Hle. unfold batches_of.
  rewrite py_range_single; [| destruct records; simpl; [congruence | lia] | exact Hle].
  simpl. now rewrite firstn_all2.
Qed.

Lemma retry_rows_run (db : Supabase) (batch : list TransformedRecord.t) (calls total : nat) :
  retry_rows db calls batch total
  = (calls + List.length batch, total + saved_in_retry db calls batch).
Proof.
  revert calls total. induction batch as [|record rest IH]; intros calls total; simpl.
  - f_equal; lia.
  - rewrite IH. unfold row_saved.
    destruct (db calls [record]) as [[|? ?]|]; f_equal; lia.
Qed.

Lemma saved_in_retry_all (db : Supabase) (batch : list TransformedRecord.t) (calls : nat) :
  (forall i r, nth_error batch i = Some r -> row_saved db (calls + i) r = true) ->
  saved_in_retry db calls batch = List.length batch.
Proof.
  revert calls. induction batch as [|record rest IH]; intros calls Hall; simpl.
  - reflexivity.
  - rewrite (IH (S calls)).
    + specialize (Hall 0 record eq_refl). rewrite Nat.add_0_r in Hall.
      now rewrite Hall.
    + intros i r Hi. specialize (Hall (S i) r Hi).
      now rewrite Nat.add_succ_r in Hall.
Qed.

Lemma saved_in_retry_all_but_one (db : Supabase) (batch : list TransformedRecord.t)
    (calls failing : nat) :
  failing < List.length batch ->
  (forall i r, nth_error batch i = Some r ->
               row_saved db (calls + i) r = negb (i =? failing)) ->
  saved_in_retry db calls batch = List.length batch - 1.
Proof.
  revert calls failing.
  induction batch as [|record rest IH]; intros calls failing Hlt Hall; simpl in *.
  - lia.
  - pose proof (Hall 0 record eq_refl) as H0. rewrite Nat.add_0_r in H0.
    rewrite H0. destruct failing as [|failing]; simpl.
    + rewrite saved_in_retry_all; [lia|].
      intros i r Hi. specialize (Hall (S i) r Hi).
      now rewrite Nat.add_succ_r in Hall.
    + rewrite (IH (S calls) failing); [lia | lia |].
      intros i r Hi. specialize (Hall (S i) r Hi).
      now rewrite Nat.add_succ_r in Hall.
Qed.

(** C6. Persisting the empty list is a no-op that returns true; persisting
    any list returns true, whatever the destination does with the batch and
    single-row inserts; and when the records form one batch whose bulk
    insert fails while the row-by-row retry saves every row but one, the
    reported total is the batch size minus one. *)
Theorem persist_is_best_effort (db : Supabase) :
  save_to_supabase db [] = (true, None) /\
  (forall records, fst (save_to_supabase db records) = true) /\
  (forall records failing,
      records <> [] ->
      List.length records <= SUPABASE_BATCH_SIZE ->
      db 0 records = InsertFailed ->
      failing < List.length records ->
      (forall i r, nth_error records i = Some r ->
                   row_saved db (S i) r = negb (i =? failing)) ->
      save_to_supabase db records = (true, Some (List.length records - 1))).
Proof.
  split; [reflexivity|]. split.
  - intros [|r records]; [reflexivity|]. unfold save_to_supabase.
    destruct (save_batches db 0 (batches_of SUPABASE_BATCH_SIZE (r :: records)) 0).
    reflexivity.
  - intros records failing Hne Hle Hfail Hlt Hrows.
    unfold save_to_supabase. destruct records as [|r records]; [congruence|].
    rewrite batches_of_single by assumption.
    cbn [save_batches]. rewrite Hfail. rewrite retry_rows_run.
    rewrite (saved_in_retry_all_but_one db (r :: records) 1 failing Hlt Hrows).
    reflexivity.
Qed.

(** ** Concrete runs *)

#[local] Existing Instance plain_runtime.

Lemma remote_failure_is_not_cached_witness :
  let w := demo_world demo_devices in
  let run := get_rainfall_data w (JStr "s9") "a" "b" true logged_in in
  (exists e, fst run = Raise e) /\ reading_cache (snd run) = reading_cache logged_in.
Proof.
  intros w run.
  apply (proj1 (remote_failure_is_not_cached w (JStr "s9") "a" "b" true logged_in
                  (fst run) (snd run) eq_refl) error_response).
  - vm_compute. discriminate.
  - reflexivity.
  - reflexivity.
Defined.

Lemma cache_hit_within_ttl_witness :
  let w := demo_world demo_devices in
  let payload := ok_response [reading "t1" 5%Q] in
  let s1 := snd (get_rainfall_data w (JStr "s1") "a" "b" true logged_in) in
  get_rainfall_data w (JStr "s1") "a" "b" true s1 = (Ok payload, tick s1).
Proof.
  intros w payload s1.
  destruct (cache_hit_within_ttl w "s1" "a" "b" logged_in payload s1 eq_refl)
    as (e & Hget & Hdata & Hstamp & Hhit).
  apply Hhit. rewrite Hstamp.
  - vm_compute. reflexivity.
  - vm_compute. discriminate.
Defined.


Lemma duplicate_request_is_skipped_witness :
  let w := demo_world demo_devices in
  let s1 := snd (fetch_single_sensor_data w (sensor "s1") "a" "b" logged_in) in
  fetch_single_sensor_data w (sensor "s1") "a" "b" s1
    = (Ok (JStr "s1", JNull, JStr "Unknown", true), tick s1) /\
  sent (tick s1) = sent s1 /\ self (tick s1) = self s1.
Proof.
  intros w s1.
  destruct (duplicate_request_is_skipped w (sensor "s1") "s1" "a" "b" logged_in
              (ok_response [reading "t1" 5%Q]) (JStr "Unknown") s1)
    as (stamp & Hstamp & Hskip).
  - reflexivity.
  - vm_compute. reflexivity.
  - discriminate.
  - apply Hskip. vm_compute in Hstamp. injection Hstamp as <-.
    vm_compute. reflexivity.
Defined.




Lemma fetch_all_one_entry_per_distinct_sensor_witness :
  let w := demo_world demo_devices in
  exists all_data s',
    fetch_all_rainfall_data_parallel w 1 10 logged_in = (Ok all_data, s') /\
    (forall sid, In sid (Dict.keys all_data) <-> In sid ["s1"; "s2"; "s3"]) /\
    Dict.len all_data = 3.
Proof.
  intros w.
  pose (inventory := get_all_rainfall_sensors_with_device_info w (tick logged_in)).
  destruct (fetch_all_one_entry_per_distinct_sensor w logged_in 1 10
              (match fst inventory with Ok l => l | Raise _ => [] end)
              ["s1"; "s2"; "s3"] (snd inventory))
    as (all_data & s' & futures & s2 & Hrun & _ & _ & Hkeys & _ & Hlen & _).
  - intros A l. apply Permutation_refl.
  - vm_compute. reflexivity.
  - vm_compute. reflexivity.
  - left. reflexivity.
  - lia.
  - exists all_data, s'. repeat split; try apply Hkeys; auto.
Defined.

(** C4 as stated fails: a sensor the inventory lists twice gets a single
    entry of the result map, which then has fewer entries than the sensor
    list. *)
Lemma twice_listed_sensor_gets_one_entry :
  let w := demo_world twice_listed in
  match get_all_rainfall_sensors_with_device_info w (tick logged_in),
        fetch_all_rainfall_data_parallel w 1 10 logged_in with
  | (Ok sensors, _), (Ok all_data, _) =>
      map (Dict.get "sensor_company_id") sensors
        = [Some (JStr "s1"); Some (JStr "s1")] /\
      Dict.keys all_data = ["s1"] /\
      Dict.len all_data <> List.length sensors
  | _, _ => False
  end.
Proof.
  vm_compute. repeat split. discriminate.
Qed.


(** C9 as stated fails: the same batch and descriptors transformed at two
    different times give different record lists. *)
Lemma transform_twice_differs :
  transform_rainfall_data true "2024-01-02T10:00:00" scenario_batch scenario_sensors
  <> transform_rainfall_data true "2024-01-02T10:05:00" scenario_batch scenario_sensors.
Proof.
  vm_compute. discriminate.
Qed.

Lemma persist_is_best_effort_witness :
  save_to_supabase flaky_db [demo_row "s1"; demo_row "s2"; demo_row "s3"]
  = (true, Some 2).
Proof.
  apply (proj2 (proj2 (persist_is_best_effort flaky_db))
           [demo_row "s1"; demo_row "s2"; demo_row "s3"] 1).
  - discriminate.
  - apply Nat.leb_le. vm_compute. reflexivity.
  - reflexivity.
  - simpl. lia.
  - intros [|[|[|i]]] r H; simpl in H;
      [injection H as <-; reflexivity .. | destruct i; discriminate].
Defined.

(** * Further properties of the code *)

(** ** Reading fetch *)

Section ReadingFetchFacts.
Context {rt : PyRuntime} (w : World).

Lemma cache_lookup_disabled sid key s :
  cache_lookup w sid key false s = (Ok None, s).
Proof. reflexivity. Qed.

Lemma cache_lookup_stale sid key s e :
  Dict.get key (reading_cache s) = Some e ->
  Qltb (clock w (ticks s) - timestamp e)%Q _cache_duration = false ->
  cache_lookup w sid key true s = (Ok None, tick s).
Proof.
  unfold reading_cache, cache_lookup. unfold_m. intros -> ->. reflexivity.
Qed.

Lemma py_get_raises (j : Json) (k : string) (d : Json) (e : exn) :
  py_get j k d = Raise e -> e = AttributeError.
Proof. destruct j; simpl; intros H; inversion H; reflexivity. Qed.

(** [get_rainfall_data], case by case *)
Lemma get_rainfall_data_run sid st en uc s :
  let key := cache_key_of sid st en in
  let req := records_request sid st en in
  get_rainfall_data w sid st en uc s =
  if has_session s then
    match cache_lookup w sid key uc s with
    | (Ok (Some payload), s1) => (Ok payload, s1)
    | (Ok None, s1) =>
        match remote w (List.length (sent s1)) req with
        | NetError => (Raise TransportError, after_request req s1)
        | Body j =>
            match py_get j "status" JNull with
            | Raise e => (Raise e, after_request req s1)
            | Ok status =>
                if py_eq_str status "OK" then
                  (Ok j, if uc then after_store w key j (after_request req s1)
                         else after_request req s1)
                else (Raise SensorDataFailed, after_request req s1)
            end
        end
    | (Raise e, s1) => (Raise e, s1)
    end
  else (Raise LoginRequired, s).
Proof.
  intros key req. unfold has_session, get_rainfall_data.
  unfold bind at 1. unfold get_self at 1.
  destruct (py_truthy (access_token (self s))); cbn [negb]; [|reflexivity].
  fold key. fold req. unfold bind at 1.
  destruct (cache_lookup w sid key uc s) as [[[payload|]|e] s1]; try reflexivity.
  unfold bind at 1. unfold http at 1. fold (after_request req s1).
  destruct (remote w (List.length (sent s1)) req) as [j|]; [|reflexivity].
  unfold bind at 1. unfold lift at 1.
  destruct (py_get j "status" JNull) as [status|e]; [|reflexivity].
  destruct (py_eq_str status "OK"); [|reflexivity].
  destruct uc.
  - unfold bind at 1. rewrite cache_store_run. reflexivity.
  - reflexivity.
Qed.

(** X1. A reading fetch raises the login-required error exactly when the
    client holds no token; it then sends nothing, reads no clock and leaves
    the client as it was, even when the reading cache holds a fresh entry
    for the key. *)
Theorem reading_fetch_requires_session sid st en uc s r s' :
  get_rainfall_data w sid st en uc s = (r, s') ->
  (r = Raise LoginRequired <-> has_session s = false) /\
  (has_session s = false -> s' = s).
Proof.
  rewrite get_rainfall_data_run. cbv zeta.
  destruct (has_session s).
  - intros H. split; [|discriminate]. split; [|discriminate]. intros ->.
    destruct (cache_lookup w sid (cache_key_of sid st en) uc s)
      as [[[payload|]|e] s1] eqn:Hlook.
    + discriminate.
    + destruct (remote w (List.length (sent s1)) (records_request sid st en)) as [j|];
        [|discriminate].
      destruct (py_get j "status" JNull) as [status|e] eqn:Hst.
      * destruct (py_eq_str status "OK"); discriminate.
      * apply py_get_raises in Hst. congruence.
    + apply cache_lookup_inv in Hlook. destruct Hlook as (_ & _ & -> & _). discriminate.
  - intros [= <- <-]. repeat split; auto.
Qed.

(** X2. With the cache switched off, a reading fetch of a logged-in client
    always sends its one request and touches neither the clock nor the
    client: it returns the remote's response when that reports "OK" and
    raises otherwise. *)
Theorem reading_fetch_without_cache sid st en s :
  has_session s = true ->
  let req := records_request sid st en in
  let run := get_rainfall_data w sid st en false s in
  snd run = after_request req s /\
  match remote w (List.length (sent s)) req with
  | Body j => if status_ok j then fst run = Ok j else exists e, fst run = Raise e
  | NetError => fst run = Raise TransportError
  end.
Proof.
  intros Htok req run. unfold run. rewrite get_rainfall_data_run. cbv zeta.
  rewrite Htok, cache_lookup_disabled. fold req. unfold status_ok.
  destruct (remote w (List.length (sent s)) req) as [j|]; [|split; reflexivity].
  destruct (py_get j "status" JNull) as [status|e]; [|simpl; split; eauto].
  destruct (py_eq_str status "OK"); simpl; split; eauto.
Qed.

(** X3. An entry of the reading cache that is 300 seconds old or older is
    not served: the call sends the request, and when the remote answers "OK"
    it returns the new response and the cache holds that response under the
    key, stamped with the clock reading taken after the fetch. *)
Theorem stale_entry_is_refetched sid st en s e j :
  has_session s = true ->
  let key := cache_key_of sid st en in
  let req := records_request sid st en in
  Dict.get key (reading_cache s) = Some e ->
  (CACHE_DURATION_SEC <= clock w (ticks s) - timestamp e)%Q ->
  remote w (List.length (sent s)) req = Body j ->
  status_ok j = true ->
  exists s',
    get_rainfall_data w sid st en true s = (Ok j, s') /\
    sent s' = sent s ++ [req] /\
    Dict.get key (reading_cache s')
      = Some {| data := j; timestamp := clock w (S (ticks s)) |}.
Proof.
  intros Htok key req Hget Hold Hrem Hok. subst key req.
  rewrite get_rainfall_data_run. cbv zeta. rewrite Htok.
  rewrite (cache_lookup_stale sid _ s e Hget) by (now apply Qltb_ge).
  change (sent (tick s)) with (sent s). rewrite Hrem.
  unfold status_ok in Hok.
  destruct (py_get j "status" JNull) as [status|]; [|discriminate]. rewrite Hok.
  eexists. split; [reflexivity|]. split; [reflexivity|].
  unfold reading_cache. simpl. apply dict_get_set_same.
Qed.

(** X4. When a fetched response is stored while the reading cache holds
    fewer than [MAX_CACHE_ENTRIES] entries, nothing is evicted: the cache is
    the old one with the key set to the new entry, and every other key keeps
    its entry. *)
Theorem insertion_below_capacity_evicts_nothing sid st en s j s' :
  get_rainfall_data w sid st en true s = (Ok j, s') ->
  sent s' <> sent s ->
  Dict.len (reading_cache s) < MAX_CACHE_ENTRIES ->
  (exists now,
      reading_cache s' =
        Dict.set (cache_key_of sid st en) {| data := j; timestamp := now |}
                 (reading_cache s)) /\
  (forall k, k <> cache_key_of sid st en ->
             Dict.get k (reading_cache s') = Dict.get k (reading_cache s)).
Proof.
  intros H Hne Hroom. apply get_rainfall_data_inv in H.
  destruct H as [(_ & Hr & _) | [(_ & Hsent & _) | (_ & s1 & _ & _ & Hrem)]];
    [discriminate | congruence |].
  destruct (remote w (List.length (sent s)) (records_request sid st en)) as [j'|].
  2:{ destruct Hrem; discriminate. }
  destruct (status_ok j').
  2:{ destruct Hrem as [[x Hx] _]; discriminate. }
  destruct Hrem as (Hr & Hself & _). injection Hr as ->.
  assert (Hev : evicted (reading_cache s) = reading_cache s).
  { unfold evicted. apply Nat.leb_gt in Hroom. now rewrite Hroom. }
  assert (Hcache : reading_cache s' =
                   Dict.set (cache_key_of sid st en)
                     {| data := j'; timestamp := clock w (ticks s1) |} (reading_cache s)).
  { unfold reading_cache at 1. rewrite Hself. simpl. now rewrite Hev. }
  split.
  - eauto.
  - intros k Hk. rewrite Hcache. apply dict_get_set_other. congruence.
Qed.

End ReadingFetchFacts.

(** ** Inventory *)

Section InventoryFacts.
Context {rt : PyRuntime} (w : World).

(** [get_all_rainfall_sensors_with_device_info], case by case *)
Lemma get_all_run s :
  get_all_rainfall_sensors_with_device_info w s =
  match fresh_sensors (self s) (clock w (ticks s)) with
  | Some sensors => (Ok sensors, tick s)
  | None =>
      if has_session s then
        let req := devices_request s in
        let s1 := {| self := self s; ticks := S (ticks s); sent := sent s ++ [req] |} in
        match remote w (List.length (sent s)) req with
        | NetError => (Raise TransportError, s1)
        | Body j =>
            match parse_inventory j with
            | Raise e => (Raise e, s1)
            | Ok sensors =>
                (Ok sensors,
                 {| self := set_sensors_cache sensors (clock w (ticks s)) (self s);
                    ticks := S (ticks s); sent := sent s ++ [req] |})
            end
        end
      else (Raise LoginRequired, tick s)
  end.
Proof.
  unfold get_all_rainfall_sensors_with_device_info, has_session, devices_request,
    parse_inventory.
  unfold bind at 1. unfold time_time at 1. unfold bind at 1. unfold get_self at 1.
  cbn [self ticks tick sent].
  destruct (fresh_sensors (self s) (clock w (ticks s))); [reflexivity|].
  destruct (py_truthy (access_token (self s))); cbn [negb]; [|reflexivity].
  unfold bind at 1. unfold http at 1. cbn [self ticks tick sent].
  destruct (remote w (List.length (sent s))
              (GET_devices (py_str (company_id (self s))) DEVICES_API_LIMIT)) as [j|];
    [|reflexivity].
  unfold bind at 1. unfold lift at 1.
  destruct (py_get j "status" JNull) as [status|e]; [|reflexivity].
  destruct (py_eq_str status "OK"); [|reflexivity].
  unfold bind at 1. unfold lift at 1.
  destruct (py_get j "data" (JObj [])) as [outer|e]; [|reflexivity].
  unfold bind at 1. unfold lift at 1.
  destruct (py_get outer "data" (JArr [])) as [inner|e]; [|reflexivity].
  unfold bind at 1. unfold lift at 1.
  destruct (py_iter inner) as [devices|e]; [|reflexivity].
  unfold bind at 1. unfold lift at 1.
  destruct (flatten_devices devices) as [sensors|e]; reflexivity.
Qed.

(** X5. After an inventory call has returned a sensor list, the inventory
    cache holds that list (stamped with the clock reading taken at the start
    of the call, when it went to the network); a second call whose clock
    reading is less than 300 seconds after the stamp returns the same list,
    sends nothing and leaves the client untouched. *)
Theorem inventory_cache_hit_within_ttl s sensors s1 :
  get_all_rainfall_sensors_with_device_info w s = (Ok sensors, s1) ->
  exists stamp,
    _sensors_cache (self s1) = Some sensors /\
    _cache_timestamp (self s1) = Some stamp /\
    (sent s1 <> sent s -> stamp = clock w (ticks s)) /\
    ((clock w (ticks s1) - stamp < CACHE_DURATION_SEC)%Q ->
     get_all_rainfall_sensors_with_device_info w s1 = (Ok sensors, tick s1)).
Proof.
  rewrite get_all_run.
  destruct (fresh_sensors (self s) (clock w (ticks s))) as [cached|] eqn:Hfresh.
  - intros [= <- <-]. unfold fresh_sensors in Hfresh.
    destruct (_sensors_cache (self s)) as [l|] eqn:Hl; [|discriminate].
    destruct (_cache_timestamp (self s)) as [t|] eqn:Ht; [|discriminate].
    destruct (Qltb (clock w (ticks s) - t) _cache_duration); [|discriminate].
    injection Hfresh as <-.
    exists t. simpl. repeat split; auto.
    + intros Hne. congruence.
    + intros Hlt. rewrite get_all_run. unfold fresh_sensors. simpl.
      rewrite Hl, Ht. apply Qltb_lt in Hlt. unfold _cache_duration.
      now rewrite Hlt.
  - destruct (has_session s); [|discriminate]. cbv zeta.
    destruct (remote w (List.length (sent s)) (devices_request s)) as [j|];
      [|discriminate].
    destruct (parse_inventory j) as [l|e]; [|discriminate].
    intros [= <- <-]. exists (clock w (ticks s)). simpl. repeat split; auto.
    intros Hlt. rewrite get_all_run. unfold fresh_sensors. simpl.
    apply Qltb_lt in Hlt. unfold _cache_duration. now rewrite Hlt.
Qed.

(** X6. An inventory call that raises leaves the client as it was, stale
    inventory included. With no fresh inventory and a token, a transport
    failure raises and a response whose status is not "OK" raises the
    device-list error: a stale list is never returned in place of a failed
    refresh. The call never touches the reading cache, the ledger or the
    session. *)
Theorem inventory_failure_has_no_fallback s r s' :
  get_all_rainfall_sensors_with_device_info w s = (r, s') ->
  (forall e, r = Raise e -> self s' = self s) /\
  (fresh_sensors (self s) (clock w (ticks s)) = None ->
   has_session s = true ->
   match remote w (List.length (sent s)) (devices_request s) with
   | NetError => r = Raise TransportError
   | Body j =>
       forall status,
         py_get j "status" JNull = Ok status -> py_eq_str status "OK" = false ->
         r = Raise DeviceListFailed
   end) /\
  reading_cache s' = reading_cache s /\ ledger s' = ledger s /\
  access_token (self s') = access_token (self s) /\
  company_id (self s') = company_id (self s).
Proof.
  rewrite get_all_run. unfold reading_cache, ledger.
  destruct (fresh_sensors (self s) (clock w (ticks s))) as [cached|].
  - intros [= <- <-]. simpl. repeat split; auto. discriminate.
  - destruct (has_session s).
    2:{ intros [= <- <-]. simpl. repeat split; auto. discriminate. }
    cbv zeta.
    destruct (remote w (List.length (sent s)) (devices_request s)) as [j|].
    + destruct (parse_inventory j) as [l|e] eqn:Hparse.
      * intros [= <- <-]. simpl. repeat split; auto; try discriminate.
        intros _ _ status Hst Hbad. unfold parse_inventory in Hparse.
        rewrite Hst, Hbad in Hparse. discriminate.
      * intros [= <- <-]. simpl. repeat split; auto.
        intros _ _ status Hst Hbad. unfold parse_inventory in Hparse.
        rewrite Hst, Hbad in Hparse. congruence.
    + intros [= <- <-]. simpl. repeat split; auto.
Qed.

Lemma each_sensor_ok (device_info : Dict.t Json) (entries : list Json) :
  forallb is_dict entries = true ->
  (fix each (l : list Json) : result (list (Dict.t Json)) :=
     match l with
     | [] => Ok []
     | sensor :: l' =>
         match py_get sensor "sensor_company_id" JNull with
         | Ok sid =>
             match each l' with
             | Ok rest => Ok ((("sensor_company_id", sid) :: device_info) :: rest)
             | Raise e => Raise e
             end
         | Raise e => Raise e
         end
     end) entries
  = Ok (map (fun entry =>
               match entry with
               | JObj e => ("sensor_company_id", dict_get "sensor_company_id" e)
                           :: device_info
               | _ => []
               end) entries).
Proof.
  induction entries as [|entry entries IH]; simpl; [reflexivity|].
  intros H. apply andb_true_iff in H. destruct H as [Hd Hrest].
  destruct entry; try discriminate. simpl. rewrite (IH Hrest). reflexivity.
Qed.

Lemma sensors_of_device_ok device :
  device_conforms device = true ->
  sensors_of_device device = Ok (descriptors_of device).
Proof.
  destruct device as [| | | | |d]; try discriminate. simpl.
  destruct (Dict.get "sensor_companies" d) as [[| | | |entries|]|];
    try discriminate; simpl.
  - intros H. apply (each_sensor_ok (device_info_of d) entries H).
  - reflexivity.
Qed.

Lemma flatten_devices_ok devices :
  forallb device_conforms devices = true ->
  flatten_devices devices = Ok (flat_map descriptors_of devices).
Proof.
  induction devices as [|device devices IH]; simpl; [reflexivity|].
  intros H. apply andb_true_iff in H. destruct H as [Hd Hrest].
  now rewrite (sensors_of_device_ok device Hd), (IH Hrest).
Qed.

Lemma string_append_nonempty (a b : string) : a <> "" -> (a ++ b)%string <> "".
Proof. destruct a; [congruence | discriminate]. Qed.

Lemma device_name_is_set (d : Dict.t Json) :
  py_truthy (dict_get "device_name" (device_info_of d)) = true.
Proof.
  unfold device_info_of, dict_get at 1. simpl. unfold py_or.
  destruct (py_truthy (if py_truthy (dict_get "device_name" d)
                       then dict_get "device_name" d else dict_get "name" d)) eqn:E.
  - exact E.
  - reflexivity.
Qed.

(** X7. For devices of the documented shape, the flattening yields one
    descriptor per sensor entry of each device, in order; every descriptor
    has exactly the keys sensor_company_id, device_id, device_name,
    gps_location_lat and gps_location_lng, and its device name is never
    empty, so it is the name [fetch_single_sensor_data] displays. *)
Theorem inventory_flattening devices :
  forallb device_conforms devices = true ->
  exists sensors,
    flatten_devices devices = Ok sensors /\
    List.length sensors
      = list_sum (map (fun device => List.length (sensor_entries device)) devices) /\
    Forall (fun si =>
              Dict.keys si = ["sensor_company_id"; "device_id"; "device_name";
                              "gps_location_lat"; "gps_location_lng"] /\
              py_truthy (dict_get "device_name" si) = true /\
              display_name_of si = dict_get "device_name" si) sensors.
Proof.
  intros Hconf. exists (flat_map descriptors_of devices).
  split; [now apply flatten_devices_ok|]. split.
  - rewrite length_flat_map. f_equal. apply map_ext_in. intros device _.
    unfold descriptors_of. destruct device; try reflexivity. apply length_map.
  - apply Forall_forall. intros si Hin. apply in_flat_map in Hin.
    destruct Hin as (device & Hdev & Hsi).
    rewrite forallb_forall in Hconf. specialize (Hconf device Hdev).
    destruct device as [| | | | |d]; try discriminate.
    unfold descriptors_of in Hsi. apply in_map_iff in Hsi.
    destruct Hsi as (entry & <- & Hentry).
    assert (Hdict : is_dict entry = true).
    { simpl in Hconf, Hentry.
      destruct (Dict.get "sensor_companies" d) as [[| | | |entries|]|];
        try discriminate; try contradiction.
      rewrite forallb_forall in Hconf. now apply Hconf. }
    destruct entry as [| | | | |e]; try discriminate.
    assert (Hname : dict_get "device_name"
                      (("sensor_company_id", dict_get "sensor_company_id" e)
                         :: device_info_of d)
                    = dict_get "device_name" (device_info_of d)) by reflexivity.
    split; [reflexivity|]. split.
    + rewrite Hname. apply device_name_is_set.
    + unfold display_name_of. rewrite Hname. unfold py_or.
      rewrite device_name_is_set. now rewrite device_name_is_set.
Qed.

End InventoryFacts.

(** ** Login *)

Section LoginFacts.
Context {rt : PyRuntime} (w : World).

(** [login], case by case *)
Lemma login_run email password s :
  let req := POST_login email password in
  let s1 := after_request req s in
  login w email password s =
  match remote w (List.length (sent s)) req with
  | NetError => (Raise TransportError, s1)
  | Body j =>
      match py_get j "status" JNull with
      | Raise e => (Raise e, s1)
      | Ok status =>
          if py_eq_str status "OK" then
            match py_get j "data" (JObj []) with
            | Raise e => (Raise e, s1)
            | Ok data =>
                match py_get data "accessToken" JNull with
                | Raise e => (Raise e, s1)
                | Ok token =>
                    match py_get data "user" (JObj []) with
                    | Raise e => (Raise e, s1)
                    | Ok user_data =>
                        match py_get user_data "company_id" JNull with
                        | Raise e => (Raise e, s1)
                        | Ok company =>
                            (Ok j, with_self (set_session token company) s1)
                        end
                    end
                end
            end
          else (Raise LoginFailed, s1)
      end
  end.
Proof.
  intros req s1. unfold login. fold req.
  unfold bind at 1. unfold http at 1. fold (after_request req s). fold s1.
  destruct (remote w (List.length (sent s)) req) as [j|]; [|reflexivity].
  unfold bind at 1. unfold lift at 1.
  destruct (py_get j "status" JNull) as [status|e]; [|reflexivity].
  destruct (py_eq_str status "OK"); [|reflexivity].
  unfold bind at 1. unfold lift at 1.
  destruct (py_get j "data" (JObj [])) as [data|e]; [|reflexivity].
  unfold bind at 1. unfold lift at 1.
  destruct (py_get data "accessToken" JNull) as [token|e]; [|reflexivity].
  unfold bind at 1. unfold lift at 1.
  destruct (py_get data "user" (JObj [])) as [user_data|e]; [|reflexivity].
  unfold bind at 1. unfold lift at 1.
  destruct (py_get user_data "company_id" JNull) as [company|e]; reflexivity.
Qed.

Lemma login_frame email password s r s' :
  login w email password s = (r, s') ->
  sent s' = sent s ++ [POST_login email password] /\
  ticks s' = ticks s /\
  _sensors_cache (self s') = _sensors_cache (self s) /\
  _cache_timestamp (self s') = _cache_timestamp (self s) /\
  ledger s' = ledger s /\
  reading_cache s' = reading_cache s.
Proof.
  rewrite login_run. cbv zeta. unfold ledger, reading_cache.
  repeat (break_match; try discriminate);
    intros [= <- <-]; simpl; repeat split; reflexivity.
Qed.

(** X8. A login sends exactly one request and never touches the inventory
    cache, the reading cache or the ledger. On a transport failure, or a
    response whose status is not "OK", it raises and leaves the client as it
    was; on an "OK" response whose [data] and [user] are dicts it returns the
    response and stores the token and company id found there.  (For an "OK"
    response whose [user] is not a dict the source has stored the token by
    the time it raises; the statement leaves that case out.) *)
Theorem login_outcome email password s r s' :
  login w email password s = (r, s') ->
  let req := POST_login email password in
  sent s' = sent s ++ [req] /\
  _sensors_cache (self s') = _sensors_cache (self s) /\
  _cache_timestamp (self s') = _cache_timestamp (self s) /\
  ledger s' = ledger s /\
  reading_cache s' = reading_cache s /\
  match remote w (List.length (sent s)) req with
  | NetError => r = Raise TransportError /\ self s' = self s
  | Body j =>
      forall status,
        py_get j "status" JNull = Ok status ->
        if py_eq_str status "OK" then
          forall d u,
            py_get j "data" (JObj []) = Ok (JObj d) ->
            py_get (JObj d) "user" (JObj []) = Ok (JObj u) ->
            r = Ok j /\
            access_token (self s') = dict_get "accessToken" d /\
            company_id (self s') = dict_get "company_id" u
        else r = Raise LoginFailed /\ self s' = self s
  end.
Proof.
  intros H req.
  pose proof (login_frame _ _ _ _ _ H) as (Hsent & _ & Hsc & Hts & Hl & Hc).
  repeat (split; [assumption|]).
  rewrite login_run in H. cbv zeta in H. fold req in H.
  destruct (remote w (List.length (sent s)) req) as [j|].
  - intros status Hst. rewrite Hst in H.
    destruct (py_eq_str status "OK").
    + intros d u Hd Hu. rewrite Hd in H. simpl in Hu. simpl py_get in H.
      injection Hu as Hu. rewrite Hu in H. simpl in H.
      injection H as <- <-. simpl. unfold dict_get. auto.
    + injection H as <- <-. auto.
  - injection H as <- <-. auto.
Qed.

End LoginFacts.

(** ** Single-sensor fetch *)

Section SingleFetchFacts.
Context {rt : PyRuntime} (w : World).

Lemma get_rainfall_data_frame sid st en uc s r s' :
  get_rainfall_data w sid st en uc s = (r, s') ->
  (sent s' = sent s \/ sent s' = sent s ++ [records_request sid st en]) /\
  (forall e, r = Raise e -> self s' = self s) /\
  access_token (self s') = access_token (self s) /\
  company_id (self s') = company_id (self s) /\
  _sensors_cache (self s') = _sensors_cache (self s) /\
  _cache_timestamp (self s') = _cache_timestamp (self s) /\
  ledger s' = ledger s.
Proof.
  intros H. apply get_rainfall_data_inv in H. unfold ledger. cbv zeta in H.
  destruct H as [(_ & Hr & ->) | [(_ & Hsent & Hself & _) | (_ & s1 & _ & Hsent & Hrem)]].
  - repeat split; auto.
  - rewrite Hself. repeat split; auto.
  - destruct (remote w (List.length (sent s)) (records_request sid st en)) as [j|].
    + destruct (status_ok j).
      * destruct Hrem as (-> & Hself & _). rewrite Hself.
        destruct uc; simpl; repeat split; auto; discriminate.
      * destruct Hrem as [_ Hself]. rewrite Hself. repeat split; auto.
    + destruct Hrem as [_ Hself]. rewrite Hself. repeat split; auto.
Qed.

(** X9. A reading fetch sends at most one request, the one for its
    sensor and window; whenever it raises, the client is exactly as before;
    and whatever the outcome it leaves the session, the inventory cache and
    the ledger alone. *)
Theorem failed_reading_fetch_changes_nothing sid st en uc s r s' :
  get_rainfall_data w sid st en uc s = (r, s') ->
  (sent s' = sent s \/ sent s' = sent s ++ [records_request sid st en]) /\
  (forall e, r = Raise e -> self s' = self s) /\
  access_token (self s') = access_token (self s) /\
  company_id (self s') = company_id (self s) /\
  _sensors_cache (self s') = _sensors_cache (self s) /\
  _cache_timestamp (self s') = _cache_timestamp (self s) /\
  ledger s' = ledger s.
Proof. apply get_rainfall_data_frame. Qed.

Lemma recently_processed_run id key s :
  recently_processed w id key s =
  match Dict.get key (ledger s) with
  | Some last_time =>
      if Qltb (clock w (ticks s) - last_time)%Q DUPLICATE_SKIP_SEC then
        if py_sliceable id then (Ok true, tick s) else (Raise TypeError, tick s)
      else (Ok false, tick s)
  | None => (Ok false, s)
  end.
Proof.
  unfold recently_processed, ledger. unfold_m.
  destruct (Dict.get key (_last_processed_cache (self s))); [|reflexivity].
  destruct (Qltb _ _); [|reflexivity]. destruct (py_sliceable id); reflexivity.
Qed.

(** X10. A request repeated once the 60-second suppression interval has
    passed, but while the reading cache entry of its key is still fresh, is
    not skipped and not fetched either: it returns the cached payload marked
    successful, sends nothing, leaves the reading cache as it was and
    re-stamps the ledger. *)
Theorem repeat_after_interval_is_served_from_cache si sid st en s last e :
  Dict.get "sensor_company_id" si = Some (JStr sid) ->
  has_session s = true ->
  let key := cache_key_of (JStr sid) st en in
  Dict.get key (ledger s) = Some last ->
  (DUPLICATE_SKIP_SEC <= clock w (ticks s) - last)%Q ->
  Dict.get key (reading_cache s) = Some e ->
  (clock w (S (ticks s)) - timestamp e < CACHE_DURATION_SEC)%Q ->
  exists s',
    fetch_single_sensor_data w si st en s
      = (Ok (JStr sid, data e, display_name_of si, true), s') /\
    sent s' = sent s /\
    reading_cache s' = reading_cache s /\
    Dict.get key (ledger s') = Some (clock w (S (S (ticks s)))).
Proof.
  intros Hid Htok key Hlast Hold Hget Hfresh. subst key.
  rewrite (fetch_single_run w si (JStr sid) st en s Hid). cbv zeta.
  rewrite recently_processed_run, Hlast.
  apply Qltb_ge in Hold. rewrite Hold.
  rewrite (get_rainfall_data_hit w sid st en (tick s) e).
  - eexists. split; [reflexivity|]. repeat split.
    unfold ledger, stamped. simpl. apply dict_get_set_same.
  - exact Htok.
  - exact Hget.
  - apply Qltb_lt. exact Hfresh.
Qed.

(** a single fetch only ever adds to the ledger and leaves the session and
    the inventory cache alone *)
Lemma fetch_single_frame si st en s r s' :
  fetch_single_sensor_data w si st en s = (r, s') ->
  access_token (self s') = access_token (self s) /\
  company_id (self s') = company_id (self s) /\
  _sensors_cache (self s') = _sensors_cache (self s) /\
  _cache_timestamp (self s') = _cache_timestamp (self s) /\
  (forall k, In k (Dict.keys (ledger s)) -> In k (Dict.keys (ledger s'))) /\
  (exists l, sent s' = sent s ++ l /\ List.length l <= 1).
Proof.
  destruct (Dict.get "sensor_company_id" si) as [id|] eqn:Hid.
  2:{ unfold fetch_single_sensor_data. rewrite Hid. intros [= <- <-].
      repeat split; auto. exists []. rewrite app_nil_r. auto. }
  rewrite (fetch_single_run w si id st en s Hid). cbv zeta.
  destruct (recently_processed w id (cache_key_of id st en) s) as [r0 s0] eqn:Hdup.
  pose proof (recently_processed_inv _ _ _ _ _ _ Hdup) as (Hsent & Hself & Hr).
  assert (Hnil : exists l, sent s0 = sent s ++ l /\ List.length l <= 1).
  { exists []. rewrite app_nil_r. auto. }
  destruct Hr as [-> | [-> | [-> _]]].
  - intros [= <- <-]. rewrite Hself. unfold ledger. rewrite Hself. repeat split; auto.
  - destruct (get_rainfall_data w id st en true s0) as [r1 s2] eqn:Hget.
    pose proof (get_rainfall_data_frame _ _ _ _ _ _ _ Hget)
      as (Hs & _ & Ht & Hc & Hsc & Hts & Hl).
    assert (Hreq : exists l, sent s2 = sent s ++ l /\ List.length l <= 1).
    { destruct Hs as [Hs | Hs]; rewrite Hs, Hsent.
      - exists []. rewrite app_nil_r. auto.
      - eexists. split; [reflexivity | simpl; lia]. }
    destruct r1 as [payload|e]; intros [= <- <-].
    + unfold stamped, ledger in *. simpl. rewrite Ht, Hc, Hsc, Hts, Hself.
      repeat split; auto.
      intros k Hk. apply dict_keys_set. right. rewrite Hl, Hself. exact Hk.
    + unfold ledger in *. rewrite Ht, Hc, Hsc, Hts, Hl, Hself. repeat split; auto.
  - intros [= <- <-]. unfold ledger. rewrite Hself. repeat split; auto.
Qed.

End SingleFetchFacts.

(** ** Orchestrator *)

Section OrchestratorFacts.
Context {rt : PyRuntime} (w : World).

Lemma run_tasks_never_raises sensors st en s :
  exists futures s', run_tasks w sensors st en s = (Ok futures, s').
Proof.
  unfold run_tasks. revert s. induction sensors as [|si sensors IH]; intros s; simpl.
  - eexists _, _. reflexivity.
  - unfold bind at 1. unfold capture at 1.
    destruct (fetch_single_sensor_data w si st en s) as [r s1].
    destruct (IH s1) as (futures & s2 & Hrest).
    unfold bind at 1. rewrite Hrest. eexists _, _. reflexivity.
Qed.

Lemma run_tasks_cons si sensors st en s :
  run_tasks w (si :: sensors) st en s =
  let '(r, s1) := fetch_single_sensor_data w si st en s in
  match run_tasks w sensors st en s1 with
  | (Ok futures, s2) => (Ok (r :: futures), s2)
  | (Raise e, s2) => (Raise e, s2)
  end.
Proof.
  unfold run_tasks. simpl. unfold bind at 1. unfold capture at 1.
  destruct (fetch_single_sensor_data w si st en s) as [r s1].
  unfold bind at 1.
  destruct (for_each _ sensors s1) as [[futures|e] s2]; reflexivity.
Qed.

(** [fetch_all_rainfall_data_parallel], case by case *)
Lemma fetch_all_run days max_workers s :
  let st := fst (window_strings (clock w (ticks s)) days) in
  let en := snd (window_strings (clock w (ticks s)) days) in
  fetch_all_rainfall_data_parallel w days max_workers s =
  match get_all_rainfall_sensors_with_device_info w (tick s) with
  | (Raise e, s1) => (Raise e, s1)
  | (Ok sensors, s1) =>
      if negb (_CI w) &&
         negb (forallb (fun si => py_sliceable (sample_id si)) (firstn 3 sensors))
      then (Raise TypeError, s1)
      else if (max_workers =? 0)%nat then (Raise ValueError, tick s1)
      else
        match run_tasks w sensors st en (tick s1) with
        | (Raise e, s2) => (Raise e, s2)
        | (Ok futures, s2) =>
            match collect (completion w _ futures) Dict.empty 0 with
            | Raise e => (Raise e, s2)
            | Ok (all_data, _) =>
                if _CI w then (Ok all_data, tick s2)
                else if (List.length sensors =? 0)%nat
                     then (Raise ZeroDivisionError, tick s2)
                     else (Ok all_data, after_summary w (tick s2))
            end
        end
  end.
Proof.
  intros st en. unfold fetch_all_rainfall_data_parallel.
  unfold bind at 1. unfold time_time at 1. fold st. fold en.
  unfold bind at 1.
  destruct (get_all_rainfall_sensors_with_device_info w (tick s))
    as [[sensors|e] s1]; [|reflexivity].
  unfold bind at 1.
  destruct (negb (_CI w) &&
            negb (forallb (fun si => py_sliceable (sample_id si)) (firstn 3 sensors)));
    [reflexivity|].
  unfold ret at 1. unfold bind at 1. unfold time_time at 1. unfold bind at 1.
  destruct (max_workers =? 0)%nat; [reflexivity|].
  unfold ret at 1. unfold bind at 1.
  destruct (run_tasks w sensors st en (tick s1)) as [[futures|e] s2]; [|reflexivity].
  unfold bind at 1. unfold lift at 1.
  destruct (collect (completion w _ futures) Dict.empty 0) as [[all_data n]|e];
    [|reflexivity].
  unfold bind at 1. unfold time_time at 1. unfold bind at 1.
  unfold after_summary.
  destruct (_CI w); [reflexivity|].
  destruct (List.length sensors =? 0)%nat; [reflexivity|].
  unfold bind at 1. unfold get_self at 1. unfold skip_ticks. reflexivity.
Qed.

(** X11. With an empty inventory the orchestrator starts no fetch; in CI it
    returns the empty map, and outside CI it raises [ZeroDivisionError] in
    the closing summary, which averages over the number of sensors. *)
Theorem empty_inventory_fetch days max_workers s s1 :
  fair_completion w ->
  get_all_rainfall_sensors_with_device_info w (tick s) = (Ok [], s1) ->
  0 < max_workers ->
  fetch_all_rainfall_data_parallel w days max_workers s =
  if _CI w then (Ok [], tick (tick s1))
  else (Raise ZeroDivisionError, tick (tick s1)).
Proof.
  intros Hfair Hinv Hworkers. rewrite fetch_all_run. cbv zeta. rewrite Hinv.
  simpl forallb. rewrite andb_false_r.
  destruct max_workers as [|n]; [lia|]. cbn [Nat.eqb].
  unfold run_tasks. simpl for_each. unfold ret at 1.
  rewrite (Permutation_nil (Permutation_sym (Hfair _ []))). simpl.
  destruct (_CI w); reflexivity.
Qed.

Lemma sent_since_refl s s' : sent s' = sent s -> sent_since 0 s s'.
Proof. intros H. exists []. rewrite app_nil_r. auto. Qed.

Lemma sent_since_trans a b s1 s2 s3 :
  sent_since a s1 s2 -> sent_since b s2 s3 -> sent_since (a + b) s1 s3.
Proof.
  intros (l & Hl & Ha) (l' & Hl' & Hb). exists (l ++ l').
  rewrite Hl', Hl, app_assoc, length_app. split; [reflexivity | lia].
Qed.

Lemma sent_since_weaken a b s s' : a <= b -> sent_since a s s' -> sent_since b s s'.
Proof. intros Hle (l & Hl & Ha). exists l. split; [exact Hl | lia]. Qed.

Lemma inventory_frame s r s' :
  get_all_rainfall_sensors_with_device_info w s = (r, s') ->
  access_token (self s') = access_token (self s) /\
  company_id (self s') = company_id (self s) /\
  ledger s' = ledger s /\
  reading_cache s' = reading_cache s.
Proof.
  rewrite get_all_run. unfold ledger, reading_cache. cbv zeta.
  repeat (break_match; try discriminate);
    intros [= <- <-]; simpl; repeat split; reflexivity.
Qed.

Lemma get_all_sent s r s' :
  get_all_rainfall_sensors_with_device_info w s = (r, s') -> sent_since 1 s s'.
Proof.
  rewrite get_all_run.
  destruct (fresh_sensors (self s) (clock w (ticks s))).
  - intros [= <- <-]. apply (sent_since_weaken 0); [lia | now apply sent_since_refl].
  - destruct (has_session s).
    + cbv zeta.
      destruct (remote w (List.length (sent s)) (devices_request s)) as [j|].
      * destruct (parse_inventory j); intros [= <- <-];
          eexists; (split; [reflexivity | simpl; lia]).
      * intros [= <- <-]. eexists; (split; [reflexivity | simpl; lia]).
    + intros [= <- <-]. apply (sent_since_weaken 0); [lia | now apply sent_since_refl].
Qed.

Lemma run_tasks_sent sensors st en s r s' :
  run_tasks w sensors st en s = (r, s') -> sent_since (List.length sensors) s s'.
Proof.
  revert s r s'. induction sensors as [|si sensors IH]; intros s r s'.
  - intros [= <- <-]. now apply sent_since_refl.
  - rewrite run_tasks_cons.
    destruct (fetch_single_sensor_data w si st en s) as [r1 s1] eqn:Hone.
    destruct (run_tasks w sensors st en s1) as [[futures|e] s2] eqn:Hrest;
      intros [= <- <-]; simpl List.length;
      (apply (sent_since_trans 1 (List.length sensors) s s1 s2);
       [apply (fetch_single_frame w si st en s r1 s1 Hone) | apply (IH _ _ _ Hrest)]).
Qed.

(** X12. One run of the orchestrator sends at most one inventory request
    and at most one reading request per sensor of the inventory; when the
    inventory call fails it sends at most that one request. *)
Theorem fetch_all_request_bound days max_workers s r s' :
  fetch_all_rainfall_data_parallel w days max_workers s = (r, s') ->
  match get_all_rainfall_sensors_with_device_info w (tick s) with
  | (Ok sensors, _) => sent_since (1 + List.length sensors) s s'
  | (Raise _, _) => sent_since 1 s s'
  end.
Proof.
  rewrite fetch_all_run. cbv zeta.
  destruct (get_all_rainfall_sensors_with_device_info w (tick s))
    as [[sensors|e] s1] eqn:Hinv.
  2:{ intros [= <- <-]. apply (get_all_sent _ _ _ Hinv). }
  pose proof (get_all_sent _ _ _ Hinv) as H1. change (sent (tick s)) with (sent s) in H1.
  assert (Hs1 : sent_since 1 s s1) by exact H1.
  assert (Hweak : sent_since (1 + List.length sensors) s s1)
    by (apply (sent_since_weaken 1); [lia | exact Hs1]).
  destruct (negb (_CI w) && _); [intros [= <- <-]; exact Hweak|].
  destruct (max_workers =? 0)%nat; [intros [= <- <-]; exact Hweak|].
  destruct (run_tasks w sensors _ _ (tick s1)) as [[futures|e] s2] eqn:Hrun.
  2:{ destruct (run_tasks_never_raises sensors
                  (fst (window_strings (clock w (ticks s)) days))
                  (snd (window_strings (clock w (ticks s)) days)) (tick s1))
        as (f & s3 & Hok). congruence. }
  pose proof (run_tasks_sent _ _ _ _ _ _ Hrun) as H2.
  assert (Hs2 : sent_since (1 + List.length sensors) s s2).
  { apply (sent_since_trans 1 (List.length sensors) s s1 s2); [exact Hs1 | exact H2]. }
  assert (Hany : forall s3, sent s3 = sent s2 ->
                            sent_since (1 + List.length sensors) s s3).
  { intros s3 H3. destruct Hs2 as (l & Hl & Hlen). exists l. rewrite H3. auto. }
  destruct (collect _ _ _) as [[all_data n]|e]; [|intros [= <- <-]; now apply Hany].
  unfold after_summary.
  destruct (_CI w); [intros [= <- <-]; now apply Hany|].
  destruct (List.length sensors =? 0)%nat; intros [= <- <-]; now apply Hany.
Qed.

(** ** What the operations leave alone *)

Section Moves.
Variable R : Sys -> Sys -> Prop.
Hypothesis R_trans : forall s1 s2 s3, R s1 s2 -> R s2 s3 -> R s1 s3.
Hypothesis R_self : forall s s', self s' = self s -> R s s'.

Lemma moves_fetch_all days max_workers :
  moves R (get_all_rainfall_sensors_with_device_info w) ->
  (forall si st en, moves R (fetch_single_sensor_data w si st en)) ->
  moves R (fetch_all_rainfall_data_parallel w days max_workers).
Proof.
  intros Hinv Hone s r s'. rewrite fetch_all_run. cbv zeta.
  destruct (get_all_rainfall_sensors_with_device_info w (tick s))
    as [r1 s1] eqn:Hget.
  assert (Hs1 : R s s1).
  { apply (R_trans s (tick s) s1); [now apply R_self | exact (Hinv _ _ _ Hget)]. }
  destruct r1 as [sensors|e]; [|intros [= <- <-]; exact Hs1].
  destruct (negb (_CI w) && _); [intros [= <- <-]; exact Hs1|].
  assert (Hs1' : R s (tick s1)).
  { apply (R_trans s s1); [exact Hs1 | now apply R_self]. }
  destruct (max_workers =? 0)%nat; [intros [= <- <-]; exact Hs1'|].
  assert (Htasks : forall sensors st en s0 r0 s2,
             run_tasks w sensors st en s0 = (r0, s2) -> R s0 s2).
  { clear - R_trans R_self Hone. induction sensors as [|si sensors IH];
      intros st en s0 r0 s2.
    - intros [= <- <-]. now apply R_self.
    - rewrite run_tasks_cons.
      destruct (fetch_single_sensor_data w si st en s0) as [r1 s1] eqn:H1.
      destruct (run_tasks w sensors st en s1) as [[futures|e] s3] eqn:H2;
        intros [= <- <-];
        (apply (R_trans s0 s1); [exact (Hone _ _ _ _ _ _ H1) | exact (IH _ _ _ _ _ H2)]). }
  destruct (run_tasks w sensors _ _ (tick s1)) as [r2 s2] eqn:Hrun.
  assert (Hs2 : R s s2).
  { apply (R_trans s (tick s1)); [exact Hs1' | exact (Htasks _ _ _ _ _ _ Hrun)]. }
  assert (Hany : forall s3, self s3 = self s2 -> R s s3).
  { intros s3 H3. apply (R_trans s s2); [exact Hs2 | now apply R_self]. }
  destruct r2 as [futures|e]; [|intros [= <- <-]; exact Hs2].
  destruct (collect _ _ _) as [[all_data n]|e]; [|intros [= <- <-]; exact Hs2].
  unfold after_summary.
  destruct (_CI w); [intros [= <- <-]; now apply Hany|].
  destruct (List.length sensors =? 0)%nat; intros [= <- <-]; now apply Hany.
Qed.

End Moves.

Lemma ledger_grows_trans s1 s2 s3 :
  ledger_grows s1 s2 -> ledger_grows s2 s3 -> ledger_grows s1 s3.
Proof. unfold ledger_grows. auto. Qed.

Lemma ledger_grows_self s s' : self s' = self s -> ledger_grows s s'.
Proof. unfold ledger_grows, ledger. now intros ->. Qed.

Lemma same_session_trans s1 s2 s3 :
  same_session s1 s2 -> same_session s2 s3 -> same_session s1 s3.
Proof. unfold same_session. intros [] []. split; congruence. Qed.

Lemma same_session_self s s' : self s' = self s -> same_session s s'.
Proof. unfold same_session. now intros ->. Qed.

Lemma run_call_ledger c s : ledger_grows s (run_call w c s).
Proof.
  assert (Hsame : forall s', ledger s' = ledger s -> ledger_grows s s').
  { unfold ledger_grows. now intros s' ->. }
  destruct c; simpl.
  - destruct (login w email password s) as [r s'] eqn:E. simpl.
    apply Hsame. apply (login_frame _ _ _ _ _ _ E).
  - destruct (get_rainfall_data w sensor_company_id start_date end_date use_cache s)
      as [r s'] eqn:E. simpl.
    apply Hsame. apply (get_rainfall_data_frame _ _ _ _ _ _ _ _ E).
  - destruct (get_all_rainfall_sensors_with_device_info w s) as [r s'] eqn:E. simpl.
    apply Hsame. apply (inventory_frame _ _ _ E).
  - destruct (fetch_single_sensor_data w sensor_info start_date end_date s)
      as [r s'] eqn:E. simpl.
    unfold ledger_grows. apply (fetch_single_frame _ _ _ _ _ _ _ E).
  - destruct (fetch_all_rainfall_data_parallel w days max_workers s) as [r s'] eqn:E.
    simpl. revert E. apply (moves_fetch_all ledger_grows).
    + exact ledger_grows_trans.
    + exact ledger_grows_self.
    + intros s0 r0 s1 E. unfold ledger_grows.
      now rewrite (proj1 (proj2 (proj2 (inventory_frame _ _ _ E)))).
    + intros si st en s0 r0 s1 E. unfold ledger_grows.
      apply (fetch_single_frame _ _ _ _ _ _ _ E).
Qed.

(** X13. No client operation removes a key from the duplicate ledger:
    whatever sequence of operations is run, a key the ledger held before is
    still there afterwards. *)
Theorem ledger_is_never_evicted calls s k :
  In k (Dict.keys (ledger s)) -> In k (Dict.keys (ledger (run_calls w calls s))).
Proof.
  revert s. induction calls as [|c calls IH]; intros s Hk; simpl; [exact Hk|].
  apply IH. now apply run_call_ledger.
Qed.

Lemma run_call_session c s : is_login c = false -> same_session s (run_call w c s).
Proof.
  destruct c; simpl; try discriminate; intros _.
  - destruct (get_rainfall_data w sensor_company_id start_date end_date use_cache s)
      as [r s'] eqn:E. simpl.
    split; apply (get_rainfall_data_frame _ _ _ _ _ _ _ _ E).
  - destruct (get_all_rainfall_sensors_with_device_info w s) as [r s'] eqn:E. simpl.
    split; apply (inventory_frame _ _ _ E).
  - destruct (fetch_single_sensor_data w sensor_info start_date end_date s)
      as [r s'] eqn:E. simpl.
    split; apply (fetch_single_frame _ _ _ _ _ _ _ E).
  - destruct (fetch_all_rainfall_data_parallel w days max_workers s) as [r s'] eqn:E.
    simpl. revert E. apply (moves_fetch_all same_session).
    + exact same_session_trans.
    + exact same_session_self.
    + intros s0 r0 s1 E. split; apply (inventory_frame _ _ _ E).
    + intros si st en s0 r0 s1 E. split; apply (fetch_single_frame _ _ _ _ _ _ _ E).
Qed.

(** X14. Only [login] changes the session: any sequence of the other
    operations leaves the token and the company id as they were. *)
Theorem only_login_changes_the_session calls s :
  forallb (fun c => negb (is_login c)) calls = true ->
  access_token (self (run_calls w calls s)) = access_token (self s) /\
  company_id (self (run_calls w calls s)) = company_id (self s).
Proof.
  revert s. induction calls as [|c calls IH]; intros s H; simpl in *; [auto|].
  apply andb_true_iff in H. destruct H as [Hc Hrest].
  apply negb_true_iff in Hc.
  destruct (IH (run_call w c s) Hrest) as [Ht Hco].
  destruct (run_call_session c s Hc) as [Ht' Hco']. split; congruence.
Qed.

End OrchestratorFacts.

(** ** More on the transformer *)

Section TransformOrder.
Context {rt : PyRuntime}.

Lemma key_get_key_set_same {V} (a : string) (v : V) (d : list (Json * V)) :
  key_get (JStr a) (key_set (JStr a) v d) = Some v.
Proof.
  induction d as [|[k v0] d IH]; simpl.
  - now rewrite String.eqb_refl.
  - destruct (py_key_eq k (JStr a)) eqn:E; simpl; rewrite E; auto.
Qed.

Lemma device_info_map_lookup sensors sids :
  has_ids sensors sids ->
  forall acc m sid,
    device_info_map_of sensors acc = Ok m ->
    key_get (JStr sid) m =
    match descriptor_for sid sensors with
    | Some found => Some found
    | None => key_get (JStr sid) acc
    end.
Proof.
  unfold has_ids. revert sids.
  induction sensors as [|si sensors IH]; intros [|sid0 sids] Hids acc m sid;
    simpl in Hids; try discriminate.
  - simpl. now intros [= ->].
  - injection Hids as Hid Hids. simpl. rewrite Hid. simpl. intros Hm.
    rewrite (IH sids Hids _ _ sid Hm).
    destruct (descriptor_for sid sensors); [reflexivity|].
    destruct (String.eqb sid0 sid) eqn:E.
    + apply String.eqb_eq in E. subst. apply key_get_key_set_same.
    + apply key_get_key_set_other. intros ->. now rewrite String.eqb_refl in E.
Qed.

Lemma extend_singletons_forall2 {A} (P : A -> TransformedRecord.t -> Prop)
    (body : A -> result TransformedRecord.t) (xs : list A) :
  Forall (fun x => exists row, body x = Ok row /\ P x row) xs ->
  exists rows,
    extend (fun x => match body x with Ok row => Ok [row] | Raise e => Raise e end) xs
      = Ok rows /\
    Forall2 P xs rows.
Proof.
  induction 1 as [|x xs (row & Hx & HP) _ (rows & Hrest & Hall)]; simpl.
  - exists []. split; [reflexivity | constructor].
  - exists (row :: rows). rewrite Hx, Hrest. split; [reflexivity | now constructor].
Qed.

Lemma extend_flat {A B} (P : B -> TransformedRecord.t -> Prop) (items : A -> list B)
    (body : A -> result (list TransformedRecord.t)) (xs : list A) :
  Forall (fun x => exists rows, body x = Ok rows /\ Forall2 P (items x) rows) xs ->
  exists rows, extend body xs = Ok rows /\ Forall2 P (flat_map items xs) rows.
Proof.
  induction 1 as [|x xs (here & Hx & HP) _ (there & Hrest & Hall)]; simpl.
  - exists []. split; [reflexivity | constructor].
  - exists (here ++ there). rewrite Hx, Hrest. split; [reflexivity|].
    now apply Forall2_app.
Qed.

Lemma transformed_record_facts now sid info master reading :
  is_dict master = true -> is_dict reading = true ->
  exists row,
    transformed_record now sid info master reading = Ok row /\
    row_facts now sid info reading row.
Proof.
  destruct master; try discriminate. destruct reading; try discriminate. intros _ _.
  unfold transformed_record. simpl. eexists. split; [reflexivity|].
  repeat split.
Qed.

Lemma rows_of_record_facts now sid info g :
  grouping_conforms g = true ->
  exists rows,
    rows_of_record now sid info g = Ok rows /\
    Forall2 (row_facts now sid info) (readings_of g) rows.
Proof.
  destruct g as [| | | | |gm]; try discriminate. simpl.
  intros Hc. apply andb_true_iff in Hc. destruct Hc as [Hm Hr].
  unfold rows_of_record. simpl.
  set (master := match Dict.get "sensor_master" gm with
                 | Some v => v | None => JObj [] end).
  assert (Hmaster : is_dict master = true).
  { unfold master. destruct (Dict.get "sensor_master" gm); auto. }
  destruct (Dict.get "sensor_records" gm) as [[| | | |readings|]|]; try discriminate.
  - simpl. apply extend_singletons_forall2. rewrite forallb_forall in Hr.
    apply Forall_forall. intros reading Hin.
    apply transformed_record_facts; auto.
  - simpl. exists []. split; [reflexivity | constructor].
Qed.

Lemma rows_of_sensor_facts now m sid payload :
  payload_conforms payload = true ->
  exists rows,
    rows_of_sensor now m sid payload = Ok rows /\
    Forall2 (row_facts now sid
               (match key_get (JStr sid) m with Some info => info | None => [] end))
            (readings_of_entry payload) rows.
Proof.
  intros Hc. unfold rows_of_sensor, readings_of_entry.
  destruct payload as [| | | | |pm]; try discriminate.
  - simpl. exists []. split; [reflexivity | constructor].
  - destruct (py_truthy (JObj pm)) eqn:Htruthy; simpl negb; cbv iota.
    2:{ exists []. split; [reflexivity | constructor]. }
    unfold payload_conforms in Hc. unfold status_ok in *. simpl py_get in *.
    cbv beta iota in *.
    match goal with
    | |- context [py_eq_str ?x "OK"] => destruct (py_eq_str x "OK")
    end; simpl andb; cbv iota.
    2:{ exists []. split; [reflexivity | constructor]. }
    unfold groupings_of.
    destruct (Dict.get "data" pm) as [[| | | | |dm]|]; try discriminate.
    + simpl py_get. destruct (Dict.get "data" dm) as [[| | | |gs|]|]; try discriminate.
      * simpl py_iter. apply extend_flat. rewrite forallb_forall in Hc.
        apply Forall_forall. intros g Hin. apply rows_of_record_facts. now apply Hc.
      * simpl. exists []. split; [reflexivity | constructor].
    + simpl. exists []. split; [reflexivity | constructor].
Qed.

(** the rows of a conforming batch, reading by reading *)
Lemma transform_facts ci now rainfall_data sensors sids :
  Forall (fun item => payload_conforms (snd item) = true) rainfall_data ->
  has_ids sensors sids ->
  exists rows,
    transform_rainfall_data ci now rainfall_data sensors = Ok rows /\
    Forall2 (fun (tagged : string * Json) row =>
               row_facts now (fst tagged)
                 (match descriptor_for (fst tagged) sensors with
                  | Some info => info
                  | None => []
                  end)
                 (snd tagged) row)
            (flat_map (fun item => map (pair (fst item)) (readings_of_entry (snd item)))
                      rainfall_data)
            rows.
Proof.
  intros Hconf Hids. unfold transform_rainfall_data.
  destruct (device_info_map_ok sensors sids Hids [] (Forall_nil _))
    as (m & Hm & Hsl & _).
  rewrite Hm. rewrite (forallb_firstn _ 3 m Hsl). rewrite andb_false_r.
  apply extend_flat. eapply Forall_impl; [|exact Hconf].
  intros [sid payload] Hc. simpl in *.
  destruct (rows_of_sensor_facts now m sid payload Hc) as (rows & Hrun & Hall).
  exists rows. split; [exact Hrun|].
  rewrite (device_info_map_lookup sensors sids Hids [] m sid Hm) in Hall.
  clear Hrun. induction Hall as [|reading row l rows Hrow _ IH]; simpl; [constructor|].
  constructor; [|exact IH].
  simpl. destruct (descriptor_for sid sensors); exact Hrow.
Qed.



End TransformOrder.

Section TransformEdges.
Context {rt : PyRuntime}.

Lemma extend_singletons_inv {A} (P : TransformedRecord.t -> Prop)
    (body : A -> result TransformedRecord.t) (xs : list A) (rows : list TransformedRecord.t) :
  (forall x row, body x = Ok row -> P row) ->
  extend (fun x => match body x with Ok row => Ok [row] | Raise e => Raise e end) xs
    = Ok rows ->
  Forall P rows.
Proof.
  intros HP. revert rows. induction xs as [|x xs IH]; simpl; intros rows.
  - intros [= <-]. constructor.
  - destruct (body x) as [row|e] eqn:Hx; [|discriminate].
    destruct (extend _ xs) as [there|e]; [|discriminate].
    intros [= <-]. constructor; eauto.
Qed.

Lemma extend_raises {A} (body : A -> result (list TransformedRecord.t)) (xs : list A) (x : A) (e0 : exn) :
  In x xs -> body x = Raise e0 -> exists e, extend body xs = Raise e.
Proof.
  induction xs as [|y xs IH]; simpl; [tauto|].
  intros [-> | Hin] Hx.
  - rewrite Hx. eauto.
  - destruct (body y) as [here|e]; [|eauto].
    destruct (IH Hin Hx) as [e He]. rewrite He. eauto.
Qed.

(** X17. The rows of a grouping without [sensor_master] are named
    "Unknown" with unit "mm". With a [sensor_master] dict the defaults apply
    only to absent keys: a [sensor_name] that is present but null gives the
    name "None". With a [sensor_master] that is not a dict the grouping
    succeeds only when it has no reading, and then yields no row. *)
Theorem sensor_master_defaults now sid info gm rows :
  rows_of_record now sid info (JObj gm) = Ok rows ->
  match Dict.get "sensor_master" gm with
  | None =>
      Forall (fun row => TransformedRecord.sensor_name row = "Unknown" /\
                         TransformedRecord.sensor_unit row = "mm") rows
  | Some (JObj master) =>
      Forall (fun row => TransformedRecord.sensor_name row = str_field master "sensor_name" "Unknown" /\
                         TransformedRecord.sensor_unit row = str_field master "sensor_unit" "mm") rows /\
      (Dict.get "sensor_name" master = None ->
       str_field master "sensor_name" "Unknown" = "Unknown") /\
      (Dict.get "sensor_name" master = Some JNull ->
       str_field master "sensor_name" "Unknown" = "None")
  | Some _ => rows = []
  end.
Proof.
  unfold rows_of_record. simpl py_get. cbv beta iota.
  destruct (py_iter (match Dict.get "sensor_records" gm with
                     | Some v => v | None => JArr [] end)) as [readings|e];
    [|discriminate].
  intros Hrows.
  destruct (Dict.get "sensor_master" gm) as [master|].
  - destruct master as [| | | | |m].
    6:{ split; [|split].
        - eapply extend_singletons_inv; [|exact Hrows].
          intros reading row. unfold transformed_record. simpl py_get. cbv beta iota.
          destruct (py_get reading "datetime" JNull); [|discriminate].
          destruct (py_get reading "value_calibration" JNull); [|discriminate].
          destruct (py_get reading "value_raw" JNull); [|discriminate].
          intros [= <-]. split; reflexivity.
        - unfold str_field. now intros ->.
        - unfold str_field. now intros ->. }
    all: destruct readings as [|reading readings]; simpl in Hrows;
      [now injection Hrows as <- | discriminate].
  - eapply extend_singletons_inv; [|exact Hrows].
    intros reading row. unfold transformed_record. simpl py_get. cbv beta iota.
    destruct (py_get reading "datetime" JNull); [|discriminate].
    destruct (py_get reading "value_calibration" JNull); [|discriminate].
    destruct (py_get reading "value_raw" JNull); [|discriminate].
    intros [= <-]. split; reflexivity.
Qed.

(** X18. One malformed entry fails the whole transform: if the batch holds
    a response that reports "OK" and whose [data] is present but not a dict
    (null, say), the call raises and returns no row, whatever the other
    entries and the descriptors are. *)
Theorem malformed_entry_aborts_the_batch ci now rainfall_data sensors sid pm v :
  In (sid, JObj pm) rainfall_data ->
  status_ok (JObj pm) = true ->
  Dict.get "data" pm = Some v ->
  is_dict v = false ->
  exists e, transform_rainfall_data ci now rainfall_data sensors = Raise e.
Proof.
  intros Hin Hok Hdata Hbad. unfold transform_rainfall_data.
  destruct (device_info_map_of sensors []) as [m|e]; [|eauto].
  destruct (negb ci && _); [eauto|].
  apply (extend_raises _ rainfall_data (sid, JObj pm) AttributeError Hin).
  unfold rows_of_sensor. cbn [fst snd].
  assert (Htruthy : py_truthy (JObj pm) = true).
  { destruct pm; [discriminate | reflexivity]. }
  rewrite Htruthy. cbn [negb]. unfold status_ok in Hok.
  destruct (py_get (JObj pm) "status" JNull) as [status|]; [|discriminate].
  rewrite Hok. simpl py_get. rewrite Hdata.
  destruct v; try reflexivity. discriminate.
Qed.

End TransformEdges.

(** ** More on the persister *)

Lemma chunks_concat (batch_size : nat) (count : nat) (records : list TransformedRecord.t) :
  List.length records <= count * batch_size ->
  List.concat (map (fun k => firstn batch_size (skipn (k * batch_size) records))
                   (seq 0 count))
  = records.
Proof.
  revert records. induction count as [|count IH]; intros records Hlen.
  - simpl in *. destruct records; [reflexivity | simpl in Hlen; lia].
  - rewrite <- cons_seq, <- seq_shift, map_cons, map_map.
    change (List.concat (?x :: ?l)) with (x ++ List.concat l).
    etransitivity; [|apply (firstn_skipn batch_size records)]. f_equal.
    rewrite <- (IH (skipn batch_size records)).
    + f_equal. apply map_ext. intros k.
      rewrite skipn_skipn. f_equal. f_equal. lia.
    + rewrite length_skipn. simpl in Hlen. lia.
Qed.

Lemma ceil_div_bounds (n b : nat) :
  0 < b -> n <= ((n + b - 1) / b) * b /\ (0 < n -> ((n + b - 1) / b - 1) * b < n).
Proof.
  intros Hb.
  pose proof (Nat.div_mod_eq (n + b - 1) b) as Hdm.
  pose proof (Nat.mod_upper_bound (n + b - 1) b ltac:(lia)) as Hmod.
  split; [nia|]. intros Hn.
  assert (1 <= (n + b - 1) / b).
  { apply Nat.div_le_lower_bound; lia. }
  nia.
Qed.

Lemma batches_of_spec (batch_size : nat) (records : list TransformedRecord.t) :
  0 < batch_size ->
  List.concat (batches_of batch_size records) = records /\
  List.length (batches_of batch_size records)
    = (List.length records + batch_size - 1) / batch_size /\
  Forall (fun batch => 0 < List.length batch <= batch_size)
         (batches_of batch_size records).
Proof.
  intros Hb. unfold batches_of, py_range. rewrite map_map.
  set (count := (List.length records + batch_size - 1) / batch_size).
  destruct (ceil_div_bounds (List.length records) batch_size Hb) as [Hup Hlow].
  fold count in Hup, Hlow.
  split; [now apply chunks_concat|]. split.
  - now rewrite length_map, length_seq.
  - apply Forall_forall. intros batch Hin. apply in_map_iff in Hin.
    destruct Hin as (k & <- & Hk). apply in_seq in Hk.
    rewrite length_firstn, length_skipn.
    assert (0 < List.length records).
    { destruct (Nat.eq_dec (List.length records) 0) as [E|]; [|lia].
      exfalso. unfold count in Hk. rewrite E in Hk.
      rewrite Nat.div_small in Hk by lia. lia. }
    specialize (Hlow H).
    assert (k * batch_size <= (count - 1) * batch_size) by (apply Nat.mul_le_mono_r; lia).
    lia.
Qed.

(** X19. The batches of a persist call partition the records: concatenated
    in order they give the records back, there are ceil(n / batch_size) of
    them, and each holds at least one and at most [batch_size] rows. *)
Theorem batches_partition_the_records (batch_size : nat) (records : list TransformedRecord.t) :
  0 < batch_size ->
  List.concat (batches_of batch_size records) = records /\
  List.length (batches_of batch_size records)
    = (List.length records + batch_size - 1) / batch_size /\
  Forall (fun batch => 0 < List.length batch <= batch_size)
         (batches_of batch_size records).
Proof. apply batches_of_spec. Qed.

Lemma save_batches_all_written (db : Supabase) (batches : list (list TransformedRecord.t))
    (calls total : nat) :
  (forall call rows, db call rows = Inserted rows) ->
  save_batches db calls batches total
  = (calls + List.length batches, total + List.length (List.concat batches)).
Proof.
  intros Hdb. revert calls total.
  induction batches as [|batch batches IH]; intros calls total; simpl.
  - f_equal; lia.
  - rewrite Hdb, IH, length_app. f_equal; lia.
Qed.

Lemma retry_rows_bounds (db : Supabase) (batch : list TransformedRecord.t) (calls : nat) :
  saved_in_retry db calls batch <= List.length batch.
Proof.
  revert calls. induction batch as [|record rest IH]; intros calls; simpl; [lia|].
  specialize (IH (S calls)). destruct (row_saved db calls record); lia.
Qed.

Lemma save_batches_bounds (db : Supabase) (batches : list (list TransformedRecord.t))
    (calls total : nat) :
  let '(calls', total') := save_batches db calls batches total in
  calls + List.length batches <= calls' /\
  calls' <= calls + List.length batches + List.length (List.concat batches) /\
  total <= total' /\
  (reports_rows_given db -> total' <= total + List.length (List.concat batches)).
Proof.
  revert calls total.
  induction batches as [|batch batches IH]; intros calls total; simpl.
  - repeat split; lia.
  - destruct (db calls batch) as [written|] eqn:Hdb.
    + specialize (IH (S calls) (total + List.length written)).
      destruct (save_batches db (S calls) batches (total + List.length written))
        as [calls' total'].
      destruct IH as (H1 & H2 & H3 & H4). rewrite length_app.
      repeat split; try lia.
      intros Hrep. specialize (H4 Hrep). specialize (Hrep _ _ _ Hdb). lia.
    + rewrite retry_rows_run.
      pose proof (retry_rows_bounds db batch (S calls)) as Hretry.
      specialize (IH (S calls + List.length batch)
                     (total + saved_in_retry db (S calls) batch)).
      destruct (save_batches db _ batches _) as [calls' total'].
      destruct IH as (H1 & H2 & H3 & H4). rewrite length_app.
      repeat split; try lia.
      intros Hrep. specialize (H4 Hrep). lia.
Qed.

(** X20. When the destination writes every row of every insert, persisting
    a non-empty list reports exactly the number of records, with one insert
    call per batch and no row-level retry. *)
Theorem persist_reports_every_row_written (db : Supabase) (records : list TransformedRecord.t) :
  records <> [] ->
  (forall call rows, db call rows = Inserted rows) ->
  save_to_supabase db records = (true, Some (List.length records)) /\
  fst (save_batches db 0 (batches_of SUPABASE_BATCH_SIZE records) 0)
  = (List.length records + SUPABASE_BATCH_SIZE - 1) / SUPABASE_BATCH_SIZE.
Proof.
  intros Hne Hdb.
  destruct (batches_of_spec SUPABASE_BATCH_SIZE records)
    as (Hconcat & Hcount & _).
  { unfold SUPABASE_BATCH_SIZE. lia. }
  unfold save_to_supabase. destruct records as [|r records]; [congruence|].
  rewrite (save_batches_all_written db _ 0 0 Hdb). rewrite Hconcat, Hcount.
  split; reflexivity.
Qed.

(** X21. A persist call makes at least one insert call per batch and at
    most one per batch plus one per record; and when the destination never
    reports more rows than an insert gave it, the reported total never
    exceeds the number of records. *)
Theorem persist_accounting (db : Supabase) (records : list TransformedRecord.t) :
  let run := save_batches db 0 (batches_of SUPABASE_BATCH_SIZE records) 0 in
  let batches := (List.length records + SUPABASE_BATCH_SIZE - 1) / SUPABASE_BATCH_SIZE in
  batches <= fst run <= batches + List.length records /\
  (reports_rows_given db ->
   forall total, snd (save_to_supabase db records) = Some total ->
                 total <= List.length records).
Proof.
  intros run batches.
  destruct (batches_of_spec SUPABASE_BATCH_SIZE records) as (Hconcat & Hcount & _).
  { unfold SUPABASE_BATCH_SIZE. lia. }
  pose proof (save_batches_bounds db (batches_of SUPABASE_BATCH_SIZE records) 0 0)
    as Hb.
  fold run in Hb. unfold save_to_supabase. fold batches in Hcount.
  destruct records as [|r records].
  - simpl in *. split; [|discriminate].
    unfold run, batches. simpl. lia.
  - fold run. destruct run as [calls total']. rewrite Hconcat, Hcount in Hb.
    destruct Hb as (H1 & H2 & _ & H4). simpl fst. split; [lia|].
    intros Hrep total [= <-]. specialize (H4 Hrep). lia.
Qed.

(** ** The run *)

Section RunFacts.
Context {rt : PyRuntime} (w : World) (p : Process).

(** X22. When the e-mail or the password is unset or empty, the run ends
    at once: it reads the clock once, sends nothing and creates no client
    state. *)
Theorem run_without_credentials s :
  unset (MERTANI_USER_EMAIL p) || unset (MERTANI_USER_PASSWORD p) = true ->
  main w p s = (Ok MissingCredentials, tick s).
Proof.
  intros H. unfold main. unfold bind at 1. unfold time_time at 1. now rewrite H.
Qed.

Lemma main_run s :
  unset (MERTANI_USER_EMAIL p) || unset (MERTANI_USER_PASSWORD p) = false ->
  main w p s =
  match login w (getenv (MERTANI_USER_EMAIL p)) (getenv (MERTANI_USER_PASSWORD p))
              (started s) with
  | (Raise e, s1) => (Raise e, s1)
  | (Ok _, s1) =>
      match get_all_rainfall_sensors_with_device_info w s1 with
      | (Raise e, s2) => (Raise e, s2)
      | (Ok [], s2) => (Ok NoSensors, s2)
      | (Ok sensors, s2) =>
          match fetch_all_rainfall_data_parallel w 1 10 s2 with
          | (Raise e, s3) => (Raise e, s3)
          | (Ok rainfall_data, s3) =>
              match synchronize w p rainfall_data sensors s3 with
              | (Raise e, s4) => (Raise e, s4)
              | (Ok persisted, s4) =>
                  (Ok (Summary (Dict.len rainfall_data)
                               (count_not_none rainfall_data) persisted),
                   tick s4)
              end
          end
      end
  end.
Proof.
  intros H. unfold main. unfold bind at 1. unfold time_time at 1. rewrite H.
  unfold bind at 1. unfold new_api, update_self at 1. fold (started s).
  unfold bind at 1.
  destruct (login w _ _ (started s)) as [[j|e] s1]; [|reflexivity].
  unfold bind at 1.
  destruct (get_all_rainfall_sensors_with_device_info w s1) as [[sensors|e] s2];
    [|reflexivity].
  destruct sensors as [|si sensors]; [reflexivity|].
  unfold bind at 1.
  destruct (fetch_all_rainfall_data_parallel w 1 10 s2) as [[rainfall_data|e] s3];
    [|reflexivity].
  unfold bind at 1.
  destruct (synchronize w p rainfall_data (si :: sensors) s3) as [[persisted|e] s4];
    reflexivity.
Qed.

(** X23. When the login raises, the run ends with that exception and the
    login request is the only request it has sent. *)
Theorem run_stops_at_a_failed_login s e s1 :
  unset (MERTANI_USER_EMAIL p) || unset (MERTANI_USER_PASSWORD p) = false ->
  login w (getenv (MERTANI_USER_EMAIL p)) (getenv (MERTANI_USER_PASSWORD p)) (started s)
    = (Raise e, s1) ->
  main w p s = (Raise e, s1) /\
  sent s1 = sent s ++ [POST_login (getenv (MERTANI_USER_EMAIL p))
                                  (getenv (MERTANI_USER_PASSWORD p))].
Proof.
  intros Hcred Hlogin. rewrite (main_run s Hcred), Hlogin. split; [reflexivity|].
  apply (login_frame _ _ _ _ _ _ Hlogin).
Qed.

(** X24. A run that ends for lack of sensors has sent exactly two requests,
    the login and the inventory request, and has fetched no reading: its
    reading cache and ledger are empty. *)
Theorem run_with_empty_inventory s s' :
  main w p s = (Ok NoSensors, s') ->
  exists company,
    sent s' = sent s ++ [POST_login (getenv (MERTANI_USER_EMAIL p))
                                    (getenv (MERTANI_USER_PASSWORD p));
                         GET_devices company DEVICES_API_LIMIT] /\
    reading_cache s' = [] /\ ledger s' = [].
Proof.
  destruct (unset (MERTANI_USER_EMAIL p) || unset (MERTANI_USER_PASSWORD p)) eqn:Hcred.
  { rewrite (run_without_credentials s Hcred). discriminate. }
  rewrite (main_run s Hcred).
  destruct (login w _ _ (started s)) as [[j|e] s1] eqn:Hlogin; [|discriminate].
  pose proof (login_frame _ _ _ _ _ _ Hlogin) as (Hsent & _ & Hsc & Hts & Hl & Hc).
  destruct (get_all_rainfall_sensors_with_device_info w s1) as [[sensors|e] s2] eqn:Hinv;
    [|discriminate].
  destruct sensors as [|si sensors].
  2:{ repeat (break_match; try discriminate). }
  intros [= <-].
  pose proof (inventory_frame _ _ _ _ Hinv) as (_ & _ & Hl2 & Hc2).
  rewrite get_all_run in Hinv.
  assert (Hfresh : fresh_sensors (self s1) (clock w (ticks s1)) = None).
  { unfold fresh_sensors. rewrite Hsc. reflexivity. }
  rewrite Hfresh in Hinv.
  destruct (has_session s1); [|discriminate]. cbv zeta in Hinv.
  exists (py_str (company_id (self s1))).
  destruct (remote w (List.length (sent s1)) (devices_request s1)) as [j'|];
    [|discriminate].
  destruct (parse_inventory j'); [|discriminate].
  injection Hinv as _ <-. simpl. rewrite Hsent. simpl.
  rewrite <- app_assoc. split; [reflexivity|].
  unfold reading_cache, ledger in *. simpl in *. rewrite Hc, Hl. auto.
Qed.

End RunFacts.

(** ** Concrete runs of the further properties *)

Lemma reading_fetch_requires_session_witness :
  let run := get_rainfall_data (demo_world demo_devices) (JStr "s1") "a" "b" true boot in
  (fst run = Raise LoginRequired <-> has_session boot = false) /\
  (has_session boot = false -> snd run = boot).
Proof.
  intros run.
  apply (reading_fetch_requires_session (demo_world demo_devices) (JStr "s1") "a" "b"
           true boot (fst run) (snd run)).
  reflexivity.
Defined.

Lemma reading_fetch_without_cache_witness :
  let w := demo_world demo_devices in
  let run := get_rainfall_data w (JStr "s1") "a" "b" false logged_in in
  snd run = after_request (records_request (JStr "s1") "a" "b") logged_in /\
  fst run = Ok (ok_response [reading "t1" 5%Q]).
Proof.
  intros w run.
  destruct (reading_fetch_without_cache w (JStr "s1") "a" "b" logged_in eq_refl)
    as [Hstate Hresult].
  split; [exact Hstate | exact Hresult].
Defined.

Lemma stale_entry_is_refetched_witness :
  let w := demo_world demo_devices in
  let s := at_tick 40 (snd (get_rainfall_data w (JStr "s1") "a" "b" true logged_in)) in
  exists s',
    get_rainfall_data w (JStr "s1") "a" "b" true s
      = (Ok (ok_response [reading "t1" 5%Q]), s') /\
    sent s' = sent s ++ [records_request (JStr "s1") "a" "b"] /\
    Dict.get (cache_key_of (JStr "s1") "a" "b") (reading_cache s')
      = Some {| data := ok_response [reading "t1" 5%Q]; timestamp := clock w 41 |}.
Proof.
  intros w s.
  apply (stale_entry_is_refetched w (JStr "s1") "a" "b" s
           {| data := ok_response [reading "t1" 5%Q]; timestamp := 0%Q |}).
  - reflexivity.
  - reflexivity.
  - vm_compute. discriminate.
  - reflexivity.
  - reflexivity.
Defined.

Lemma failed_reading_fetch_changes_nothing_witness :
  let w := demo_world demo_devices in
  let run := get_rainfall_data w (JStr "s9") "a" "b" true logged_in in
  (exists e, fst run = Raise e) /\
  sent (snd run) = (sent logged_in ++ [records_request (JStr "s9") "a" "b"])%list /\
  self (snd run) = self logged_in.
Proof.
  intros w run.
  destruct (failed_reading_fetch_changes_nothing w (JStr "s9") "a" "b" true logged_in
              (fst run) (snd run)) as (Hsent & Hself & _).
  - reflexivity.
  - split; [eexists; vm_compute; reflexivity|].
    split; [vm_compute; reflexivity|].
    eapply Hself. vm_compute. reflexivity.
Defined.

Lemma insertion_below_capacity_evicts_nothing_witness :
  let w := demo_world demo_devices in
  let s := snd (get_rainfall_data w (JStr "s1") "a" "b" true logged_in) in
  let run := get_rainfall_data w (JStr "s2") "a" "b" true s in
  (exists now,
      reading_cache (snd run) =
        Dict.set (cache_key_of (JStr "s2") "a" "b")
                 {| data := ok_response [reading "t2" 7%Q]; timestamp := now |}
                 (reading_cache s)) /\
  Dict.get (cache_key_of (JStr "s1") "a" "b") (reading_cache (snd run))
  = Dict.get (cache_key_of (JStr "s1") "a" "b") (reading_cache s).
Proof.
  intros w s run.
  destruct (insertion_below_capacity_evicts_nothing w (JStr "s2") "a" "b" s
              (ok_response [reading "t2" 7%Q]) (snd run)) as [Hset Hother].
  - reflexivity.
  - vm_compute. discriminate.
  - apply Nat.ltb_lt. vm_compute. reflexivity.
  - split; [exact Hset|]. apply Hother. vm_compute. discriminate.
Defined.

Lemma inventory_cache_hit_within_ttl_witness :
  let w := demo_world demo_devices in
  let run := get_all_rainfall_sensors_with_device_info w logged_in in
  get_all_rainfall_sensors_with_device_info w (snd run)
  = (Ok (flat_map descriptors_of demo_devices), tick (snd run)).
Proof.
  intros w run.
  destruct (inventory_cache_hit_within_ttl w logged_in
              (flat_map descriptors_of demo_devices) (snd run) eq_refl)
    as (stamp & _ & _ & Hstamp & Hhit).
  apply Hhit. rewrite Hstamp.
  - vm_compute. reflexivity.
  - vm_compute. discriminate.
Defined.

Lemma inventory_failure_has_no_fallback_witness :
  let s := at_tick 100
             (snd (get_all_rainfall_sensors_with_device_info
                     (demo_world demo_devices) logged_in)) in
  let run := get_all_rainfall_sensors_with_device_info failing_world s in
  fst run = Raise DeviceListFailed /\ self (snd run) = self s.
Proof.
  intros s run.
  destruct (inventory_failure_has_no_fallback failing_world s (fst run) (snd run) eq_refl)
    as (Hself & Hraise & _).
  assert (Hr : fst run = Raise DeviceListFailed).
  { apply (Hraise eq_refl eq_refl (JStr "ERROR")); reflexivity. }
  split; [exact Hr | exact (Hself _ Hr)].
Defined.

Lemma inventory_flattening_witness :
  exists sensors,
    flatten_devices demo_devices = Ok sensors /\ List.length sensors = 3.
Proof.
  destruct (inventory_flattening demo_devices eq_refl) as (sensors & Hrun & Hlen & _).
  exists sensors. split; [exact Hrun | exact Hlen].
Defined.

Lemma login_outcome_witness :
  let w := demo_world demo_devices in
  let run := login w "user" "secret" boot in
  access_token (self (snd run)) = JStr "token" /\
  company_id (self (snd run)) = JStr "acme".
Proof.
  intros w run.
  destruct (login_outcome w "user" "secret" boot (fst run) (snd run) eq_refl)
    as (_ & _ & _ & _ & _ & Hreply).
  destruct (Hreply (JStr "OK") eq_refl
              [("accessToken", JStr "token");
               ("user", JObj [("company_id", JStr "acme")])]
              [("company_id", JStr "acme")] eq_refl eq_refl) as (_ & Htoken & Hcompany).
  split; [exact Htoken | exact Hcompany].
Defined.

Lemma repeat_after_interval_is_served_from_cache_witness :
  let w := demo_world demo_devices in
  let s := at_tick 7 (snd (fetch_single_sensor_data w (sensor "s1") "a" "b" logged_in)) in
  exists s',
    fetch_single_sensor_data w (sensor "s1") "a" "b" s
      = (Ok (JStr "s1", ok_response [reading "t1" 5%Q], display_name_of (sensor "s1"),
             true), s') /\
    sent s' = sent s.
Proof.
  intros w s.
  destruct (repeat_after_interval_is_served_from_cache w (sensor "s1") "s1" "a" "b" s
              10%Q {| data := ok_response [reading "t1" 5%Q]; timestamp := 0%Q |})
    as (s' & Hrun & Hsent & _).
  - reflexivity.
  - reflexivity.
  - reflexivity.
  - vm_compute. discriminate.
  - reflexivity.
  - vm_compute. reflexivity.
  - exists s'. split; [exact Hrun | exact Hsent].
Defined.

Lemma empty_inventory_fetch_witness :
  let w := demo_world [] in
  let s1 := snd (get_all_rainfall_sensors_with_device_info w (tick logged_in)) in
  fetch_all_rainfall_data_parallel w 1 10 logged_in = (Ok [], tick (tick s1)).
Proof.
  intros w s1.
  apply (empty_inventory_fetch w 1 10 logged_in s1).
  - intros A l. apply Permutation_refl.
  - reflexivity.
  - lia.
Defined.

Lemma fetch_all_request_bound_witness :
  let w := demo_world demo_devices in
  sent_since 4 logged_in (snd (fetch_all_rainfall_data_parallel w 1 10 logged_in)).
Proof.
  intros w.
  set (run := fetch_all_rainfall_data_parallel w 1 10 logged_in).
  apply (fetch_all_request_bound w 1 10 logged_in (fst run) (snd run)).
  vm_compute. reflexivity.
Defined.

Lemma ledger_is_never_evicted_witness :
  let w := demo_world demo_devices in
  let s := snd (fetch_single_sensor_data w (sensor "s1") "a" "b" logged_in) in
  In (cache_key_of (JStr "s1") "a" "b")
     (Dict.keys (ledger (run_calls w [CallLogin "user" "secret"; CallFetchAll 1 10] s))).
Proof.
  intros w s.
  apply (ledger_is_never_evicted w [CallLogin "user" "secret"; CallFetchAll 1 10] s).
  vm_compute. left. reflexivity.
Defined.

Lemma only_login_changes_the_session_witness :
  let w := demo_world demo_devices in
  let s' := run_calls w [CallFetchAll 1 10; CallGetAllSensors] logged_in in
  access_token (self s') = access_token (self logged_in) /\
  company_id (self s') = company_id (self logged_in).
Proof.
  intros w s'.
  exact (only_login_changes_the_session w [CallFetchAll 1 10; CallGetAllSensors]
           logged_in eq_refl).
Defined.



Lemma sensor_master_defaults_witness :
  let gm := [("sensor_records", JArr [reading "t1" 5%Q])] in
  Forall (fun row => TransformedRecord.sensor_name row = "Unknown" /\ TransformedRecord.sensor_unit row = "mm")
         (match rows_of_record "now" "s1" [] (JObj gm) with
          | Ok rows => rows
          | Raise _ => []
          end).
Proof.
  intros gm.
  apply (sensor_master_defaults "now" "s1" [] gm). reflexivity.
Defined.

Lemma malformed_entry_aborts_the_batch_witness :
  let bad := [("status", JStr "OK"); ("data", JNull)] in
  exists e,
    transform_rainfall_data true "now"
      [("s1", ok_response [reading "t1" 5%Q]); ("s2", JObj bad)] scenario_sensors
    = Raise e.
Proof.
  intros bad.
  apply (malformed_entry_aborts_the_batch true "now" _ scenario_sensors "s2" bad JNull).
  - right. left. reflexivity.
  - reflexivity.
  - reflexivity.
  - reflexivity.
Defined.

Lemma batches_partition_the_records_witness :
  batches_of 2 [demo_row "s1"; demo_row "s2"; demo_row "s3"]
  = [[demo_row "s1"; demo_row "s2"]; [demo_row "s3"]] /\
  List.concat (batches_of 2 [demo_row "s1"; demo_row "s2"; demo_row "s3"])
  = [demo_row "s1"; demo_row "s2"; demo_row "s3"].
Proof.
  split; [reflexivity|].
  apply (batches_partition_the_records 2 [demo_row "s1"; demo_row "s2"; demo_row "s3"]).
  lia.
Defined.

Lemma persist_reports_every_row_written_witness :
  save_to_supabase obliging_db [demo_row "s1"; demo_row "s2"] = (true, Some 2).
Proof.
  apply (persist_reports_every_row_written obliging_db [demo_row "s1"; demo_row "s2"]).
  - discriminate.
  - reflexivity.
Defined.

Lemma persist_accounting_witness :
  let records := [demo_row "s1"; demo_row "s2"; demo_row "s3"] in
  1 <= fst (save_batches flaky_db 0 (batches_of SUPABASE_BATCH_SIZE records) 0) <= 4 /\
  exists total, snd (save_to_supabase flaky_db records) = Some total /\ total <= 3.
Proof.
  intros records.
  destruct (persist_accounting flaky_db records) as [Hcalls Htotal].
  split; [exact Hcalls|].
  eexists. split; [vm_compute; reflexivity|].
  apply Htotal; [|vm_compute; reflexivity].
  intros call rows written. unfold flaky_db.
  destruct rows as [|r [|r' rows]]; try discriminate.
  destruct (String.eqb (TransformedRecord.sensor_company_id r) "s2"); [discriminate|].
  intros [= <-]. simpl. lia.
Defined.

Lemma run_without_credentials_witness :
  main (demo_world demo_devices) no_credentials boot = (Ok MissingCredentials, tick boot).
Proof.
  apply (run_without_credentials (demo_world demo_devices) no_credentials boot).
  reflexivity.
Defined.

Lemma run_stops_at_a_failed_login_witness :
  fst (main failing_world demo_process boot) = Raise LoginFailed /\
  sent (snd (main failing_world demo_process boot)) = [POST_login "user" "secret"].
Proof.
  destruct (run_stops_at_a_failed_login failing_world demo_process boot LoginFailed
              (snd (login failing_world "user" "secret" (started boot))))
    as [Hrun Hsent].
  - reflexivity.
  - reflexivity.
  - rewrite Hrun. split; [reflexivity | exact Hsent].
Defined.

Lemma run_with_empty_inventory_witness :
  exists company,
    sent (snd (main (demo_world []) demo_process boot))
    = [POST_login "user" "secret"; GET_devices company DEVICES_API_LIMIT].
Proof.
  destruct (run_with_empty_inventory (demo_world []) demo_process boot
              (snd (main (demo_world []) demo_process boot)))
    as (company & Hsent & _).
  - vm_compute. reflexivity.
  - exists company. exact Hsent.
Defined.
